(** * HubSpot weekly reports: a shallow embedding and its properties

    Two reporting scripts are modelled here:

    - [weekly_product_report.py]  (module [ProductReport]): deals by product,
      one sheet per product, rows replaced per snapshot week;
    - [hubspot_weekly_report_dynamic_2026.py] (module [OwnerStageReport]):
      amounts by owner and stage, one sheet per owner, one column per week.

    Python values are embedded as the inductive type [pyval]; dictionaries
    with string keys are [gmap string _]; effects (HTTP transport, sleeping,
    the workbook file) are explicit state.  The HTTP transport is a script:
    the list of responses the server will give, one per request. *)

From Stdlib Require Import ZArith String Ascii List Bool Lia SpecFloat.
From stdpp Require Import base option list gmap strings pretty.

Local Open Scope string_scope.
Local Open Scope Z_scope.
Local Open Scope list_scope.
Local Open Scope stdpp_scope.

(** ** Python values *)

(** IEEE 754 binary64, the representation of a Python [float]. *)
Definition float := spec_float.
Definition float_zero : float := S754_zero false.
Definition float_add (x y : float) : float := SFadd 53 1024 x y.

(** The values that JSON decoding and spreadsheet cells produce. *)
#[local] Unset Elimination Schemes.
Inductive pyval : Type :=
| PNone
| PBool (b : bool)
| PInt (z : Z)
| PFloat (x : float)
| PStr (s : string)
| PList (items : list pyval)
| PDict (items : list (string * pyval)).
#[local] Set Elimination Schemes.

(** Python exceptions that the modelled code can raise. *)
Inductive exn : Type :=
| HTTPError (status : Z)
| ConnectionError
| JSONDecodeError
| RuntimeError (msg : string)
| ValueError
| TypeError
| AttributeError
| OverflowError
| KeyError (key : string).

(** A computation either returns or raises. *)
Inductive result (A : Type) : Type :=
| Ok (a : A)
| Raise (e : exn).
Arguments Ok {A} a.
Arguments Raise {A} e.

#[global] Instance result_ret : MRet result := fun _ a => Ok a.
#[global] Instance result_bind : MBind result := fun _ _ k r =>
  match r with
  | Ok a => k a
  | Raise e => Raise e
  end.

(** ** Python strings

    A string is the sequence of its characters; white space and letter
    case are those of the code points below 256. *)
Module PyString.

Definition chars (s : string) : list ascii := list_ascii_of_string s.
Definition of_chars (l : list ascii) : string := string_of_list_ascii l.

(** [str.isspace] on one character. *)
Definition isspace (c : ascii) : bool :=
  let n := nat_of_ascii c in
  ((9 <=? n) && (n <=? 13) || (28 <=? n) && (n <=? 32)
   || (n =? 133) || (n =? 160))%nat.

(** [str.lower] on one character. *)
Definition lower_char (c : ascii) : ascii :=
  let n := nat_of_ascii c in
  if ((65 <=? n) && (n <=? 90)
      || (192 <=? n) && (n <=? 222) && negb (n =? 215))%nat
  then ascii_of_nat (n + 32) else c.

Definition lower (s : string) : string := of_chars (map lower_char (chars s)).

Fixpoint lstrip_chars (l : list ascii) : list ascii :=
  match l with
  | c :: l' => if isspace c then lstrip_chars l' else l
  | [] => []
  end.

(** [s.strip()] *)
Definition strip (s : string) : string :=
  of_chars (rev (lstrip_chars (rev (lstrip_chars (chars s))))).

(** [s.replace(old, new)] for one-character [old] and [new]. *)
Definition replace (old new : ascii) (s : string) : string :=
  of_chars (map (fun c => if Ascii.eqb c old then new else c) (chars s)).

(** [s.split(sep)] for a one-character separator: the result is never
    empty, and adjacent separators give empty fields. *)
Fixpoint split_chars (sep : ascii) (cur : list ascii) (l : list ascii)
  : list string :=
  match l with
  | [] => [of_chars (rev cur)]
  | c :: l' =>
      if Ascii.eqb c sep then of_chars (rev cur) :: split_chars sep [] l'
      else split_chars sep (c :: cur) l'
  end.

Definition split (sep : ascii) (s : string) : list string :=
  split_chars sep [] (chars s).

(** [s[:n]] *)
Definition prefix (n : nat) (s : string) : string :=
  of_chars (take n (chars s)).

Definition nonempty (s : string) : bool :=
  match s with EmptyString => false | _ => true end.

(** [a or b] on strings. *)
Definition or_else (a b : string) : string := if nonempty a then a else b.

End PyString.

(** Truth value of a Python object ([bool(v)]). *)
Definition truthy (v : pyval) : bool :=
  match v with
  | PNone => false
  | PBool b => b
  | PInt z => negb (z =? 0)
  | PFloat x => match x with S754_zero _ => false | _ => true end
  | PStr s => PyString.nonempty s
  | PList l => match l with [] => false | _ => true end
  | PDict l => match l with [] => false | _ => true end
  end.

(** [v or d] *)
Definition py_or (v d : pyval) : pyval := if truthy v then v else d.

(** [v == s] for a string [s]: only an equal string compares equal. *)
Definition eq_str (v : pyval) (s : string) : bool :=
  match v with
  | PStr t => String.eqb t s
  | _ => false
  end.

Section Str.
(** [repr] of floats and containers, whose exact text no property below
    depends on. *)
Variable py_repr : pyval -> string.

(** [str(v)] *)
Definition py_str (v : pyval) : string :=
  match v with
  | PNone => "None"
  | PBool true => "True"
  | PBool false => "False"
  | PInt z => pretty z
  | PStr s => s
  | PFloat _ | PList _ | PDict _ => py_repr v
  end.
End Str.

(** ** JSON records of the CRM API *)

(** A deal: [d.get("id")] and [d.get("properties") or {}]. *)
Record deal : Type := {
  deal_id_raw : pyval;
  properties : gmap string pyval;
}.

(** [props.get(key)]: [None] when the key is absent. *)
Definition prop_get (props : gmap string pyval) (key : string) : pyval :=
  default PNone (props !! key).

(** [d.get(key)] on a dictionary with string keys: lists and dictionaries
    are unhashable, any other key that is not a string is absent. *)
Definition dict_get {V} (m : gmap string V) (key : pyval) : result (option V) :=
  match key with
  | PStr k => Ok (m !! k)
  | PList _ | PDict _ => Raise TypeError
  | _ => Ok None
  end.

(** One page of a list or search endpoint: the [results] list and the value
    of [paging.next.after] ([None] when any link of the chain is absent). *)
Record page (A : Type) : Type := {
  results : list A;
  next_after : pyval;
}.
Arguments results {A} _.
Arguments next_after {A} _.

(** ** The HTTP transport *)

(** A response: its status code and its decoded JSON body ([None] for a
    blank text). *)
Record response (B : Type) : Type := {
  status_code : Z;
  body : option B;
}.
Arguments status_code {B} _.
Arguments body {B} _.

(** What the process does to the outside world, in order. *)
Inductive event (R : Type) : Type :=
| Sent (request : R)
| Slept (seconds : Z).
Arguments Sent {R} request.
Arguments Slept {R} seconds.

(** The transport is scripted: [script] holds the responses still to come.
    A request on an exhausted script fails with a connection error. *)
Record world (R B : Type) : Type := {
  script : list (response B);
  trace : list (event R);
}.
Arguments script {R B} _.
Arguments trace {R B} _.

Definition log {R B} (e : event R) (w : world R B) : world R B :=
  {| script := script w; trace := trace w ++ [e] |}.

(** [requests.request(...)]: the next scripted response. *)
Definition send {R B} (req : R) (w : world R B)
  : option (response B) * world R B :=
  match script w with
  | [] => (None, log (Sent req) w)
  | r :: rest => (Some r, {| script := rest; trace := trace w ++ [Sent req] |})
  end.

(** [resp.raise_for_status()] raises for client and server errors only. *)
Definition raise_for_status {B} (r : response B) : result unit :=
  if (400 <=? status_code r) && (status_code r <? 600)
  then Raise (HTTPError (status_code r)) else Ok tt.

Definition sleeps {R} (t : list (event R)) : list Z :=
  omap (fun e => match e with Slept s => Some s | Sent _ => None end) t.

(** * The spreadsheet library

    Both scripts keep their workbook with openpyxl.  What the scripts
    depend on is the title under which the library adds a sheet. *)
Module Openpyxl.

(** ** The title policy

    openpyxl numbers a title that is in use, compared without regard to
    letter case: the new title is the one asked for followed by one more
    than the highest number that follows it among the titles in use. *)

Definition isdigit (c : ascii) : bool :=
  let n := nat_of_ascii c in ((48 <=? n) && (n <=? 57))%nat.

(** The rest of [text] after [value], compared without regard to case. *)
Fixpoint after_prefix (value text : list ascii) : option (list ascii) :=
  match value, text with
  | [], _ => Some text
  | v :: value', t :: text' =>
      if Ascii.eqb (PyString.lower_char v) (PyString.lower_char t)
      then after_prefix value' text' else None
  | _ :: _, [] => None
  end.

Fixpoint span_digits (text : list ascii) : list ascii * list ascii :=
  match text with
  | c :: text' =>
      if isdigit c then let '(d, r) := span_digits text' in (c :: d, r)
      else ([], text)
  | [] => ([], [])
  end.

(** The digit runs that follow the occurrences of [value] in [text]. *)
Fixpoint title_counts (fuel : nat) (value text : list ascii)
  : list (list ascii) :=
  match fuel, text with
  | O, _ | _, [] => []
  | S fuel', _ :: text' =>
      match after_prefix value text with
      | Some rest =>
          let '(digits, rest1) := span_digits rest in
          let rest2 := match rest1 with
                       | c :: r => if Ascii.eqb c "," then r else rest1
                       | [] => []
                       end in
          digits :: title_counts fuel' value
                      (if bool_decide (value = []) then text' else rest2)
      | None => title_counts fuel' value text'
      end
  end.

Definition digits_value (digits : list ascii) : nat :=
  foldl (fun n c => (10 * n + (nat_of_ascii c - 48))%nat) 0%nat digits.

(** [",".join(names)] *)
Fixpoint join_names (names : list string) : string :=
  match names with
  | [] => ""
  | [n] => n
  | n :: rest => n +:+ "," +:+ join_names rest
  end.

(** [avoid_duplicate_name(names, value)] of openpyxl. *)
Definition avoid_duplicate_name (names : list string) (value : string) : string :=
  if existsb (fun n => String.eqb (PyString.lower n) (PyString.lower value)) names
  then
    let text := PyString.chars (join_names names) in
    let counts :=
      filter (fun d => d <> []) (title_counts (length text) (PyString.chars value) text) in
    let highest := foldr Nat.max 0%nat (map digits_value counts) in
    value +:+ pretty (S highest)
  else value.

(** The characters that the library refuses in a title,
    [INVALID_TITLE_REGEX = re.compile(r'[\\*?:/\[\]]')]. *)
Definition INVALID_TITLE : string := "\*?:/[]".

Definition invalid_title (title : string) : bool :=
  existsb (fun c => bool_decide (c ∈ PyString.chars INVALID_TITLE))
    (PyString.chars title).

(** The title of the sheet that [wb.create_sheet(title)] adds to a
    workbook whose sheets are titled [names]: an empty title stands for
    [Sheet], a title with a refused character is a [ValueError], and a
    title in use, compared without regard to letter case, is numbered. *)
Definition new_sheet_title (names : list string) (title : string)
  : result string :=
  let value := PyString.or_else title "Sheet" in
  if invalid_title value then Raise ValueError
  else Ok (avoid_duplicate_name names value).

End Openpyxl.

(** * weekly_product_report.py *)
Module ProductReport.

Section Fetch.
Context {R B : Type}.

(** [r.status_code in (429, 500, 502, 503, 504)] *)
Definition retried_status (s : Z) : bool :=
  (s =? 429) || (s =? 500) || (s =? 502) || (s =? 503) || (s =? 504).

(** The [for attempt in range(retries)] loop of [hubspot_request];
    [remaining] counts the iterations left, [attempt] is the loop index and
    [last] the last response seen. *)
Fixpoint hubspot_request_loop (req : R) (remaining : nat) (attempt : Z)
    (last : option (response B)) (w : world R B)
  : result (option B) * world R B :=
  match remaining with
  | O =>
      match last with
      | Some r =>
          (match raise_for_status r with
           | Raise e => Raise e
           | Ok _ => Raise (RuntimeError "hubspot_request failed without response")
           end, w)
      | None => (Raise (RuntimeError "hubspot_request failed without response"), w)
      end
  | S remaining' =>
      match send req w with
      | (None, w1) => (Raise ConnectionError, w1)
      | (Some r, w1) =>
          if retried_status (status_code r) then
            hubspot_request_loop req remaining' (attempt + 1) (Some r)
              (log (Slept (Z.min (2 ^ attempt) 20)) w1)
          else
            match raise_for_status r with
            | Raise e => (Raise e, w1)
            | Ok _ => (Ok (body r), w1)
            end
      end
  end.

(** [hubspot_request(token, method, path, params=..., json=..., retries=5)];
    the result is [None] for the empty dictionary returned on a blank text. *)
Definition hubspot_request (req : R) (retries : nat) (w : world R B)
  : result (option B) * world R B :=
  hubspot_request_loop req retries 0 None w.

End Fetch.

(** The query of [list_all_deals]: the [after] parameter, when set. *)
Definition deals_query : Type := option pyval.

(** The [while True] loop of [list_all_deals].  Every iteration sends at
    least one request, so [fuel] iterations of the loop body are enough
    whenever [fuel] exceeds the length of the script. *)
Fixpoint list_all_deals_loop (fuel : nat) (deals : list deal)
    (after : option pyval) (w : world deals_query (page deal))
  : option (result (list deal)) * world deals_query (page deal) :=
  match fuel with
  | O => (None, w)
  | S fuel' =>
      match hubspot_request after 5 w with
      | (Raise e, w1) => (Some (Raise e), w1)
      | (Ok pg, w1) =>
          let deals1 := deals ++ from_option results [] pg in
          let nxt := from_option next_after PNone pg in
          if truthy nxt then list_all_deals_loop fuel' deals1 (Some nxt) w1
          else (Some (Ok deals1), w1)
      end
  end.

Definition list_all_deals (w : world deals_query (page deal))
  : option (result (list deal)) * world deals_query (page deal) :=
  list_all_deals_loop (S (length (script w))) [] None w.

(** *** The snapshot week

    A [datetime.date] is given by its proleptic Gregorian ordinal: day 1
    is 0001-01-01, a Monday. *)

(** [d.weekday()]: Monday is 0. *)
Definition weekday (ordinal : Z) : Z := (ordinal + 6) mod 7.

Definition DAYS_BEFORE_MONTH : list Z :=
  [-1; 0; 31; 59; 90; 120; 151; 181; 212; 243; 273; 304; 334].

Definition DAYS_IN_MONTH : list Z :=
  [-1; 31; 28; 31; 30; 31; 30; 31; 31; 30; 31; 30; 31].

(** Year, month and day of an ordinal, as [datetime] computes them. *)
Definition ord2ymd (ordinal : Z) : Z * Z * Z :=
  let n := ordinal - 1 in
  let n400 := n / 146097 in
  let n := n mod 146097 in
  let n100 := n / 36524 in
  let n := n mod 36524 in
  let n4 := n / 1461 in
  let n := n mod 1461 in
  let n1 := n / 365 in
  let n := n mod 365 in
  let year := n400 * 400 + 1 + n100 * 100 + n4 * 4 + n1 in
  if (n1 =? 4) || (n100 =? 4) then (year - 1, 12, 31)
  else
    let leapyear := (n1 =? 3) && (negb (n4 =? 24) || (n100 =? 3)) in
    let month := Z.shiftr (n + 50) 5 in
    let preceding :=
      DAYS_BEFORE_MONTH !!! Z.to_nat month
      + (if (2 <? month) && leapyear then 1 else 0) in
    if n <? preceding then
      let month := month - 1 in
      let preceding :=
        preceding - (DAYS_IN_MONTH !!! Z.to_nat month
                     + (if (month =? 2) && leapyear then 1 else 0)) in
      (year, month, n - preceding + 1)
    else (year, month, n - preceding + 1).

(** A number in decimal, with zeros in front up to [width] digits. *)
Definition zero_padded (width : nat) (z : Z) : string :=
  let digits := pretty z in
  PyString.of_chars
    (replicate (width - length (PyString.chars digits)) "0"%char)
  +:+ digits.

(** [d.isoformat()] *)
Definition isoformat (ordinal : Z) : string :=
  let '(y, m, d) := ord2ymd ordinal in
  zero_padded 4 y +:+ "-" +:+ zero_padded 2 m +:+ "-" +:+ zero_padded 2 d.

(** [week_start_iso(d)]: the Monday of the week of [d]. *)
Definition week_start_iso (d : Z) : string :=
  let monday := d - weekday d in
  isoformat monday.

(** *** Owners *)

(** [(v or "").strip()]: a true value that is not a string has no [strip]. *)
Definition stripped_or_empty (v : pyval) : result string :=
  if truthy v then
    match v with
    | PStr s => Ok (PyString.strip s)
    | _ => Raise AttributeError
    end
  else Ok "".

Record owner_info : Type := {
  owner_name : string;
  owner_email : string;
}.

Section Owners.
Variable py_repr : pyval -> string.

(** The body of the loop of [get_owners_map] for one owner record [o]:
    [None] when the record is skipped for want of an id, otherwise the
    entry stored under the owner id. *)
Definition owner_entry (o : gmap string pyval)
  : result (option (string * owner_info)) :=
  let oid := py_str py_repr (py_or (prop_get o "id") (PStr "")) in
  if negb (PyString.nonempty oid) then Ok None
  else
    first ← stripped_or_empty (prop_get o "firstName");
    last ← stripped_or_empty (prop_get o "lastName");
    email ← stripped_or_empty (prop_get o "email");
    let name :=
      PyString.or_else (PyString.strip (first +:+ " " +:+ last))
        (PyString.or_else email oid) in
    Ok (Some (oid, {| owner_name := name; owner_email := email |})).

Fixpoint get_owners_map_loop (results : list (gmap string pyval))
    (owners : gmap string owner_info) : result (gmap string owner_info) :=
  match results with
  | [] => Ok owners
  | o :: rest =>
      e ← owner_entry o;
      get_owners_map_loop rest
        (match e with
         | Some (oid, info) => <[oid := info]> owners
         | None => owners
         end)
  end.

End Owners.

(** *** Primary company of a deal *)

(** One association type of a link: [a.get("label")], null or a string. *)
Record assoc_type : Type := { label : option string }.

(** One associated company: [t.get("toObjectId")] and
    [t.get("associationTypes") or []]. *)
Record assoc_to : Type := {
  toObjectId : pyval;
  associationTypes : list assoc_type;
}.

(** One record of the batch read: [(rec.get("from") or {}).get("id")] and
    [rec.get("to") or []]. *)
Record assoc_rec : Type := {
  from_id : pyval;
  to : list assoc_to;
}.

(** [any((a.get("label") or "").lower() == "primary" for a in assoc_types)] *)
Definition has_primary_label (types : list assoc_type) : bool :=
  existsb (fun a => String.eqb (PyString.lower (default "" (label a))) "primary")
    types.

(** [not x] for [x] that is [None] or a string. *)
Definition unset (x : option string) : bool :=
  match x with
  | None => true
  | Some s => negb (PyString.nonempty s)
  end.

Section Associations.
Variable py_repr : pyval -> string.

(** The loop [for t in tos] with its [break]; it returns
    [(primary_company_id, fallback_first)]. *)
Fixpoint scan_companies (tos : list assoc_to) (fallback_first : option string)
  : option string * option string :=
  match tos with
  | [] => (None, fallback_first)
  | t :: rest =>
      let cid := py_str py_repr (toObjectId t) in
      let fallback1 := if unset fallback_first then Some cid else fallback_first in
      if has_primary_label (associationTypes t) then (Some cid, fallback1)
      else scan_companies rest fallback1
  end.

(** [primary_company_id or fallback_first or ""] *)
Definition chosen_company (tos : list assoc_to) : string :=
  let '(primary, fallback) := scan_companies tos None in
  if unset primary then (if unset fallback then "" else default "" fallback)
  else default "" primary.

(** The loop over [data.get("results", [])] of one batch. *)
Definition resolve_batch (recs : list assoc_rec) (result0 : gmap string string)
  : gmap string string :=
  foldl (fun acc rec =>
           <[py_str py_repr (from_id rec) := chosen_company (to rec)]> acc)
    result0 recs.

End Associations.

(** *** Rows of the product sheets *)

Definition DEFAULT_PRODUCTS : list string :=
  ["Tapix"; "EcoTrack"; "ATM Nearby"; "Labelling"; "OpenData"; "Subscription"].

Definition SHEET_HEADERS : list string :=
  ["snapshot_week_start"; "deal_id"; "deal_name"; "company_id"; "company_name";
   "product_option"; "product_raw"; "pipeline_id"; "pipeline_label";
   "dealstage_id"; "dealstage_label"; "amount"; "closedate"; "createdate";
   "hs_lastmodifieddate"; "owner_id"; "owner_name"; "owner_email"; "deal_url"].

Definition excel_safe_sheet_name (name : string) : string :=
  PyString.prefix 31 name.

(** [split_multicheckbox(value)] *)
Definition split_multicheckbox (value : pyval) : result (list string) :=
  if negb (truthy value) then Ok []
  else
    match value with
    | PStr v =>
        Ok (filter (fun x => PyString.nonempty x = true)
              (map PyString.strip (PyString.split ";" v)))
    | _ => Raise AttributeError
    end.

(** The dictionary [rows_by_product], in insertion order. *)
Definition rows_by_product_t : Type := list (string * list (list pyval)).

(** [{p: [] for p in products_interest}] *)
Definition empty_rows (products : list string) : rows_by_product_t :=
  foldl (fun acc p =>
           if bool_decide (p ∈ acc.*1) then acc else acc ++ [(p, [])])
    [] products.

(** [{p.lower(): p for p in products_interest}] *)
Definition want_map (products : list string) : gmap string string :=
  foldl (fun acc p => <[PyString.lower p := p]> acc) ∅ products.

(** [rows_by_product[product].append(row)] *)
Definition append_row (product : string) (row : list pyval)
    (rbp : rows_by_product_t) : rows_by_product_t :=
  map (fun kv => if String.eqb kv.1 product then (kv.1, kv.2 ++ [row]) else kv)
    rbp.

(** [rows_by_product[product]] *)
Definition rows_of (rbp : rows_by_product_t) (product : string)
  : option (list (list pyval)) :=
  match list_find (fun kv => kv.1 = product) rbp with
  | Some (_, kv) => Some kv.2
  | None => None
  end.

(** What [build_rows] reads besides the deals. *)
Record lookups : Type := {
  product_property_name : string;
  opt_map : gmap string pyval;
  pipeline_label : gmap string pyval;
  stage_label : gmap string pyval;
  deal_to_company_id : gmap string string;
  company_id_to_name : gmap string string;
  owners_map : gmap string owner_info;
}.

Section Rows.
Variable py_repr : pyval -> string.

(** The state of the loops of [build_rows]. *)
Record build_state : Type := {
  rows_by_product : rows_by_product_t;
  seen : gset (string * string);
}.

(** The values of a deal that go into each of its rows. *)
Record deal_fields : Type := {
  f_deal_id : string;
  f_row : string -> list pyval;
}.

(** The first part of the loop body: everything computed once per deal. *)
Definition read_deal (env : lookups) (snapshot_week_start : string) (d : deal)
  : result (deal_fields * list pyval) :=
  let deal_id := py_str py_repr (deal_id_raw d) in
  let props := properties d in
  let dealname := prop_get props "dealname" in
  let amount := prop_get props "amount" in
  let closedate := prop_get props "closedate" in
  let createdate := prop_get props "createdate" in
  let lastmod := prop_get props "hs_lastmodifieddate" in
  let pipeline_id := prop_get props "pipeline" in
  let stage_id := prop_get props "dealstage" in
  pl ← dict_get (pipeline_label env) pipeline_id;
  let pipeline_lbl := default pipeline_id pl in
  sl ← dict_get (stage_label env) stage_id;
  let stage_lbl := default stage_id sl in
  let company_id := default "" (deal_to_company_id env !! deal_id) in
  let company_name :=
    if PyString.nonempty company_id
    then default "" (company_id_to_name env !! company_id) else "" in
  let owner_id :=
    py_str py_repr (py_or (prop_get props "hubspot_owner_id") (PStr "")) in
  let owner_nm :=
    if PyString.nonempty owner_id
    then from_option owner_name "" (owners_map env !! owner_id) else "" in
  let owner_em :=
    if PyString.nonempty owner_id
    then from_option owner_email "" (owners_map env !! owner_id) else "" in
  let product_raw := prop_get props (product_property_name env) in
  product_values ← split_multicheckbox product_raw;
  let product_labels :=
    map (fun v => default (PStr v) (opt_map env !! v)) product_values in
  let deal_url := "https://app.hubspot.com/contacts/deal/" +:+ deal_id in
  Ok ({| f_deal_id := deal_id;
         f_row := fun sheet_product =>
           [PStr snapshot_week_start; PStr deal_id; dealname; PStr company_id;
            PStr company_name; PStr sheet_product; product_raw; pipeline_id;
            pipeline_lbl; stage_id; stage_lbl; amount; closedate; createdate;
            lastmod; PStr owner_id; PStr owner_nm; PStr owner_em;
            PStr deal_url] |},
      product_labels).

(** The loop [for pl in product_labels]. *)
Fixpoint add_products (want : gmap string string) (f : deal_fields)
    (labels : list pyval) (st : build_state) : result build_state :=
  match labels with
  | [] => Ok st
  | pl :: rest =>
      t ← stripped_or_empty pl;
      let key := PyString.lower t in
      match want !! key with
      | None => add_products want f rest st
      | Some sheet_product =>
          if bool_decide ((sheet_product, f_deal_id f) ∈ seen st)
          then add_products want f rest st
          else
            add_products want f rest
              {| rows_by_product :=
                   append_row sheet_product (f_row f sheet_product)
                     (rows_by_product st);
                 seen := {[ (sheet_product, f_deal_id f) ]} ∪ seen st |}
      end
  end.

(** The loop [for d in deals]. *)
Fixpoint build_rows_loop (env : lookups) (snapshot_week_start : string)
    (want : gmap string string) (deals : list deal) (st : build_state)
  : result build_state :=
  match deals with
  | [] => Ok st
  | d :: rest =>
      '(f, labels) ← read_deal env snapshot_week_start d;
      st1 ← add_products want f labels st;
      build_rows_loop env snapshot_week_start want rest st1
  end.

Definition build_rows (deals : list deal) (snapshot_week_start : string)
    (env : lookups) (products_interest : list string)
  : result rows_by_product_t :=
  st ← build_rows_loop env snapshot_week_start (want_map products_interest)
         deals
         {| rows_by_product := empty_rows products_interest; seen := ∅ |};
  Ok (rows_by_product st).

(** *** Worksheets of the product report

    A worksheet is the list of its rows, row 1 first; a row is the list of
    its cell values. *)

(** [ensure_sheet_headers(ws)] writes the header into the cells of row 1. *)
Definition ensure_sheet_headers (ws : list (list pyval)) : list (list pyval) :=
  match ws with
  | [] => [map PStr SHEET_HEADERS]
  | r :: rest => (map PStr SHEET_HEADERS ++ drop (length SHEET_HEADERS) r) :: rest
  end.

(** [r[0]] of a row read with [values_only=True]: a missing cell is [None]. *)
Definition first_cell (r : list pyval) : pyval := default PNone (head r).

(** The scan of [replace_rows_for_snapshot]: the indices of the rows to
    delete, counting the first row of [rows] as row [i]. *)
Fixpoint rows_to_delete (rows : list (list pyval)) (i : nat)
    (snapshot_week_start : string) : list nat :=
  match rows with
  | [] => []
  | r :: rest =>
      if bool_decide (r = []) || negb (truthy (first_cell r)) then
        rows_to_delete rest (S i) snapshot_week_start
      else if String.eqb (py_str py_repr (first_cell r)) snapshot_week_start then
        i :: rows_to_delete rest (S i) snapshot_week_start
      else rows_to_delete rest (S i) snapshot_week_start
  end.

(** [ws.delete_rows(i, 1)]: rows are numbered from 1. *)
Definition delete_row (ws : list (list pyval)) (i : nat) : list (list pyval) :=
  delete (i - 1)%nat ws.

(** [ws.append(row)] *)
Definition append (ws : list (list pyval)) (row : list pyval)
  : list (list pyval) := ws ++ [row].

Definition replace_rows_for_snapshot (ws : list (list pyval))
    (rows : list (list pyval)) (snapshot_week_start : string)
  : list (list pyval) :=
  let to_delete := rows_to_delete (drop 1 ws) 2 snapshot_week_start in
  let ws1 := foldl delete_row ws (reverse to_delete) in
  foldl append ws1 rows.

End Rows.

(** *** The workbook and the run

    A workbook maps sheet titles to worksheets.  The file at the output
    path holds a workbook or does not exist; [saves] records every
    [wb.save(path)] in order.  Loading gives back what was saved. *)
Record disk : Type := {
  file : option (gmap string (list (list pyval)));
  saves : list (gmap string (list (list pyval)));
}.

(** [wb.save(path)] *)
Definition save (wb : gmap string (list (list pyval))) (d : disk) : disk :=
  {| file := Some wb; saves := saves d ++ [wb] |}.

Definition SUMMARY_TITLE : string := "Weekly HubSpot Deals by Product — Summary".

(** [create_new_workbook(path, products)] builds the workbook and saves it.
    Sheets are kept by title: the sheet that the library would number
    because two products share a title is not kept, no code reads it. *)
Definition new_workbook (products : list string)
  : gmap string (list (list pyval)) :=
  foldl (fun wb p =>
           <[excel_safe_sheet_name p :=
               ensure_sheet_headers (append [] (map PStr SHEET_HEADERS))]> wb)
    {[ "Summary" := [[PStr SUMMARY_TITLE]] ]} products.

Definition create_new_workbook (products : list string) (d : disk)
  : gmap string (list (list pyval)) * disk :=
  (new_workbook products, save (new_workbook products) d).

(** [wb[name]] *)
Definition get_sheet (wb : gmap string (list (list pyval))) (name : string)
  : result (list (list pyval)) :=
  match wb !! name with
  | Some ws => Ok ws
  | None => Raise (KeyError name)
  end.

(** [wb.sheetnames].  The workbook is kept by title, without the order of
    its sheets.  The title policy reads the titles joined by commas: for a
    title without a comma, as are [Summary] and the default products, no
    match of the title spans two titles in use, and what the policy grants
    does not depend on their order. *)
Definition sheetnames (wb : gmap string (list (list pyval))) : list string :=
  elements (dom wb).

(** [wb.create_sheet(title)]: an empty sheet under the title that the
    library grants.  The library grants a title that no sheet has; a sheet
    that is there is kept as it is. *)
Definition create_sheet (wb : gmap string (list (list pyval))) (title : string)
  : result (gmap string (list (list pyval))) :=
  granted ← Openpyxl.new_sheet_title (sheetnames wb) title;
  Ok (<[granted := default [] (wb !! granted)]> wb).

(** The loop [for p in products_interest] of the [else] branch of [main]:
    a product sheet that the workbook lacks is created, then the sheet is
    looked up under the title asked for, [wb[sh]], and gets its headers.
    The lookup is a [KeyError] when the library granted another title. *)
Fixpoint prepare_sheets (products : list string)
    (wb : gmap string (list (list pyval)))
  : result (gmap string (list (list pyval))) :=
  match products with
  | [] => Ok wb
  | p :: rest =>
      let sh := excel_safe_sheet_name p in
      wb1 ← (if bool_decide (sh ∈ dom wb) then Ok wb else create_sheet wb sh);
      ws ← get_sheet wb1 sh;
      prepare_sheets rest (<[sh := ensure_sheet_headers ws]> wb1)
  end.

(** The [else] branch of [main]: the loaded workbook gets a summary sheet
    and the product sheets it lacks, and headers on every product sheet. *)
Definition prepare_workbook (products : list string)
    (wb : gmap string (list (list pyval)))
  : result (gmap string (list (list pyval))) :=
  wb1 ← (if bool_decide ("Summary" ∈ dom wb) then Ok wb
         else create_sheet wb "Summary");
  prepare_sheets products wb1.

Section Main.
Variable py_repr : pyval -> string.

(** The tables that pandas computes from the rows of all product sheets:
    everything the summary sheet holds below its title. *)
Variable summary_tables : list (list pyval) -> result (list (list pyval)).

(** The loop [for product, rows in rows_by_product.items()] of [main]. *)
Fixpoint merge_snapshot (items : rows_by_product_t) (snapshot_week : string)
    (wb : gmap string (list (list pyval)))
  : result (gmap string (list (list pyval))) :=
  match items with
  | [] => Ok wb
  | (product, rows) :: rest =>
      let sh_name := excel_safe_sheet_name product in
      ws ← get_sheet wb sh_name;
      merge_snapshot rest snapshot_week
        (<[sh_name := replace_rows_for_snapshot py_repr
                        (ensure_sheet_headers ws) rows snapshot_week]> wb)
  end.

(** [read_all_product_sheets(wb, products)]: the rows of the data frame. *)
Definition read_all_product_sheets (wb : gmap string (list (list pyval)))
    (products : list string) : list (list pyval) :=
  concat
    (map (fun p =>
            match wb !! excel_safe_sheet_name p with
            | None => []
            | Some ws =>
                map (fun r => take (length SHEET_HEADERS)
                                (r ++ replicate (length SHEET_HEADERS - length r) PNone))
                  (filter (fun r => r <> [] /\ truthy (first_cell r) = true)
                     (drop 1 ws))
            end)
       products).

(** [rewrite_summary_sheet(wb, products)] clears the summary sheet and
    writes it again. *)
Definition rewrite_summary_sheet (wb : gmap string (list (list pyval)))
    (products : list string) : result (gmap string (list (list pyval))) :=
  let df := read_all_product_sheets wb products in
  _ ← get_sheet wb "Summary";
  match df with
  | [] =>
      Ok (<["Summary" :=
              [[PStr SUMMARY_TITLE]; [];
               [PStr "No data yet. Run the script once to populate product sheets."]]]>
            wb)
  | _ =>
      tables ← summary_tables df;
      Ok (<["Summary" := [PStr SUMMARY_TITLE] :: tables]> wb)
  end.

(** What the calls to the API give [main], lines 589 to 607. *)
Record api_data : Type := {
  api_lookups : lookups;
  api_deals : list deal;
}.

(** The branch of [main] on [os.path.exists(out_xlsx)]: the workbook the
    run goes on with, and the disk after it. *)
Definition opened_workbook (d : disk)
  : result (gmap string (list (list pyval))) * disk :=
  match file d with
  | None =>
      let '(wb, d1) := create_new_workbook DEFAULT_PRODUCTS d in (Ok wb, d1)
  | Some wb0 => (prepare_workbook DEFAULT_PRODUCTS wb0, d)
  end.

(** [main()]: [token] is the credential of the environment, [today] the
    date of the run and [api] the outcome of the calls to the API. *)
Definition main (token : option string) (today : Z) (api : result api_data)
    (d : disk) : result unit * disk :=
  if negb (from_option PyString.nonempty false token) then
    (Raise (RuntimeError "Chybí HUBSPOT_PRIVATE_APP_TOKEN v .env"), d)
  else
    let products_interest := DEFAULT_PRODUCTS in
    let snapshot_week := week_start_iso today in
    match api with
    | Raise e => (Raise e, d)
    | Ok data =>
        match build_rows py_repr (api_deals data) snapshot_week
                (api_lookups data) products_interest with
        | Raise e => (Raise e, d)
        | Ok rows_by_product =>
            match opened_workbook d with
            | (Raise e, d1) => (Raise e, d1)
            | (Ok wb, d1) =>
                match merge_snapshot rows_by_product snapshot_week wb with
                | Raise e => (Raise e, d1)
                | Ok wb1 =>
                    match rewrite_summary_sheet wb1 products_interest with
                    | Raise e => (Raise e, d1)
                    | Ok wb2 => (Ok tt, save wb2 d1)
                    end
                end
            end
        end
    end.

End Main.

(** *** Batches *)

(** [chunked(items, size)]: the slices [items[i:i + size]] for [i] in
    [range(0, len(items), size)]; a step of zero is a [ValueError].  The
    size is a natural number: the callers pass 1000 and 100. *)
Definition chunked {A} (items : list A) (size : nat) : result (list (list A)) :=
  if (size =? 0)%nat then Raise ValueError
  else
    Ok (map (fun k => take size (drop (k * size) items))
          (seq 0 ((length items + size - 1) / size))).

(** *** Candidate endpoints *)

Section Candidates.
Context {R B : Type}.

(** The loop [for path in candidate_paths] with its [try], [break] and
    [except Exception]: it returns [data] ([None] when no request
    succeeded) and [last_err]. *)
Fixpoint try_candidates (reqs : list R) (last_err : option exn) (w : world R B)
  : (option (option B) * option exn) * world R B :=
  match reqs with
  | [] => ((None, last_err), w)
  | r :: rest =>
      match hubspot_request r 5 w with
      | (Ok data, w1) => ((Some data, last_err), w1)
      | (Raise e, w1) => try_candidates rest (Some e) w1
      end
  end.

End Candidates.

(** A [POST] of a batch: the path and the ids of the payload. *)
Record batch_post : Type := {
  post_path : string;
  post_inputs : list string;
}.

Definition OWNER_PATHS : list string := ["/crm/v3/owners"; "/owners/v2/owners"].

Definition ASSOCIATION_PATHS : list string :=
  ["/crm/v4/associations/deals/companies/batch/read";
   "/crm/v4/associations/deal/companies/batch/read";
   "/crm/v4/associations/deals/company/batch/read"].

Section Loaders.
Variable py_repr : pyval -> string.

(** The text of [last_err] in the message of the [RuntimeError]. *)
Variable exn_text : option exn -> string.

(** [get_owners_map(token)]: the body of a response is the list of owner
    records, [data.get("results", [])] or the list that the legacy
    endpoint returns. *)
Definition get_owners_map (w : world string (list (gmap string pyval)))
  : result (gmap string owner_info) * world string (list (gmap string pyval)) :=
  match try_candidates OWNER_PATHS None w with
  | ((None, last_err), w1) =>
      (Raise (RuntimeError
                ("Nepodařilo se stáhnout owners. Poslední chyba: "
                 +:+ exn_text last_err)), w1)
  | ((Some data, _), w1) => (get_owners_map_loop py_repr (default [] data) ∅, w1)
  end.

(** The loop [for batch in chunked(deal_ids, 1000)] of
    [batch_read_deal_company_primary]. *)
Fixpoint read_association_batches (batches : list (list string))
    (result0 : gmap string string) (w : world batch_post (list assoc_rec))
  : result (gmap string string) * world batch_post (list assoc_rec) :=
  match batches with
  | [] => (Ok result0, w)
  | batch :: rest =>
      let payload := map (fun did => py_str py_repr (PStr did)) batch in
      match try_candidates
              (map (fun path => {| post_path := path; post_inputs := payload |})
                 ASSOCIATION_PATHS) None w with
      | ((None, last_err), w1) =>
          (Raise (RuntimeError
                    ("Nepodařilo se stáhnout associations deal->company. Poslední chyba: "
                     +:+ exn_text last_err)), w1)
      | ((Some data, _), w1) =>
          read_association_batches rest
            (resolve_batch py_repr (default [] data) result0) w1
      end
  end.

Definition batch_read_deal_company_primary (deal_ids : list string)
    (w : world batch_post (list assoc_rec))
  : result (gmap string string) * world batch_post (list assoc_rec) :=
  match deal_ids with
  | [] => (Ok ∅, w)
  | _ =>
      match chunked deal_ids 1000 with
      | Ok batches => read_association_batches batches ∅ w
      | Raise e => (Raise e, w)
      end
  end.

(** The loop over [props.get("results", [])] of
    [find_product_property_name]. *)
Fixpoint find_property (results : list (gmap string pyval)) (label : string)
  : result pyval :=
  match results with
  | [] =>
      Raise (RuntimeError
               ("Nenašel jsem deal property s labelem '" +:+ label
                +:+ "'. Dej do .env PRODUCT_PROPERTY_NAME=<internal_name>."))
  | p :: rest =>
      l ← stripped_or_empty (prop_get p "label");
      if String.eqb (PyString.lower l) (PyString.lower (PyString.strip label))
      then match p !! "name" with
           | Some name => Ok name
           | None => Raise (KeyError "name")
           end
      else find_property rest label
  end.

(** [find_product_property_name(token, label, explicit_name)] *)
Definition find_product_property_name (label : string)
    (explicit_name : option string)
    (w : world string (list (gmap string pyval)))
  : result pyval * world string (list (gmap string pyval)) :=
  if from_option PyString.nonempty false explicit_name
  then (Ok (PStr (default "" explicit_name)), w)
  else
    match hubspot_request "/crm/v3/properties/deals" 5 w with
    | (Raise e, w1) => (Raise e, w1)
    | (Ok props, w1) => (find_property (default [] props) label, w1)
    end.

End Loaders.

End ProductReport.

(** * hubspot_weekly_report_dynamic_2026.py *)
Module OwnerStageReport.

Definition DEBUG_MAX_PAGES : option nat := None.

(** [backoff_sleep(attempt)] sleeps [min(2 ** attempt, 32)] seconds. *)
Definition backoff_sleep {R} (attempt : Z) : event R :=
  Slept (Z.min (2 ^ attempt) 32).

(** [resp.status_code == 429 or 500 <= resp.status_code < 600] *)
Definition retried_status (s : Z) : bool :=
  (s =? 429) || ((500 <=? s) && (s <? 600)).

(** The search body of [fetch_deals]: its [after] key, when set. *)
Definition search_body : Type := option pyval.

(** The [while True] loop of [fetch_deals]: every iteration consumes one
    scripted response, so the loop is structural in the script.  [rbody]
    is the request body, whose [after] key stays once set. *)
Fixpoint fetch_deals_loop (rs : list (response (page deal)))
    (tr : list (event search_body)) (rbody : search_body)
    (all_deals : list deal) (pages : nat) (after : pyval) (attempt : Z)
  : result (list deal) * world search_body (page deal) :=
  let body1 := if truthy after then Some after else rbody in
  match rs with
  | [] => (Raise ConnectionError, {| script := []; trace := tr ++ [Sent body1] |})
  | resp :: rest =>
      let tr1 := tr ++ [Sent body1] in
      if retried_status (status_code resp) then
        fetch_deals_loop rest (tr1 ++ [backoff_sleep (attempt + 1)])
          body1 all_deals pages after (attempt + 1)
      else
        match raise_for_status resp with
        | Raise e => (Raise e, {| script := rest; trace := tr1 |})
        | Ok _ =>
            match body resp with
            | None => (Raise JSONDecodeError, {| script := rest; trace := tr1 |})
            | Some data =>
                let all_deals1 := all_deals ++ results data in
                let pages1 := S pages in
                if match DEBUG_MAX_PAGES with
                   | Some m => (0 <? m)%nat && (m <=? pages1)%nat
                   | None => false
                   end
                then (Ok all_deals1, {| script := rest; trace := tr1 |})
                else
                  let after1 := next_after data in
                  if truthy after1
                  then fetch_deals_loop rest tr1 body1 all_deals1 pages1 after1 0
                  else (Ok all_deals1, {| script := rest; trace := tr1 |})
            end
        end
  end.

Definition fetch_deals (w : world search_body (page deal))
  : result (list deal) * world search_body (page deal) :=
  fetch_deals_loop (script w) (trace w) None [] 0%nat PNone 0.

(** *** Owners *)

Section Owners.
Variable py_repr : pyval -> string.

(** [str(o.get("id"))] *)
Definition owner_id (o : gmap string pyval) : string :=
  py_str py_repr (prop_get o "id").

(** The display name that [get_all_owners] stores for the owner record [o]:
    [f"{o.get('firstName', '')} {o.get('lastName', '')}".strip()
     or o.get("email", f"Owner {owner_id}")]. *)
Definition owner_display_name (o : gmap string pyval) : pyval :=
  let full :=
    PyString.strip
      (py_str py_repr (default (PStr "") (o !! "firstName")) +:+ " "
       +:+ py_str py_repr (default (PStr "") (o !! "lastName"))) in
  if PyString.nonempty full then PStr full
  else default (PStr ("Owner " +:+ owner_id o)) (o !! "email").

(** The loop over the results of one page of owners. *)
Definition add_owners (results : list (gmap string pyval))
    (owners_map : gmap string pyval) : gmap string pyval :=
  foldl (fun m o => <[owner_id o := owner_display_name o]> m) owners_map results.

End Owners.

(** *** Aggregation *)

(** [float(z)] for an integer: rounding to nearest, even on ties; an
    integer beyond the range of a float is an overflow. *)
Definition float_of_int (z : Z) : result float :=
  match binary_normalize 53 1024 z 0 false with
  | S754_infinity _ => Raise OverflowError
  | x => Ok x
  end.

(** An insertion-ordered dictionary with string keys:
    [d[k] = f(d.get(k))]. *)
Fixpoint alist_update {V} (k : string) (f : option V -> V)
    (l : list (string * V)) : list (string * V) :=
  match l with
  | [] => [(k, f None)]
  | (k', v) :: l' =>
      if String.eqb k' k then (k', f (Some v)) :: l'
      else (k', v) :: alist_update k f l'
  end.

Section Aggregate.
Variable py_repr : pyval -> string.

(** [float(s)] for a string: [None] when Python raises [ValueError]. *)
Variable float_of_str : string -> option float.

(** [float(v)] *)
Definition py_float (v : pyval) : result float :=
  match v with
  | PFloat x => Ok x
  | PInt z => float_of_int z
  | PBool b => float_of_int (if b then 1 else 0)
  | PStr s =>
      match float_of_str s with
      | Some x => Ok x
      | None => Raise ValueError
      end
  | PNone | PList _ | PDict _ => Raise TypeError
  end.

(** [amount not in (None, "")] *)
Definition amount_given (amount : pyval) : bool :=
  match amount with
  | PNone => false
  | PStr s => PyString.nonempty s
  | _ => true
  end.

(** The [try] statement of [aggregate_amounts_by_owner_and_stage]: only
    [ValueError] is caught. *)
Definition amount_value (amount : pyval) : result float :=
  if amount_given amount then
    match py_float amount with
    | Raise ValueError => Ok float_zero
    | r => r
    end
  else Ok float_zero.

(** [data.setdefault(owner, {}).setdefault(stage, 0.0)] followed by
    [data[owner][stage] += val]. *)
Definition add_amount (owner stage : string) (val : float)
    (data : list (string * list (string * float)))
  : list (string * list (string * float)) :=
  alist_update owner
    (fun stages =>
       alist_update stage (fun cur => float_add (default float_zero cur) val)
         (default [] stages))
    data.

(** The loop [for d in deals]. *)
Fixpoint aggregate_loop (owners_map stage_label_map : gmap string string)
    (deals : list deal) (data : list (string * list (string * float)))
  : result (list (string * list (string * float))) :=
  match deals with
  | [] => Ok data
  | d :: rest =>
      let props := properties d in
      let stage_id := prop_get props "dealstage" in
      sl ← dict_get stage_label_map stage_id;
      let stage_label := default "Unknown stage" sl in
      let amount := prop_get props "amount" in
      val ← amount_value amount;
      let owner_id := prop_get props "hubspot_owner_id" in
      let owner_name :=
        default "Unassigned" (owners_map !! py_str py_repr owner_id) in
      aggregate_loop owners_map stage_label_map rest
        (add_amount owner_name stage_label val data)
  end.

Definition aggregate_amounts_by_owner_and_stage (deals : list deal)
    (owners_map stage_label_map : gmap string string)
  : result (list (string * list (string * float))) :=
  aggregate_loop owners_map stage_label_map deals [].

End Aggregate.

(** *** The workbook of the owner report

    A worksheet is a title and the cells that exist, by (row, column); a
    workbook is the list of its sheets in order. *)
Record worksheet : Type := {
  title : string;
  cells : gmap (nat * nat) pyval;
}.

(** [ws.max_row] and [ws.max_column]: 1 on a sheet without cells. *)
Definition max_row (ws : worksheet) : nat :=
  map_fold (fun k _ m => Nat.max k.1 m) 1%nat (cells ws).

Definition max_column (ws : worksheet) : nat :=
  map_fold (fun k _ m => Nat.max k.2 m) 1%nat (cells ws).

(** [ws.cell(row=r, column=c).value] *)
Definition cell_value (ws : worksheet) (r c : nat) : pyval :=
  default PNone (cells ws !! (r, c)).

(** [ws.cell(row=r, column=c, value=v)] for a value that is not [None]. *)
Definition set_cell (ws : worksheet) (r c : nat) (v : pyval) : worksheet :=
  {| title := title ws; cells := <[(r, c) := v]> (cells ws) |}.

Definition sheetnames (wb : list worksheet) : list string := map title wb.

(** The index of the sheet that [wb[name]] returns. *)
Definition find_sheet (wb : list worksheet) (name : string) : option nat :=
  fst <$> list_find (fun ws => title ws = name) wb.

(** The characters that [ensure_sheet] replaces. *)
Definition FORBIDDEN : string := "\/?*[]:".

(** The title that [ensure_sheet] looks up. *)
Definition safe_title (title : string) : string :=
  let safe :=
    foldl (fun safe ch => PyString.replace ch " " safe) title
      (PyString.chars FORBIDDEN) in
  PyString.or_else (PyString.strip safe) "Unassigned".

Section Workbook.

(** The title that the spreadsheet library gives a new sheet, from the
    titles in use and the title asked for: the library renames a sheet
    whose title is taken. *)
Variable granted_title : list string -> string -> string.

(** [wb.create_sheet(title=t)]: the new sheet comes last. *)
Definition create_sheet (wb : list worksheet) (t : string)
  : list worksheet * nat :=
  (wb ++ [ {| title := granted_title (sheetnames wb) t; cells := ∅ |} ],
   length wb).

(** [ensure_sheet(wb, title)]: the workbook and the index of the sheet
    returned. *)
Definition ensure_sheet (wb : list worksheet) (title : string)
  : list worksheet * nat :=
  let safe := safe_title title in
  match find_sheet wb safe with
  | Some i => (wb, i)
  | None => create_sheet wb (PyString.prefix 31 safe)
  end.

(** The state of the loops that add stage rows. *)
Record rows_state : Type := {
  sheet : worksheet;
  existing_rows : gmap string nat;
  next_row : nat;
}.

(** [if stage not in existing_rows: ...] *)
Definition add_stage_row (st : rows_state) (stage : string) : rows_state :=
  match existing_rows st !! stage with
  | Some _ => st
  | None =>
      {| sheet := set_cell (sheet st) (next_row st) 1 (PStr stage);
         existing_rows := <[stage := next_row st]> (existing_rows st);
         next_row := S (next_row st) |}
  end.

(** The body of the loop over owners, on the sheet of the owner. *)
Definition write_owner (week_label : string) (default_stage_order : list string)
    (stage_sums : list (string * float)) (ws : worksheet) : worksheet :=
  let ws1 :=
    if (max_row ws <? 1)%nat || negb (eq_str (cell_value ws 1 1) "Stage")
    then set_cell ws 1 1 (PStr "Stage") else ws in
  let headers := map (cell_value ws1 1) (seq 1 (max_column ws1)) in
  let '(week_col, ws2) :=
    match list_find (fun h => eq_str h week_label = true) headers with
    | Some (i, _) => (S i, ws1)
    | None =>
        (S (max_column ws1),
         set_cell ws1 1 (S (max_column ws1)) (PStr week_label))
    end in
  let existing :=
    foldl (fun m r =>
             match cell_value ws2 r 1 with
             | PStr lbl => if PyString.nonempty lbl then <[lbl := r]> m else m
             | _ => m
             end)
      ∅ (seq 2 (max_row ws2 - 1)) in
  let st0 := {| sheet := ws2; existing_rows := existing;
                next_row := S (max_row ws2) |} in
  let st1 := foldl add_stage_row st0 default_stage_order in
  let st2 := foldl add_stage_row st1 stage_sums.*1 in
  foldl (fun ws kv =>
           match existing_rows st2 !! kv.1 with
           | Some r => set_cell ws r week_col (PFloat kv.2)
           | None => ws
           end)
    (sheet st2) stage_sums.

(** The loop over [data_by_owner.items()]. *)
Definition write_owners (week_label : string) (default_stage_order : list string)
    (data_by_owner : list (string * list (string * float)))
    (wb : list worksheet) : list worksheet :=
  foldl (fun wb kv =>
           let '(wb1, i) := ensure_sheet wb kv.1 in
           match wb1 !! i with
           | Some ws =>
               <[i := write_owner week_label default_stage_order kv.2 ws]> wb1
           | None => wb1
           end)
    wb data_by_owner.

(** [write_snapshot_to_excel]: [file] is the workbook stored at
    [excel_path], if the file exists; the result is the workbook stored
    there by the final [wb.save]. *)
Definition write_snapshot_to_excel (file : option (list worksheet))
    (week_label : string) (data_by_owner : list (string * list (string * float)))
    (default_stage_order : list string) : list worksheet :=
  let wb := default [] file in
  write_owners week_label default_stage_order data_by_owner wb.

End Workbook.

(** *** All owners *)

(** The query of [get_all_owners]: its [after] parameter, when set. *)
Definition owners_query : Type := option pyval.

Section AllOwners.
Variable py_repr : pyval -> string.

(** The [while True] loop of [get_all_owners]: every iteration consumes
    one scripted response.  [attempt] is set to zero before the loop and
    only ever incremented. *)
Fixpoint get_all_owners_loop (rs : list (response (page (gmap string pyval))))
    (tr : list (event owners_query)) (params : owners_query)
    (owners_map : gmap string pyval) (attempt : Z)
  : result (gmap string pyval)
    * world owners_query (page (gmap string pyval)) :=
  match rs with
  | [] => (Raise ConnectionError, {| script := []; trace := tr ++ [Sent params] |})
  | resp :: rest =>
      let tr1 := tr ++ [Sent params] in
      if retried_status (status_code resp) then
        get_all_owners_loop rest (tr1 ++ [backoff_sleep (attempt + 1)])
          params owners_map (attempt + 1)
      else
        match raise_for_status resp with
        | Raise e => (Raise e, {| script := rest; trace := tr1 |})
        | Ok _ =>
            match body resp with
            | None => (Raise JSONDecodeError, {| script := rest; trace := tr1 |})
            | Some data =>
                let owners1 := add_owners py_repr (results data) owners_map in
                let next := next_after data in
                if truthy next
                then get_all_owners_loop rest tr1 (Some next) owners1 attempt
                else (Ok owners1, {| script := rest; trace := tr1 |})
            end
        end
  end.

Definition get_all_owners (w : world owners_query (page (gmap string pyval)))
  : result (gmap string pyval)
    * world owners_query (page (gmap string pyval)) :=
  get_all_owners_loop (script w) (trace w) None ∅ 0.

End AllOwners.

(** *** The week of the report *)

(** The days before the first of January of [year]. *)
Definition days_before_year (year : Z) : Z :=
  let y := year - 1 in
  y * 365 + y / 4 - y / 100 + y / 400.

(** The ordinal of the Monday that starts ISO week 1 of [year]: the week
    that holds the first Thursday of the year. *)
Definition isoweek1monday (year : Z) : Z :=
  let firstday := days_before_year year + 1 in
  let firstweekday := (firstday + 6) mod 7 in
  let week1monday := firstday - firstweekday in
  if 3 <? firstweekday then week1monday + 7 else week1monday.

(** [d.isocalendar()]: ISO year, week and day of the date of ordinal [d]. *)
Definition isocalendar (d : Z) : Z * Z * Z :=
  let year := (ProductReport.ord2ymd d).1.1 in
  let week1monday := isoweek1monday year in
  let week := (d - week1monday) / 7 in
  let day := (d - week1monday) mod 7 in
  if week <? 0 then
    let year := year - 1 in
    let week1monday := isoweek1monday year in
    (year, (d - week1monday) / 7 + 1, (d - week1monday) mod 7 + 1)
  else if (52 <=? week) && (isoweek1monday (year + 1) <=? d)
  then (year + 1, 1, day + 1)
  else (year, week + 1, day + 1).

(** The first ordinal of a [date]: 0001-01-01. *)
Definition MIN_ORDINAL : Z := 1.

Section WeekLabel.
(** A [datetime] is the ordinal of its date and the rest of it (the time
    of day and the zone), which the subtraction of whole days keeps. *)
Context {T : Type}.

(** [dt - timedelta(days=n)] and [dt + timedelta(days=n)]: a date before
    year 1 is an [OverflowError]. *)
Definition shift_days (dt : Z * T) (n : Z) : result (Z * T) :=
  if dt.1 + n <? MIN_ORDINAL then Raise OverflowError else Ok (dt.1 + n, dt.2).

(** [previous_week_label(now_local)] *)
Definition previous_week_label (now_local : Z * T)
  : result (string * (Z * T) * (Z * T)) :=
  monday_this_week ← shift_days now_local (- ProductReport.weekday now_local.1);
  monday_prev ← shift_days monday_this_week (-7);
  sunday_prev ← shift_days monday_prev 6;
  let '(iso_year, iso_week, _) := isocalendar monday_prev.1 in
  let label :=
    pretty iso_year +:+ "-W" +:+ ProductReport.zero_padded 2 iso_week +:+ " ("
    +:+ ProductReport.isoformat monday_prev.1 +:+ "—"
    +:+ ProductReport.isoformat sunday_prev.1 +:+ ")" in
  Ok (label, monday_prev, sunday_prev).

End WeekLabel.

End OwnerStageReport.

(** * Vocabulary of the properties *)

(** A successful response carrying one page. *)
Definition ok200 {A} (p : page A) : response (page A) :=
  {| status_code := 200; body := Some p |}.

(** A finite chain of pages: every page but the last names a next cursor. *)
Fixpoint chained {A} (pages : list (page A)) : Prop :=
  match pages with
  | [] => False
  | [p] => truthy (next_after p) = false
  | p :: rest => truthy (next_after p) = true /\ chained rest
  end.

(** All the records of a list of pages, in order. *)
Definition all_results {A} (pages : list (page A)) : list A :=
  concat (map results pages).

(** The trace of [n] failed attempts at one request: the same request is
    sent again after a sleep of [min(2 ** attempt, cap)] seconds, for
    consecutive values of [attempt]. *)
Fixpoint backoff_trace {R} (req : R) (cap attempt : Z) (n : nat)
  : list (event R) :=
  match n with
  | O => []
  | S n' =>
      Sent req :: Slept (Z.min (2 ^ attempt) cap)
        :: backoff_trace req cap (attempt + 1) n'
  end.

(** HTTP 429 or any 5xx status. *)
Definition throttled_or_5xx (s : Z) : Prop := s = 429 \/ 500 <= s < 600.

(** The answers to a run of [fetch_deals], page by page: a page is
    answered after any number of failed attempts at it. *)
Definition steps_script {A} (steps : list (list (response (page A)) * page A))
  : list (response (page A)) :=
  concat (map (fun s => s.1 ++ [ok200 s.2]) steps).

(** The cursor of the request that follows the pages [steps]: the one that
    the last page names, and [cursor] when there is no page. *)
Definition cursor_after {A} (cursor : option pyval)
    (steps : list (list (response (page A)) * page A)) : option pyval :=
  foldl (fun _ s => Some (next_after s.2)) cursor steps.

(** The trace of [fetch_deals] over the pages [steps], from the request
    with [cursor]: every page is asked for with the cursor that the page
    before it names, once more after each failed attempt, and the sleeps
    start again from [min(2 ** 1, 32)] at every page. *)
Fixpoint steps_trace {A} (cursor : option pyval)
    (steps : list (list (response (page A)) * page A))
  : list (event (option pyval)) :=
  match steps with
  | [] => []
  | s :: rest =>
      backoff_trace cursor 32 1 (length s.1)
        ++ Sent cursor :: steps_trace (Some (next_after s.2)) rest
  end.

(** The statuses that [hubspot_request] retries. *)
Definition product_retried (s : Z) : Prop := s ∈ [429; 500; 502; 503; 504].

(** A client or server error status other than 429 and 5xx. *)
Definition other_error (s : Z) : Prop := 400 <= s < 500 /\ s <> 429.

(** What one answered attempt amounts to once it is not retried:
    [raise_for_status] turns 4xx and 5xx into an error, anything else is
    decoded and returned. *)
Definition answer {B} (r : response B) : result (option B) :=
  if decide (400 <= status_code r < 600)
  then Raise (HTTPError (status_code r)) else Ok (body r).

(** An association type whose label is "primary" in any letter case. *)
Definition is_primary (a : ProductReport.assoc_type) : Prop :=
  exists l, ProductReport.label a = Some l /\ PyString.lower l = "primary".

(** No company of the list is linked as primary. *)
Definition no_primary (tos : list ProductReport.assoc_to) : Prop :=
  forall t a, t ∈ tos -> a ∈ ProductReport.associationTypes t -> ~ is_primary a.

(** A row belongs to snapshot week [week] when its first cell is not
    empty and reads [week] as a string. *)
Definition in_week (py_repr : pyval -> string) (week : string)
    (r : list pyval) : bool :=
  truthy (ProductReport.first_cell r)
  && String.eqb (py_str py_repr (ProductReport.first_cell r)) week.

(** The data rows of a product sheet: all rows below row 1. *)
Definition data_rows (ws : list (list pyval)) : list (list pyval) := drop 1 ws.

(** The rows of a list that belong, or do not belong, to a week. *)
Definition week_rows (py_repr : pyval -> string) (week : string)
    (rows : list (list pyval)) : list (list pyval) :=
  filter (fun r => in_week py_repr week r = true) rows.

Definition other_rows (py_repr : pyval -> string) (week : string)
    (rows : list (list pyval)) : list (list pyval) :=
  filter (fun r => in_week py_repr week r = false) rows.

(** The key of a row of a product sheet: its [product_option] and
    [deal_id] cells. *)
Definition row_key (r : list pyval) : pyval * pyval :=
  (default PNone (r !! 5%nat), default PNone (r !! 1%nat)).

(** The invariant of the loops of [build_rows]: every collected row is
    stamped with the week, its key is recorded in [seen], and no product
    holds a key twice. *)
Definition rows_ok (week : string) (st : ProductReport.build_state) : Prop :=
  forall p rows, (p, rows) ∈ ProductReport.rows_by_product st ->
    Forall (fun r => ProductReport.first_cell r = PStr week
                     /\ exists id, row_key r = (PStr p, PStr id)
                                   /\ (p, id) ∈ ProductReport.seen st) rows
    /\ NoDup (row_key <$> rows).

(** One run of the product report on a loaded workbook: [build_rows], the
    preparation of the sheets, and the loop that calls
    [replace_rows_for_snapshot] on every product sheet. *)
Definition product_run (py_repr : pyval -> string) (products : list string)
    (deals : list deal) (week : string) (env : ProductReport.lookups)
    (wb : gmap string (list (list pyval)))
  : result (gmap string (list (list pyval))) :=
  rbp ← ProductReport.build_rows py_repr deals week env products;
  wb0 ← ProductReport.prepare_workbook products wb;
  ProductReport.merge_snapshot py_repr rbp week wb0.

(** The sheet of a product in a workbook; a missing sheet has no rows. *)
Definition product_sheet (wb : gmap string (list (list pyval)))
    (product : string) : list (list pyval) :=
  default [] (wb !! ProductReport.excel_safe_sheet_name product).

(** What a run does to a product sheet of a loaded workbook: the headers
    when the workbook is prepared, the headers again and the rows of the
    week replaced in the loop over the products. *)
Definition sheet_run (py_repr : pyval -> string) (ws : list (list pyval))
    (rows : list (list pyval)) (week : string) : list (list pyval) :=
  ProductReport.replace_rows_for_snapshot py_repr
    (ProductReport.ensure_sheet_headers (ProductReport.ensure_sheet_headers ws))
    rows week.

(** Two titles that the spreadsheet library takes for one: they are equal
    up to letter case. *)
Definition same_title (a b : string) : Prop :=
  PyString.lower a = PyString.lower b.

(** The titles that a run asks for, [Summary] and the sheet names of the
    products, are all granted in [wb]: none is empty or holds a refused
    character, and no title of the workbook and no other title asked for
    differs from one of them only in letter case. *)
Definition titles_granted (products : list string)
    (wb : gmap string (list (list pyval))) : Prop :=
  let asked := "Summary" :: (ProductReport.excel_safe_sheet_name <$> products) in
  (forall t, t ∈ asked -> t <> "" /\ Openpyxl.invalid_title t = false)
  /\ (forall t n, t ∈ asked -> n ∈ dom wb \/ n ∈ asked ->
        same_title n t -> n = t).


(** A field of an owner record that is missing or blank: absent, null, or
    a string of white space. *)
Definition blank_field (o : gmap string pyval) (key : string) : Prop :=
  o !! key = None \/ o !! key = Some PNone
  \/ exists s, o !! key = Some (PStr s) /\ PyString.strip s = "".

(** A field of an owner record that is missing or a string. *)
Definition text_field (o : gmap string pyval) (key : string) : Prop :=
  o !! key = None \/ o !! key = Some PNone \/ exists s, o !! key = Some (PStr s).

(** One of the characters [\ / ? * [ ] :]. *)
Definition forbidden (c : ascii) : bool :=
  bool_decide (c ∈ PyString.chars OwnerStageReport.FORBIDDEN).

(** A title with every forbidden character replaced by a space. *)
Definition blanked (title : string) : string :=
  PyString.of_chars
    (map (fun c => if forbidden c then " "%char else c) (PyString.chars title)).

(** An owner whose display name, here an email address, is longer than
    the 31 characters of a sheet title. *)
Definition long_owner_name : string := "maria.konstantinopoulou@example.com".

(** Two runs of the owner report for the week [label], starting without a
    workbook file: the owner has [v1] in stage "Won" at the first run and
    [v2] at the second. *)
Definition two_runs (granted_title : list string -> string -> string)
    (owner label : string) (v1 v2 : float) : list OwnerStageReport.worksheet :=
  let run file v :=
    OwnerStageReport.write_snapshot_to_excel granted_title file label
      [(owner, [("Won", v)])] ["Won"] in
  run (Some (run None v1)) v2.

(** The float nearest to an integer. *)
Definition float_lit (z : Z) : float := binary_normalize 53 1024 z 0 false.

(** ** Vocabulary of the further properties *)

(** The requests of a trace, in order. *)
Definition sent {R} (t : list (event R)) : list R :=
  omap (fun e => match e with Sent r => Some r | Slept _ => None end) t.

(** A company linked with an association type labelled "primary". *)
Definition has_primary (t : ProductReport.assoc_to) : Prop :=
  exists a, a ∈ ProductReport.associationTypes t /\ is_primary a.

(** A status that is no client or server error. *)
Definition success_status (s : Z) : Prop := ~ 400 <= s < 600.

(** The error that the loop over the candidate paths holds after the
    answers [errs], all of them errors. *)
Definition last_error {B} (errs : list (response B)) (last_err : option exn)
  : option exn :=
  match list.last errs with
  | Some r => Some (HTTPError (status_code r))
  | None => last_err
  end.

(** The request of one batch of deal ids on the first candidate path. *)
Definition association_request (batch : list string) : ProductReport.batch_post :=
  {| ProductReport.post_path := "/crm/v4/associations/deals/companies/batch/read";
     ProductReport.post_inputs := batch |}.

(** The text of a field of a record: empty unless the field is a string. *)
Definition field_text (o : gmap string pyval) (key : string) : string :=
  match o !! key with
  | Some (PStr s) => s
  | _ => ""
  end.

(** Two labels that are equal up to surrounding white space and letter
    case. *)
Definition same_label (a b : string) : Prop :=
  PyString.lower (PyString.strip a) = PyString.lower (PyString.strip b).

(** The cursors that a paginated fetch sends for a chain of pages: none
    for the first page, then the cursor that each page names for the
    next. *)
Definition cursors {A} (pages : list (page A)) : list (option pyval) :=
  take (length pages) (None :: map (fun p => Some (next_after p)) pages).

(** A deal names the product [sp] of interest when one of the values of
    its product field, read through the option labels, is [sp] up to
    surrounding white space and letter case. *)
Definition names_product (env : ProductReport.lookups) (products : list string)
    (d : deal) (sp : string) : Prop :=
  exists vals v t,
    ProductReport.split_multicheckbox
      (prop_get (properties d) (ProductReport.product_property_name env)) = Ok vals
    /\ v ∈ vals
    /\ ProductReport.stripped_or_empty
         (default (PStr v) (ProductReport.opt_map env !! v)) = Ok t
    /\ ProductReport.want_map products !! PyString.lower t = Some sp.

(** Every row collected under a product satisfies [P]. *)
Definition all_rows (P : string -> list pyval -> Prop)
    (rbp : ProductReport.rows_by_product_t) : Prop :=
  forall p rows, (p, rows) ∈ rbp -> Forall (P p) rows.

(** Every key of [seen] has its row. *)
Definition seen_have_rows (st : ProductReport.build_state) : Prop :=
  forall sp id, (sp, id) ∈ ProductReport.seen st ->
    exists rows r, (sp, rows) ∈ ProductReport.rows_by_product st
                   /\ r ∈ rows /\ row_key r = (PStr sp, PStr id).

(** The keys of [rows_by_product] hold every product of [want]. *)
Definition want_has_rows (want : gmap string string)
    (st : ProductReport.build_state) : Prop :=
  forall k sp, want !! k = Some sp -> sp ∈ (ProductReport.rows_by_product st).*1.

(** [d.get(k)] on an insertion-ordered dictionary. *)
Fixpoint alist_lookup {V} (k : string) (l : list (string * V)) : option V :=
  match l with
  | [] => None
  | (k', v) :: l' => if String.eqb k' k then Some v else alist_lookup k l'
  end.

(** [data[owner][stage]], when both keys exist. *)
Definition cell (data : list (string * list (string * float)))
    (owner stage : string) : option float :=
  alist_lookup owner data ≫= alist_lookup stage.

(** The owner name, the stage label and the amount under which the
    aggregation counts one deal. *)
Definition deal_entry (py_repr : pyval -> string)
    (float_of_str : string -> option float)
    (owners_map stage_label_map : gmap string string) (d : deal)
  : result (string * string * float) :=
  sl ← dict_get stage_label_map (prop_get (properties d) "dealstage");
  val ← OwnerStageReport.amount_value float_of_str
          (prop_get (properties d) "amount");
  Ok (default "Unassigned"
        (owners_map !! py_str py_repr (prop_get (properties d) "hubspot_owner_id")),
      default "Unknown stage" sl, val).

(** The amounts of the entries of one owner and stage, in order. *)
Definition amounts_of (entries : list (string * string * float))
    (owner stage : string) : list float :=
  map snd (filter (fun e => e.1.1 = owner /\ e.1.2 = stage) entries).

(** A running total: [0.0 + v1 + v2 + ...] from the left on top of what
    the cell holds; no cell when nothing was added to none. *)
Definition running_total (init : option float) (vals : list float) : option float :=
  match vals with
  | [] => init
  | _ => Some (foldl float_add (default float_zero init) vals)
  end.

(** A value that can be the key of a dictionary lookup. *)
Definition hashable (v : pyval) : Prop :=
  match v with
  | PList _ | PDict _ => False
  | _ => True
  end.

(** An amount as the CRM sends it: null, a string or a float. *)
Definition text_amount (v : pyval) : Prop :=
  match v with
  | PNone | PStr _ | PFloat _ => True
  | _ => False
  end.

(** Every stage of [existing_rows] labels its row, which lies below the
    header and above the next free row. *)
Definition rows_indexed (st : OwnerStageReport.rows_state) : Prop :=
  forall s r, OwnerStageReport.existing_rows st !! s = Some r ->
    (2 <= r < OwnerStageReport.next_row st)%nat
    /\ OwnerStageReport.cell_value (OwnerStageReport.sheet st) r 1 = PStr s.

(* ===================================================================== *)
(** * Properties *)

Example strip_ex : PyString.strip "  a b  " = "a b".
Proof. reflexivity. Qed.
Example split_ex : PyString.split ";" "A; B;;" = ["A"; " B"; ""; ""].
Proof. reflexivity. Qed.
Example lower_ex : PyString.lower "PriMary" = "primary".
Proof. reflexivity. Qed.
Example str_ex : py_str (fun _ => "") (PInt 42) = "42".
Proof. reflexivity. Qed.

(** ** Paginated fetch with backoff *)

Section FetchDeals.
Import OwnerStageReport.

Lemma fetch_deals_loop_retry resp rest tr rbody all pages after attempt :
  retried_status (status_code resp) = true ->
  fetch_deals_loop (resp :: rest) tr rbody all pages after attempt =
  fetch_deals_loop rest
    ((tr ++ [Sent (if truthy after then Some after else rbody)])
       ++ [Slept (Z.min (2 ^ (attempt + 1)) 32)])
    (if truthy after then Some after else rbody) all pages after (attempt + 1).
Proof. intros H. simpl. rewrite H. reflexivity. Qed.

Lemma fetch_deals_loop_page p rest tr rbody all pages after attempt :
  truthy (next_after p) = true ->
  fetch_deals_loop (ok200 p :: rest) tr rbody all pages after attempt =
  fetch_deals_loop rest
    (tr ++ [Sent (if truthy after then Some after else rbody)])
    (if truthy after then Some after else rbody)
    (all ++ results p) (S pages) (next_after p) 0.
Proof. intros H. simpl. rewrite H. reflexivity. Qed.

Lemma fetch_deals_loop_last p rest tr rbody all pages after attempt :
  truthy (next_after p) = false ->
  fetch_deals_loop (ok200 p :: rest) tr rbody all pages after attempt =
  (Ok (all ++ results p),
   {| script := rest;
      trace := tr ++ [Sent (if truthy after then Some after else rbody)] |}).
Proof. intros H. simpl. rewrite H. reflexivity. Qed.

Lemma sleeps_app {R} (t1 t2 : list (event R)) :
  sleeps (t1 ++ t2) = sleeps t1 ++ sleeps t2.
Proof. unfold sleeps. apply omap_app. Qed.

(** On a chain of successful pages the loop returns all records and does
    not sleep. *)
Lemma fetch_deals_loop_chain (l : list (page deal)) :
  chained l ->
  forall tr rbody all pages after attempt,
  exists tr',
    fetch_deals_loop (map ok200 l) tr rbody all pages after attempt =
    (Ok (all ++ all_results l), {| script := []; trace := tr' |})
    /\ sleeps tr' = sleeps tr.
Proof.
  induction l as [|p l IH]; [intros []|].
  intros Hc tr rbody all pages after attempt.
  destruct l as [|q l].
  - simpl in Hc. rewrite map_cons, fetch_deals_loop_last by exact Hc.
    eexists. split.
    + unfold all_results. simpl. rewrite app_nil_r. reflexivity.
    + rewrite sleeps_app. simpl. apply app_nil_r.
  - destruct Hc as [Hp Hc].
    rewrite map_cons, fetch_deals_loop_page by exact Hp.
    destruct (IH Hc (tr ++ [Sent (if truthy after then Some after else rbody)])
                (if truthy after then Some after else rbody)
                (all ++ results p) (S pages) (next_after p) 0) as (tr' & E & Hs).
    exists tr'. split.
    + rewrite E. unfold all_results. simpl. rewrite <- app_assoc. reflexivity.
    + rewrite Hs, sleeps_app. simpl. apply app_nil_r.
Qed.

(** Two throttled attempts at any page of the chain cost two sleeps. *)
Lemma fetch_deals_loop_two_429 (pre : list (page deal)) hit post r1 r2 :
  status_code r1 = 429 -> status_code r2 = 429 ->
  chained (pre ++ hit :: post) ->
  forall tr rbody all pages after,
  exists tr',
    fetch_deals_loop (map ok200 pre ++ r1 :: r2 :: map ok200 (hit :: post))
      tr rbody all pages after 0 =
    (Ok (all ++ all_results (pre ++ hit :: post)),
     {| script := []; trace := tr' |})
    /\ sleeps tr' = sleeps tr ++ [2; 4].
Proof.
  intros H1 H2. induction pre as [|p pre IH]; intros Hc tr rbody all pages after.
  - simpl app.
    rewrite fetch_deals_loop_retry by (rewrite H1; reflexivity).
    rewrite fetch_deals_loop_retry by (rewrite H2; reflexivity).
    match goal with
    | |- context [fetch_deals_loop _ ?t ?b ?a ?pg ?af ?at'] =>
        destruct (fetch_deals_loop_chain (hit :: post) Hc t b a pg af at')
          as (tr' & E & Hs)
    end.
    exists tr'. split; [exact E|].
    rewrite Hs. rewrite !sleeps_app. cbn [sleeps omap list_omap app].
    rewrite !app_nil_r, <- app_assoc. reflexivity.
  - assert (Hp : truthy (next_after p) = true /\ chained (pre ++ hit :: post)).
    { simpl in Hc. destruct (pre ++ hit :: post) eqn:E; [destruct pre; discriminate|].
      exact Hc. }
    destruct Hp as [Hp Hc'].
    change (map ok200 (p :: pre) ++ r1 :: r2 :: map ok200 (hit :: post))
      with (ok200 p :: (map ok200 pre ++ r1 :: r2 :: map ok200 (hit :: post))).
    rewrite fetch_deals_loop_page by exact Hp.
    destruct (IH Hc' (tr ++ [Sent (if truthy after then Some after else rbody)])
                (if truthy after then Some after else rbody)
                (all ++ results p) (S pages) (next_after p)) as (tr' & E & Hs).
    exists tr'. split.
    + rewrite E. unfold all_results. simpl. rewrite <- app_assoc. reflexivity.
    + rewrite Hs, sleeps_app. simpl. rewrite app_nil_r. reflexivity.
Qed.

End FetchDeals.

Section ListAllDeals.
Import ProductReport.

Lemma hubspot_request_ok {R B} (req : R) (r : response B) rest tr n :
  retried_status (status_code r) = false ->
  raise_for_status r = Ok tt ->
  hubspot_request req (S n) {| script := r :: rest; trace := tr |} =
  (Ok (body r), {| script := rest; trace := tr ++ [Sent req] |}).
Proof. intros H1 H2. unfold hubspot_request. simpl. rewrite H1, H2. reflexivity. Qed.

Lemma hubspot_request_two_429 {R B} (req : R) (r1 r2 r : response B) rest tr :
  status_code r1 = 429 -> status_code r2 = 429 ->
  retried_status (status_code r) = false ->
  raise_for_status r = Ok tt ->
  hubspot_request req 5 {| script := r1 :: r2 :: r :: rest; trace := tr |} =
  (Ok (body r),
   {| script := rest;
      trace := tr ++ [Sent req; Slept 1; Sent req; Slept 2; Sent req] |}).
Proof.
  intros H1 H2 H3 H4. unfold hubspot_request. simpl.
  rewrite H1, H2. simpl. rewrite H3, H4. unfold log. simpl.
  rewrite <- !app_assoc. reflexivity.
Qed.

Lemma list_all_deals_loop_chain (l : list (page deal)) :
  chained l ->
  forall fuel deals after tr,
  (length l <= fuel)%nat ->
  exists tr',
    list_all_deals_loop fuel deals after
      {| script := map ok200 l; trace := tr |} =
    (Some (Ok (deals ++ all_results l)), {| script := []; trace := tr' |})
    /\ sleeps tr' = sleeps tr.
Proof.
  induction l as [|p l IH]; [intros []|].
  intros Hc fuel deals after tr Hf.
  destruct fuel as [|fuel]; [simpl in Hf; lia|].
  cbn [list_all_deals_loop]. rewrite map_cons.
  rewrite hubspot_request_ok by reflexivity.
  cbn [body ok200 from_option].
  destruct l as [|q l].
  - simpl in Hc. rewrite Hc. eexists. split.
    + unfold all_results. simpl. rewrite app_nil_r. reflexivity.
    + rewrite sleeps_app. simpl. apply app_nil_r.
  - destruct Hc as [Hp Hc]. rewrite Hp.
    destruct (IH Hc fuel (deals ++ results p) (Some (next_after p))
                (tr ++ [Sent after])) as (tr' & E & Hs).
    { simpl in *. lia. }
    exists tr'. split.
    + refine (eq_trans E _). unfold all_results. simpl. rewrite <- app_assoc. reflexivity.
    + rewrite Hs, sleeps_app. simpl. apply app_nil_r.
Qed.

Lemma list_all_deals_loop_two_429 (pre : list (page deal)) hit post r1 r2 :
  status_code r1 = 429 -> status_code r2 = 429 ->
  chained (pre ++ hit :: post) ->
  forall fuel deals after tr,
  (length (pre ++ hit :: post) <= fuel)%nat ->
  exists tr',
    list_all_deals_loop fuel deals after
      {| script := map ok200 pre ++ r1 :: r2 :: map ok200 (hit :: post);
         trace := tr |} =
    (Some (Ok (deals ++ all_results (pre ++ hit :: post))),
     {| script := []; trace := tr' |})
    /\ sleeps tr' = sleeps tr ++ [1; 2].
Proof.
  intros H1 H2. induction pre as [|p pre IH]; intros Hc fuel deals after tr Hf.
  - destruct fuel as [|fuel]; [simpl in Hf; lia|].
    cbn [list_all_deals_loop app map].
    rewrite (hubspot_request_two_429 after r1 r2 (ok200 hit)) by (assumption || reflexivity).
    cbn [body ok200 from_option].
    destruct post as [|q post].
    + simpl in Hc. rewrite Hc. eexists. split.
      * unfold all_results. simpl. rewrite app_nil_r. reflexivity.
      * rewrite sleeps_app. simpl. reflexivity.
    + destruct Hc as [Hp Hc]. rewrite Hp.
      destruct (list_all_deals_loop_chain (q :: post) Hc fuel
                  (deals ++ results hit) (Some (next_after hit))
                  (tr ++ [Sent after; Slept 1; Sent after; Slept 2; Sent after]))
        as (tr' & E & Hs).
      { simpl in *. lia. }
      exists tr'. split.
      * refine (eq_trans E _). unfold all_results. simpl. rewrite <- app_assoc. reflexivity.
      * rewrite Hs, sleeps_app. reflexivity.
  - assert (Hp : truthy (next_after p) = true /\ chained (pre ++ hit :: post)).
    { simpl in Hc. destruct (pre ++ hit :: post) eqn:E; [destruct pre; discriminate|].
      exact Hc. }
    destruct Hp as [Hp Hc'].
    destruct fuel as [|fuel]; [simpl in Hf; lia|].
    change (map ok200 (p :: pre) ++ r1 :: r2 :: map ok200 (hit :: post))
      with (ok200 p :: (map ok200 pre ++ r1 :: r2 :: map ok200 (hit :: post))).
    cbn [list_all_deals_loop].
    rewrite hubspot_request_ok by reflexivity.
    cbn [body ok200 from_option]. rewrite Hp.
    destruct (IH Hc' fuel (deals ++ results p) (Some (next_after p))
                (tr ++ [Sent after])) as (tr' & E & Hs).
    { simpl in *. lia. }
    exists tr'. split.
    + refine (eq_trans E _). unfold all_results. simpl. rewrite <- app_assoc. reflexivity.
    + rewrite Hs, sleeps_app. simpl. rewrite app_nil_r. reflexivity.
Qed.

Lemma hubspot_request_loop_consumes {R B} (req : R) remaining :
  forall attempt last (w w1 : world R B) r,
  hubspot_request_loop req remaining attempt last w = (Ok r, w1) ->
  (length (script w1) < length (script w))%nat.
Proof.
  induction remaining as [|remaining IH]; intros attempt last w w1 r H.
  - cbn [hubspot_request_loop] in H.
    destruct last as [l|]; [destruct (raise_for_status l)|]; discriminate.
  - cbn [hubspot_request_loop] in H. unfold send in H.
    destruct (script w) as [|resp rest] eqn:E; [discriminate|].
    destruct (retried_status (status_code resp)).
    + apply IH in H. unfold log in H. cbn [script] in H. cbn [length]. lia.
    + destruct (raise_for_status resp); [|discriminate].
      injection H as _ <-. cbn [script length]. lia.
Qed.

(** The loop of [list_all_deals] ends within the fuel it is given: it
    returns the deals or raises. *)
Lemma list_all_deals_loop_returns fuel :
  forall deals after w,
  (length (script w) < fuel)%nat ->
  exists r, (list_all_deals_loop fuel deals after w).1 = Some r.
Proof.
  induction fuel as [|fuel IH]; intros deals after w Hf; [lia|].
  cbn [list_all_deals_loop].
  destruct (hubspot_request after 5 w) as [[pg|e] w1] eqn:E.
  - apply hubspot_request_loop_consumes in E.
    destruct (truthy (from_option next_after PNone pg)).
    + apply IH. eapply Nat.lt_le_trans; [exact E|].
      apply Nat.lt_succ_r. exact Hf.
    + eexists. reflexivity.
  - eexists. reflexivity.
Qed.

Lemma list_all_deals_returns w : exists r, (list_all_deals w).1 = Some r.
Proof. apply list_all_deals_loop_returns. lia. Qed.

End ListAllDeals.

(** C5.  When the transport answers two consecutive attempts of one page
    request with HTTP 429 and every other request with HTTP 200, both
    paginated fetchers ([list_all_deals] over [hubspot_request], and
    [fetch_deals]) return the records of all pages in order, sleep exactly
    twice, and raise nothing. *)
Theorem paginated_fetch_survives_two_429
    (pre : list (page deal)) (hit : page deal) (post : list (page deal))
    (r1 r2 : response (page deal)) :
  status_code r1 = 429 -> status_code r2 = 429 ->
  chained (pre ++ hit :: post) ->
  exists t1 t2,
    ProductReport.list_all_deals
      {| script := map ok200 pre ++ r1 :: r2 :: map ok200 (hit :: post);
         trace := [] |}
    = (Some (Ok (all_results (pre ++ hit :: post))),
       {| script := []; trace := t1 |})
    /\ sleeps t1 = [1; 2]
    /\ OwnerStageReport.fetch_deals
         {| script := map ok200 pre ++ r1 :: r2 :: map ok200 (hit :: post);
            trace := [] |}
       = (Ok (all_results (pre ++ hit :: post)),
          {| script := []; trace := t2 |})
    /\ sleeps t2 = [2; 4].
Proof.
  intros H1 H2 Hc.
  destruct (list_all_deals_loop_two_429 pre hit post r1 r2 H1 H2 Hc
              (S (length (map ok200 pre ++ r1 :: r2 :: map ok200 (hit :: post))))
              [] None []) as (t1 & E1 & Hs1).
  { rewrite !length_app. simpl. rewrite !length_map. lia. }
  destruct (fetch_deals_loop_two_429 pre hit post r1 r2 H1 H2 Hc
              [] None [] 0%nat PNone) as (t2 & E2 & Hs2).
  exists t1, t2. repeat split.
  - exact E1.
  - exact Hs1.
  - exact E2.
  - exact Hs2.
Qed.

Lemma paginated_fetch_survives_two_429_witness :
  let p1 := {| results := [ {| deal_id_raw := PStr "1"; properties := ∅ |} ];
               next_after := PStr "100" |} in
  let p2 := {| results := [ {| deal_id_raw := PStr "2"; properties := ∅ |} ];
               next_after := PNone |} in
  let r429 := {| status_code := 429; body := None |} in
  exists t1 t2,
    ProductReport.list_all_deals
      {| script := map ok200 [p1] ++ r429 :: r429 :: map ok200 [p2];
         trace := [] |}
    = (Some (Ok (all_results ([p1] ++ [p2]))), {| script := []; trace := t1 |})
    /\ sleeps t1 = [1; 2]
    /\ OwnerStageReport.fetch_deals
         {| script := map ok200 [p1] ++ r429 :: r429 :: map ok200 [p2];
            trace := [] |}
       = (Ok (all_results ([p1] ++ [p2])), {| script := []; trace := t2 |})
    /\ sleeps t2 = [2; 4].
Proof.
  intros p1 p2 r429.
  apply (paginated_fetch_survives_two_429 [p1] p2 [] r429 r429).
  - reflexivity.
  - reflexivity.
  - simpl. split; reflexivity.
Defined.

(** ** Retry policy *)

Section RetryPolicy.

Lemma fetch_deals_loop_body rs tr rbody all pages after attempt :
  OwnerStageReport.fetch_deals_loop rs tr
    (if truthy after then Some after else rbody) all pages after attempt =
  OwnerStageReport.fetch_deals_loop rs tr rbody all pages after attempt.
Proof. destruct rs; simpl; destruct (truthy after); reflexivity. Qed.

Lemma owner_retried_status s :
  throttled_or_5xx s -> OwnerStageReport.retried_status s = true.
Proof.
  unfold throttled_or_5xx, OwnerStageReport.retried_status. intros [->|[H1 H2]].
  - reflexivity.
  - apply orb_true_iff. right. apply andb_true_iff. split; lia.
Qed.

(** Any number of throttled or 5xx answers leaves the loop of [fetch_deals]
    where it was, but for the attempt counter and the trace. *)
Lemma fetch_deals_loop_transient (ts : list (response (page deal))) :
  Forall (fun r => throttled_or_5xx (status_code r)) ts ->
  forall rest tr rbody all pages after attempt,
  OwnerStageReport.fetch_deals_loop (ts ++ rest) tr rbody all pages after attempt =
  OwnerStageReport.fetch_deals_loop rest
    (tr ++ backoff_trace (if truthy after then Some after else rbody) 32
             (attempt + 1) (length ts))
    rbody all pages after (attempt + Z.of_nat (length ts)).
Proof.
  induction 1 as [|r ts Hr Hts IH]; intros rest tr rbody all pages after attempt.
  - simpl. rewrite app_nil_r, Z.add_0_r. reflexivity.
  - change ((r :: ts) ++ rest) with (r :: (ts ++ rest)).
    rewrite fetch_deals_loop_retry by (apply owner_retried_status, Hr).
    rewrite fetch_deals_loop_body, IH.
    f_equal.
    + cbn [backoff_trace length]. rewrite <- !app_assoc. reflexivity.
    + cbn [length]. lia.
Qed.

Lemma fetch_deals_loop_error r rest tr rbody all pages after attempt :
  other_error (status_code r) ->
  OwnerStageReport.fetch_deals_loop (r :: rest) tr rbody all pages after attempt =
  (Raise (HTTPError (status_code r)),
   {| script := rest;
      trace := tr ++ [Sent (if truthy after then Some after else rbody)] |}).
Proof.
  intros [[H1 H2] H3]. simpl.
  replace (OwnerStageReport.retried_status (status_code r)) with false.
  2:{ symmetry. unfold OwnerStageReport.retried_status.
      apply orb_false_iff. split; [lia|]. apply andb_false_iff. left. lia. }
  unfold raise_for_status.
  replace ((400 <=? status_code r) && (status_code r <? 600)) with true.
  2:{ symmetry. apply andb_true_iff. split; lia. }
  reflexivity.
Qed.

Lemma steps_script_snoc {A} (steps : list (list (response (page A)) * page A))
    ts p :
  steps_script (steps ++ [(ts, p)]) = steps_script steps ++ ts ++ [ok200 p].
Proof.
  unfold steps_script. rewrite map_app, concat_app. cbn [map concat fst snd].
  rewrite app_nil_r. reflexivity.
Qed.

Lemma steps_trace_snoc {A} (steps : list (list (response (page A)) * page A)) :
  forall cursor ts p,
  steps_trace cursor (steps ++ [(ts, p)])
  = steps_trace cursor steps
    ++ backoff_trace (cursor_after cursor steps) 32 1 (length ts)
    ++ [Sent (cursor_after cursor steps)].
Proof.
  induction steps as [|s steps IH]; intros cursor ts p.
  - cbn [app steps_trace fst]. reflexivity.
  - cbn [app steps_trace]. rewrite IH, <- !app_assoc. reflexivity.
Qed.

(** The loop of [fetch_deals] over pages that each name a next cursor. *)
Lemma fetch_deals_loop_steps
    (steps : list (list (response (page deal)) * page deal)) :
  forall tail tr rbody all pages after,
  Forall (fun s => Forall (fun r => throttled_or_5xx (status_code r)) s.1
                   /\ truthy (next_after s.2) = true) steps ->
  exists rbody' after',
    (if truthy after' then Some after' else rbody')
    = cursor_after (if truthy after then Some after else rbody) steps
    /\ OwnerStageReport.fetch_deals_loop (steps_script steps ++ tail) tr rbody
         all pages after 0
       = OwnerStageReport.fetch_deals_loop tail
           (tr ++ steps_trace (if truthy after then Some after else rbody) steps)
           rbody' (all ++ all_results (snd <$> steps))
           (pages + length steps) after' 0.
Proof.
  induction steps as [|[ts p] steps IH]; intros tail tr rbody all pages after H.
  - exists rbody, after. split; [reflexivity|].
    cbn [steps_script map concat app steps_trace fmap list_fmap length].
    unfold all_results. cbn [map concat].
    rewrite !app_nil_r, Nat.add_0_r. reflexivity.
  - apply Forall_cons in H as [[Hts Hp] H]. cbn [fst snd] in Hts, Hp.
    unfold steps_script. cbn [map concat fst snd]. fold (steps_script steps).
    rewrite <- !app_assoc.
    rewrite fetch_deals_loop_transient by exact Hts.
    cbn [app]. rewrite fetch_deals_loop_page by exact Hp.
    destruct (IH tail
                ((tr ++ backoff_trace (if truthy after then Some after else rbody)
                          32 (0 + 1) (length ts))
                 ++ [Sent (if truthy after then Some after else rbody)])
                (if truthy after then Some after else rbody)
                (all ++ results p) (S pages) (next_after p) H)
      as (rbody' & after' & Hc & E).
    rewrite Hp in Hc, E.
    exists rbody', after'. split; [exact Hc|].
    refine (eq_trans E _). f_equal.
    + cbn [steps_trace fst snd]. rewrite <- !app_assoc. reflexivity.
    + unfold all_results. cbn [fmap list_fmap snd map concat].
      rewrite <- app_assoc. reflexivity.
    + cbn [length]. lia.
Qed.

Context {R B : Type}.

Lemma product_retried_status s :
  product_retried s -> ProductReport.retried_status s = true.
Proof.
  unfold product_retried. rewrite !elem_of_cons, elem_of_nil.
  intros [->|[->|[->|[->|[->|[]]]]]]; reflexivity.
Qed.

Lemma product_retried_raises (r : response B) :
  product_retried (status_code r) ->
  raise_for_status r = Raise (HTTPError (status_code r)).
Proof.
  unfold product_retried. rewrite !elem_of_cons, elem_of_nil.
  unfold raise_for_status.
  intros [->|[->|[->|[->|[->|[]]]]]]; reflexivity.
Qed.

(** Fewer failed attempts than [remaining]: the loop goes on with the rest
    of the script. *)
Lemma hubspot_request_loop_transient (req : R) (ts : list (response B)) :
  Forall (fun r => product_retried (status_code r)) ts ->
  forall remaining attempt last rest tr,
  ProductReport.hubspot_request_loop req (length ts + remaining) attempt last
    {| script := ts ++ rest; trace := tr |} =
  ProductReport.hubspot_request_loop req remaining
    (attempt + Z.of_nat (length ts))
    (match list.last ts with Some r => Some r | None => last end)
    {| script := rest; trace := tr ++ backoff_trace req 20 attempt (length ts) |}.
Proof.
  induction 1 as [|r ts Hr Hts IH]; intros remaining attempt last rest tr.
  - simpl. rewrite app_nil_r, Z.add_0_r. reflexivity.
  - cbn [length Nat.add ProductReport.hubspot_request_loop app send script].
    rewrite product_retried_status by exact Hr.
    unfold log. cbn [script trace].
    rewrite IH. f_equal.
    + cbn [length]. lia.
    + rewrite last_cons. destruct (list.last ts); reflexivity.
    + cbn [backoff_trace]. rewrite <- !app_assoc. reflexivity.
Qed.

End RetryPolicy.

(** C3 (as amended).  [fetch_deals] retries HTTP 429 and every 5xx without
    bound: after any number of such answers it has slept
    [min(2 ** attempt, 32)] seconds per failed attempt, with [attempt]
    counting the consecutive failures from 1, has sent the same body each
    time, and continues with the cursor, the records and the page count it
    had; a 4xx status other than 429 ends it at once with that HTTP error.
    A whole run of [fetch_deals] whose pages are each answered after any
    number of such failures returns the records of all pages, and its
    sleeps start again from [min(2 ** 1, 32)] at every page; a run that
    meets a 4xx status other than 429, after any pages and failures,
    raises that HTTP error with the request that met it as its last.
    [hubspot_request] retries only 429, 500, 502, 503 and 504, sleeps
    [min(2 ** attempt, 20)] seconds with [attempt] counted from 0, and
    makes at most [retries] attempts: with fewer failures the next answer
    decides (4xx and 5xx raise, anything else is returned), and after
    [retries] failures the last HTTP error is raised. *)
Theorem retry_policy :
  (forall (ts : list (response (page deal))) rest tr rbody all pages after attempt,
     Forall (fun r => throttled_or_5xx (status_code r)) ts ->
     OwnerStageReport.fetch_deals_loop (ts ++ rest) tr rbody all pages after attempt =
     OwnerStageReport.fetch_deals_loop rest
       (tr ++ backoff_trace (if truthy after then Some after else rbody) 32
                (attempt + 1) (length ts))
       rbody all pages after (attempt + Z.of_nat (length ts)))
  /\
  (forall (r : response (page deal)) rest tr rbody all pages after attempt,
     other_error (status_code r) ->
     OwnerStageReport.fetch_deals_loop (r :: rest) tr rbody all pages after attempt =
     (Raise (HTTPError (status_code r)),
      {| script := rest;
         trace := tr ++ [Sent (if truthy after then Some after else rbody)] |}))
  /\
  (forall (steps : list (list (response (page deal)) * page deal)) ts p rest tr,
     Forall (fun s => Forall (fun r => throttled_or_5xx (status_code r)) s.1
                      /\ truthy (next_after s.2) = true) steps ->
     Forall (fun r => throttled_or_5xx (status_code r)) ts ->
     truthy (next_after p) = false ->
     OwnerStageReport.fetch_deals
       {| script := steps_script (steps ++ [(ts, p)]) ++ rest; trace := tr |} =
     (Ok (all_results (snd <$> steps ++ [(ts, p)])),
      {| script := rest;
         trace := tr ++ steps_trace None (steps ++ [(ts, p)]) |}))
  /\
  (forall (steps : list (list (response (page deal)) * page deal)) ts r rest tr,
     Forall (fun s => Forall (fun r => throttled_or_5xx (status_code r)) s.1
                      /\ truthy (next_after s.2) = true) steps ->
     Forall (fun r => throttled_or_5xx (status_code r)) ts ->
     other_error (status_code r) ->
     OwnerStageReport.fetch_deals
       {| script := steps_script steps ++ ts ++ r :: rest; trace := tr |} =
     (Raise (HTTPError (status_code r)),
      {| script := rest;
         trace := tr ++ steps_trace None steps
                  ++ backoff_trace (cursor_after None steps) 32 1 (length ts)
                  ++ [Sent (cursor_after None steps)] |}))
  /\
  (forall (R B : Type) (req : R) (ts : list (response B)) r rest tr retries,
     Forall (fun r => product_retried (status_code r)) ts ->
     ~ product_retried (status_code r) ->
     (length ts < retries)%nat ->
     ProductReport.hubspot_request req retries
       {| script := ts ++ r :: rest; trace := tr |} =
     (answer r,
      {| script := rest;
         trace := tr ++ backoff_trace req 20 0 (length ts) ++ [Sent req] |}))
  /\
  (forall (R B : Type) (req : R) (ts : list (response B)) r rest tr,
     Forall (fun r => product_retried (status_code r)) (ts ++ [r]) ->
     ProductReport.hubspot_request req (length (ts ++ [r]))
       {| script := (ts ++ [r]) ++ rest; trace := tr |} =
     (Raise (HTTPError (status_code r)),
      {| script := rest;
         trace := tr ++ backoff_trace req 20 0 (length (ts ++ [r])) |})).
Proof.
  split; [|split; [|split; [|split; [|split]]]].
  - intros. apply fetch_deals_loop_transient. assumption.
  - intros. apply fetch_deals_loop_error. assumption.
  - intros steps ts p rest tr Hsteps Hts Hp.
    unfold OwnerStageReport.fetch_deals. cbn [script trace].
    rewrite steps_script_snoc, <- !app_assoc.
    destruct (fetch_deals_loop_steps steps (ts ++ [ok200 p] ++ rest) tr None []
                0%nat PNone Hsteps) as (rbody' & after' & Hc & E).
    rewrite E. rewrite fetch_deals_loop_transient by exact Hts.
    cbn [app]. rewrite fetch_deals_loop_last by exact Hp.
    rewrite Hc. f_equal.
    + unfold all_results. rewrite fmap_app, map_app, concat_app.
      cbn [app fmap list_fmap snd map concat]. rewrite app_nil_r. reflexivity.
    + f_equal. rewrite steps_trace_snoc, <- !app_assoc. reflexivity.
  - intros steps ts r rest tr Hsteps Hts Hr.
    unfold OwnerStageReport.fetch_deals. cbn [script trace].
    destruct (fetch_deals_loop_steps steps (ts ++ r :: rest) tr None []
                0%nat PNone Hsteps) as (rbody' & after' & Hc & E).
    rewrite E. rewrite fetch_deals_loop_transient by exact Hts.
    rewrite fetch_deals_loop_error by exact Hr.
    rewrite Hc. f_equal. f_equal. rewrite <- !app_assoc. reflexivity.
  - intros R B req ts r rest tr retries Hts Hr Hlen.
    unfold ProductReport.hubspot_request.
    replace retries with (length ts + S (retries - length ts - 1))%nat by lia.
    rewrite hubspot_request_loop_transient by exact Hts.
    rewrite Z.add_0_l.
    generalize (retries - length ts - 1)%nat as n. intros n.
    cbn [ProductReport.hubspot_request_loop send script trace].
    replace (ProductReport.retried_status (status_code r)) with false.
    2:{ symmetry. apply not_true_is_false. intros H. apply Hr.
        unfold ProductReport.retried_status in H. unfold product_retried.
        rewrite !orb_true_iff, !Z.eqb_eq in H. rewrite !elem_of_cons. tauto. }
    rewrite <- app_assoc. unfold answer, raise_for_status.
    destruct (decide (400 <= status_code r < 600)) as [H|H].
    + replace ((400 <=? status_code r) && (status_code r <? 600)) with true; [reflexivity|].
      symmetry. apply andb_true_iff. split; lia.
    + replace ((400 <=? status_code r) && (status_code r <? 600)) with false; [reflexivity|].
      symmetry. apply not_true_is_false. rewrite andb_true_iff. intros []. lia.
  - intros R B req ts r rest tr Hts.
    unfold ProductReport.hubspot_request.
    replace (length (ts ++ [r])) with (length (ts ++ [r]) + 0)%nat at 1 by lia.
    rewrite hubspot_request_loop_transient by exact Hts.
    rewrite last_snoc. cbn [ProductReport.hubspot_request_loop].
    rewrite product_retried_raises; [reflexivity|].
    apply Forall_app in Hts. destruct Hts as [_ Hr]. inversion Hr. assumption.
Qed.

Lemma retry_policy_witness :
  let r n : response (page deal) := {| status_code := n; body := None |} in
  let p1 : page deal := {| results := []; next_after := PStr "c1" |} in
  let p2 : page deal := {| results := []; next_after := PNone |} in
  OwnerStageReport.fetch_deals_loop ([r 429; r 503; r 599] ++ []) [] None [] 0 PNone 0 =
  OwnerStageReport.fetch_deals_loop [] ([] ++ backoff_trace None 32 (0 + 1) 3)
    None [] 0 PNone (0 + 3)
  /\ OwnerStageReport.fetch_deals_loop [r 404] [] None [] 0 PNone 0 =
     (Raise (HTTPError 404), {| script := []; trace := [] ++ [Sent None] |})
  /\ OwnerStageReport.fetch_deals
       {| script := steps_script ([([r 429], p1)] ++ [([r 503; r 429], p2)]) ++ [];
          trace := [] |} =
     (Ok (all_results (snd <$> [([r 429], p1)] ++ [([r 503; r 429], p2)])),
      {| script := [];
         trace := [] ++ steps_trace None
                          ([([r 429], p1)] ++ [([r 503; r 429], p2)]) |})
  /\ OwnerStageReport.fetch_deals
       {| script := steps_script [([r 429], p1)] ++ [r 500] ++ r 403 :: [r 200];
          trace := [] |} =
     (Raise (HTTPError 403),
      {| script := [r 200];
         trace := [] ++ steps_trace None [([r 429], p1)]
                  ++ backoff_trace (cursor_after None [([r 429], p1)]) 32 1 1
                  ++ [Sent (cursor_after None [([r 429], p1)])] |})
  /\ ProductReport.hubspot_request tt 5
       {| script := [r 429; r 502] ++ r 200 :: []; trace := [] |} =
     (answer (r 200),
      {| script := [];
         trace := [] ++ backoff_trace tt 20 0 2 ++ [Sent tt] |})
  /\ ProductReport.hubspot_request tt 2
       {| script := ([r 429] ++ [r 500]) ++ [r 200]; trace := [] |} =
     (Raise (HTTPError 500),
      {| script := [r 200]; trace := [] ++ backoff_trace tt 20 0 2 |}).
Proof.
  intros r p1 p2. destruct retry_policy as (A & B & P & Q & C & D).
  split; [|split; [|split; [|split; [|split]]]].
  - apply (A [r 429; r 503; r 599]).
    repeat constructor; unfold throttled_or_5xx; simpl; lia.
  - apply (B (r 404)). unfold other_error. simpl. lia.
  - apply (P [([r 429], p1)] [r 503; r 429] p2 [] []).
    + repeat first [apply List.Forall_nil | apply List.Forall_cons | split];
        unfold throttled_or_5xx; simpl; lia.
    + repeat first [apply List.Forall_nil | apply List.Forall_cons];
        unfold throttled_or_5xx; simpl; lia.
    + reflexivity.
  - apply (Q [([r 429], p1)] [r 500] (r 403) [r 200] []).
    + repeat first [apply List.Forall_nil | apply List.Forall_cons | split];
        unfold throttled_or_5xx; simpl; lia.
    + repeat first [apply List.Forall_nil | apply List.Forall_cons];
        unfold throttled_or_5xx; simpl; lia.
    + unfold other_error. simpl. lia.
  - apply (C unit _ tt [r 429; r 502] (r 200) [] [] 5%nat).
    + repeat constructor; unfold product_retried; simpl;
        rewrite ?elem_of_cons, ?elem_of_nil; lia.
    + unfold product_retried. simpl. rewrite ?elem_of_cons, ?elem_of_nil. lia.
    + simpl. lia.
  - apply (D unit _ tt [r 429] (r 500) [r 200] []).
    repeat constructor; unfold product_retried; simpl;
      rewrite ?elem_of_cons, ?elem_of_nil; lia.
Defined.

(** The sleeps of [fetch_deals] start again at every page: one failure
    before the first page and two before the second cost 2, then 2 and 4
    seconds. *)
Example fetch_deals_backoff_restarts :
  let r n : response (page deal) := {| status_code := n; body := None |} in
  let p1 : page deal := {| results := []; next_after := PStr "c1" |} in
  let p2 : page deal := {| results := []; next_after := PNone |} in
  OwnerStageReport.fetch_deals
    {| script := [r 429; ok200 p1; r 503; r 429; ok200 p2]; trace := [] |}
  = (Ok [],
     {| script := [];
        trace := [Sent None; Slept 2; Sent None;
                  Sent (Some (PStr "c1")); Slept 2;
                  Sent (Some (PStr "c1")); Slept 4;
                  Sent (Some (PStr "c1"))] |}).
Proof. reflexivity. Qed.

(** C3 as stated fails on [hubspot_request]: retries are bounded (five
    throttled answers surface the error although the sixth would succeed),
    a 5xx status outside 500, 502, 503, 504 is not retried, and a non-2xx
    status below 400 is not an error. *)
Lemma hubspot_request_retries_are_bounded :
  let r n : response (page deal) :=
    {| status_code := n; body := Some {| results := []; next_after := PNone |} |} in
  ProductReport.hubspot_request tt 5
    {| script := [r 429; r 429; r 429; r 429; r 429; r 200]; trace := [] |}
  = (Raise (HTTPError 429),
     {| script := [r 200];
        trace := [Sent tt; Slept 1; Sent tt; Slept 2; Sent tt; Slept 4;
                  Sent tt; Slept 8; Sent tt; Slept 16] |})
  /\ ProductReport.hubspot_request tt 5
       {| script := [r 501; r 200]; trace := [] |}
     = (Raise (HTTPError 501), {| script := [r 200]; trace := [Sent tt] |})
  /\ ProductReport.hubspot_request tt 5
       {| script := [r 304]; trace := [] |}
     = (Ok (body (r 304)), {| script := []; trace := [Sent tt] |}).
Proof. intros r. repeat split. Qed.

(** ** Primary company fallback *)

Section PrimaryCompany.
Import ProductReport.
Variable py_repr : pyval -> string.

Lemma has_primary_label_false types :
  (forall a, a ∈ types -> ~ is_primary a) -> has_primary_label types = false.
Proof.
  intros H. unfold has_primary_label. apply not_true_is_false. intros E.
  apply existsb_exists in E as (a & Ha & Hl).
  apply (H a); [apply list_elem_of_In, Ha|].
  apply String.eqb_eq in Hl. unfold is_primary.
  destruct (label a) as [l|] eqn:El; simpl in Hl.
  - exists l. split; [reflexivity|exact Hl].
  - discriminate.
Qed.

Lemma scan_companies_no_primary tos c :
  no_primary tos -> unset (Some c) = false ->
  scan_companies py_repr tos (Some c) = (None, Some c).
Proof.
  intros Hn Hc. induction tos as [|t tos IH]; [reflexivity|].
  cbn [scan_companies]. rewrite Hc.
  rewrite has_primary_label_false.
  - apply IH. intros t' a Ht'. apply Hn. right. exact Ht'.
  - intros a Ha. apply (Hn t a); [left|exact Ha].
Qed.

Lemma chosen_company_first t tos :
  no_primary (t :: tos) ->
  py_str py_repr (toObjectId t) <> "" ->
  chosen_company py_repr (t :: tos) = py_str py_repr (toObjectId t).
Proof.
  intros Hn Hc. unfold chosen_company. cbn [scan_companies unset].
  rewrite has_primary_label_false
    by (intros a Ha; apply (Hn t a); [left|exact Ha]).
  assert (Hu : unset (Some (py_str py_repr (toObjectId t))) = false).
  { simpl. destruct (py_str py_repr (toObjectId t)); [congruence|reflexivity]. }
  rewrite scan_companies_no_primary.
  - cbn [unset]. simpl in Hu. rewrite Hu. reflexivity.
  - intros t' a Ht'. apply Hn. right. exact Ht'.
  - exact Hu.
Qed.

Lemma resolve_batch_other recs result0 k :
  Forall (fun r => py_str py_repr (from_id r) <> k) recs ->
  resolve_batch py_repr recs result0 !! k = result0 !! k.
Proof.
  unfold resolve_batch. intros H. revert result0.
  induction H as [|r recs Hr _ IH]; intros result0; [reflexivity|].
  cbn [foldl]. rewrite IH. apply lookup_insert_ne. exact Hr.
Qed.

Lemma resolve_batch_app l1 l2 result0 :
  resolve_batch py_repr (l1 ++ l2) result0 =
  resolve_batch py_repr l2 (resolve_batch py_repr l1 result0).
Proof. unfold resolve_batch. apply foldl_app. Qed.

Lemma resolve_batch_cons r l result0 :
  resolve_batch py_repr (r :: l) result0 =
  resolve_batch py_repr l
    (<[py_str py_repr (from_id r) := chosen_company py_repr (to r)]> result0).
Proof. reflexivity. Qed.

End PrimaryCompany.

(** C8.  In a batch-read result, a deal none of whose associated companies
    carries an association type labelled "primary" (in any letter case) is
    mapped to the id of the first company of its list.  The deal has at
    least one company, that company's id is not empty, and [rec] is the
    last record of the batch for this deal. *)
Theorem no_primary_falls_back_to_first_company
    (py_repr : pyval -> string)
    (before after : list ProductReport.assoc_rec) (rec : ProductReport.assoc_rec)
    (t : ProductReport.assoc_to) (ts : list ProductReport.assoc_to)
    (result0 : gmap string string) :
  ProductReport.to rec = t :: ts ->
  no_primary (ProductReport.to rec) ->
  py_str py_repr (ProductReport.toObjectId t) <> "" ->
  Forall (fun r => py_str py_repr (ProductReport.from_id r)
                   <> py_str py_repr (ProductReport.from_id rec)) after ->
  ProductReport.resolve_batch py_repr (before ++ rec :: after) result0
    !! py_str py_repr (ProductReport.from_id rec)
  = Some (py_str py_repr (ProductReport.toObjectId t)).
Proof.
  intros Hto Hn Hc Hafter.
  rewrite resolve_batch_app, resolve_batch_cons.
  rewrite resolve_batch_other by exact Hafter.
  rewrite lookup_insert_eq. f_equal.
  rewrite Hto in *. apply chosen_company_first; assumption.
Qed.

(** A first company whose id reads as the empty string does not count as
    a fallback: the scan takes the next one. *)
Example empty_first_id_is_skipped :
  ProductReport.chosen_company (fun _ => "")
    [ {| ProductReport.toObjectId := PStr "";
         ProductReport.associationTypes := [] |};
      {| ProductReport.toObjectId := PInt 502;
         ProductReport.associationTypes := [] |} ]
  = "502".
Proof. reflexivity. Qed.

Lemma no_primary_falls_back_to_first_company_witness :
  let unlabeled := {| ProductReport.label := None |} in
  let user_defined := {| ProductReport.label := Some "Partner" |} in
  let c1 := {| ProductReport.toObjectId := PInt 501;
               ProductReport.associationTypes := [unlabeled] |} in
  let c2 := {| ProductReport.toObjectId := PInt 502;
               ProductReport.associationTypes := [user_defined] |} in
  let rec := {| ProductReport.from_id := PStr "77";
                ProductReport.to := [c1; c2] |} in
  ProductReport.resolve_batch (fun _ => "") ([] ++ rec :: []) ∅ !! "77"
  = Some "501".
Proof.
  intros unlabeled user_defined c1 c2 rec.
  apply (no_primary_falls_back_to_first_company (fun _ => "") [] [] rec c1 [c2] ∅).
  - reflexivity.
  - intros t a Ht Ha [l [Hl Hp]].
    apply elem_of_cons in Ht as [->|Ht].
    + apply list_elem_of_singleton in Ha as ->. discriminate.
    + apply list_elem_of_singleton in Ht as ->.
      apply list_elem_of_singleton in Ha as ->.
      injection Hl as <-. vm_compute in Hp. discriminate.
  - vm_compute. discriminate.
  - constructor.
Defined.

(** ** Replacing the rows of a snapshot week *)

Section ReplaceRows.
Import ProductReport.
Variable py_repr : pyval -> string.

Lemma foldl_append ws rows : foldl append ws rows = ws ++ rows.
Proof.
  revert ws. induction rows as [|r rows IH]; intros ws; simpl.
  - symmetry. apply app_nil_r.
  - rewrite IH. unfold append. rewrite <- app_assoc. reflexivity.
Qed.

Lemma skip_is_not_in_week week r :
  bool_decide (r = []) || negb (truthy (first_cell r)) = true ->
  in_week py_repr week r = false.
Proof.
  unfold in_week. intros H. apply orb_true_iff in H as [H|H].
  - apply bool_decide_eq_true in H. subst r. reflexivity.
  - apply negb_true_iff in H. rewrite H. reflexivity.
Qed.

Lemma rows_to_delete_cons week r rest i :
  rows_to_delete py_repr (r :: rest) i week =
  (if in_week py_repr week r then [i] else [])
    ++ rows_to_delete py_repr rest (S i) week.
Proof.
  cbn [rows_to_delete].
  destruct (bool_decide (r = []) || negb (truthy (first_cell r))) eqn:E.
  - rewrite (skip_is_not_in_week week r E). reflexivity.
  - apply orb_false_iff in E as [_ E]. apply negb_false_iff in E.
    unfold in_week. rewrite E. cbn [andb].
    destruct (String.eqb _ _); reflexivity.
Qed.

(** Deleting the listed rows, highest index first, removes exactly the rows
    of the week and keeps everything around them in place. *)
Lemma delete_scanned_rows week data :
  forall pre suffix,
  foldl delete_row (pre ++ data ++ suffix)
    (reverse (rows_to_delete py_repr data (S (length pre)) week)) =
  pre ++ other_rows py_repr week data ++ suffix.
Proof.
  induction data as [|r data IH]; intros pre suffix; [reflexivity|].
  rewrite rows_to_delete_cons, reverse_app, foldl_app.
  replace (pre ++ (r :: data) ++ suffix) with ((pre ++ [r]) ++ data ++ suffix)
    by (rewrite <- app_assoc; reflexivity).
  replace (S (S (length pre))) with (S (length (pre ++ [r])))
    by (rewrite length_app; simpl; lia).
  rewrite IH. unfold other_rows. rewrite filter_cons.
  destruct (in_week py_repr week r) eqn:E.
  - rewrite decide_False by discriminate.
    rewrite <- app_assoc. change (reverse [S (length pre)]) with [S (length pre)].
    cbn [foldl app]. unfold delete_row.
    replace (S (length pre) - 1)%nat with (length pre) by lia.
    apply delete_middle.
  - rewrite decide_True by reflexivity.
    rewrite <- app_assoc. reflexivity.
Qed.

Lemma replace_rows_for_snapshot_eq ws rows week :
  replace_rows_for_snapshot py_repr ws rows week =
  take 1 ws ++ other_rows py_repr week (data_rows ws) ++ rows.
Proof.
  unfold replace_rows_for_snapshot. rewrite foldl_append.
  destruct ws as [|h data].
  - reflexivity.
  - pose proof (delete_scanned_rows week data [h] []) as H.
    rewrite !app_nil_r in H. cbn [length] in H.
    unfold data_rows. change (drop 1 (h :: data)) with data.
    change (take 1 (h :: data)) with [h].
    change (h :: data) with ([h] ++ data). rewrite H.
    rewrite <- app_assoc. reflexivity.
Qed.

End ReplaceRows.

(** C10.  [replace_rows_for_snapshot] leaves row 1 alone, deletes exactly
    the data rows whose first cell is not empty and reads
    [snapshot_week_start] as a string, keeps every other data row (a row
    with an empty or [None] first cell among them) with its cells and in
    its order, and puts the new rows after them. *)
Theorem replace_rows_for_snapshot_frame
    (py_repr : pyval -> string) (ws rows : list (list pyval)) (week : string) :
  ProductReport.replace_rows_for_snapshot py_repr ws rows week =
  take 1 ws ++ other_rows py_repr week (data_rows ws) ++ rows
  /\ (forall r, r ∈ data_rows ws ->
        truthy (ProductReport.first_cell r) = false ->
        r ∈ other_rows py_repr week (data_rows ws))
  /\ (forall r, r ∈ data_rows ws ->
        r ∉ other_rows py_repr week (data_rows ws) ->
        truthy (ProductReport.first_cell r) = true
        /\ py_str py_repr (ProductReport.first_cell r) = week).
Proof.
  split; [apply replace_rows_for_snapshot_eq|]. split.
  - intros r Hr Hf. unfold other_rows. apply list_elem_of_filter. split; [|exact Hr].
    unfold in_week. rewrite Hf. reflexivity.
  - intros r Hr Hn. unfold other_rows in Hn. rewrite list_elem_of_filter in Hn.
    destruct (in_week py_repr week r) eqn:E.
    + unfold in_week in E. apply andb_true_iff in E as [E1 E2].
      split; [exact E1|]. apply String.eqb_eq. exact E2.
    + exfalso. apply Hn. split; [reflexivity|exact Hr].
Qed.

(** ** When the workbook file is written *)

Section Saves.
Import ProductReport.
Variable py_repr : pyval -> string.
Variable summary_tables : list (list pyval) -> result (list (list pyval)).

Lemma main_outcomes token today api d :
  exists r d', main py_repr summary_tables token today api d = (r, d')
  /\ match r with
     | Ok _ =>
         exists data rbp wb wb1 wb2,
           api = Ok data
           /\ build_rows py_repr (api_deals data) (week_start_iso today)
                (api_lookups data) DEFAULT_PRODUCTS = Ok rbp
           /\ (opened_workbook d).1 = Ok wb
           /\ merge_snapshot py_repr rbp (week_start_iso today) wb = Ok wb1
           /\ rewrite_summary_sheet summary_tables wb1 DEFAULT_PRODUCTS = Ok wb2
           /\ d' = save wb2 (opened_workbook d).2
     | Raise _ => d' = d \/ d' = (opened_workbook d).2
     end.
Proof.
  unfold main.
  destruct (negb (from_option PyString.nonempty false token)).
  { eexists _, _. split; [reflexivity|]. left. reflexivity. }
  destruct api as [data|e].
  2:{ eexists _, _. split; [reflexivity|]. left. reflexivity. }
  destruct (build_rows py_repr (api_deals data) (week_start_iso today)
              (api_lookups data) DEFAULT_PRODUCTS) as [rbp|e] eqn:Eb.
  2:{ eexists _, _. split; [reflexivity|]. left. reflexivity. }
  destruct (opened_workbook d) as [[wb|e] d1].
  2:{ eexists _, _. split; [reflexivity|]. right. reflexivity. }
  destruct (merge_snapshot py_repr rbp _ wb) as [wb1|e] eqn:Em.
  2:{ eexists _, _. split; [reflexivity|]. right. reflexivity. }
  destruct (rewrite_summary_sheet summary_tables wb1 DEFAULT_PRODUCTS)
    as [wb2|e] eqn:Es.
  - eexists _, _. split; [reflexivity|].
    exists data, rbp, wb, wb1, wb2. repeat split; assumption.
  - eexists _, _. split; [reflexivity|]. right. reflexivity.
Qed.

End Saves.

(** C4 (as amended).  A run that completes has built the rows, merged
    them into the opened workbook, rewritten the summary and saved the
    result with its last action; a run that raises has not saved that
    workbook.  When the workbook file exists, opening it writes nothing: a
    run writes the file exactly once, and a run that raises leaves it as
    it was.  When the file does not exist, [create_new_workbook] saves an
    empty workbook before the snapshot is merged: a run that completes has
    saved twice, and a run that raises after that leaves the empty
    workbook on disk. *)
Theorem main_saves
    (py_repr : pyval -> string)
    (summary_tables : list (list pyval) -> result (list (list pyval)))
    (token : option string) (today : Z) (api : result ProductReport.api_data)
    (d : ProductReport.disk) :
  (exists r d',
     ProductReport.main py_repr summary_tables token today api d = (r, d')
     /\ match r with
        | Ok _ =>
            exists data rbp wb wb1 wb2,
              api = Ok data
              /\ ProductReport.build_rows py_repr (ProductReport.api_deals data)
                   (ProductReport.week_start_iso today)
                   (ProductReport.api_lookups data)
                   ProductReport.DEFAULT_PRODUCTS = Ok rbp
              /\ (ProductReport.opened_workbook d).1 = Ok wb
              /\ ProductReport.merge_snapshot py_repr rbp
                   (ProductReport.week_start_iso today) wb = Ok wb1
              /\ ProductReport.rewrite_summary_sheet summary_tables wb1
                   ProductReport.DEFAULT_PRODUCTS = Ok wb2
              /\ d' = ProductReport.save wb2 (ProductReport.opened_workbook d).2
        | Raise _ => d' = d \/ d' = (ProductReport.opened_workbook d).2
        end)
  /\ match ProductReport.file d with
     | Some wb0 => (ProductReport.opened_workbook d).2 = d
     | None =>
         (ProductReport.opened_workbook d).2
         = ProductReport.save
             (ProductReport.new_workbook ProductReport.DEFAULT_PRODUCTS) d
     end.
Proof.
  split; [apply main_outcomes|].
  unfold ProductReport.opened_workbook. destruct (ProductReport.file d); reflexivity.
Qed.

(** C4 as stated fails on a first run, when no workbook file exists: the
    file is written twice by a run that completes (here a run that finds
    no deal), and is left behind by a run that raises after
    [create_new_workbook] (here a run whose summary tables cannot be
    computed). *)
Lemma first_run_saves_twice :
  let no_lookups :=
    {| ProductReport.product_property_name := "product";
       ProductReport.opt_map := ∅; ProductReport.pipeline_label := ∅;
       ProductReport.stage_label := ∅; ProductReport.deal_to_company_id := ∅;
       ProductReport.company_id_to_name := ∅; ProductReport.owners_map := ∅ |} in
  let no_file := {| ProductReport.file := None; ProductReport.saves := [] |} in
  let one_deal :=
    {| deal_id_raw := PStr "1";
       properties := {[ "product" := PStr "Tapix" ]} |} in
  let run deals :=
    ProductReport.main (fun _ => "") (fun _ => Raise ValueError) (Some "pat-1")
      739923
      (Ok {| ProductReport.api_lookups := no_lookups;
             ProductReport.api_deals := deals |})
      no_file in
  ((run []).1 = Ok tt /\ length (ProductReport.saves (run []).2) = 2%nat)
  /\ ((run [one_deal]).1 = Raise ValueError
      /\ ProductReport.file (run [one_deal]).2
         = Some (ProductReport.new_workbook ProductReport.DEFAULT_PRODUCTS)).
Proof. vm_compute. repeat split. Qed.

(** ** Rows built for one snapshot *)

Section BuildRows.
Import ProductReport.
Variable py_repr : pyval -> string.

Lemma read_deal_row env week d f labels :
  read_deal py_repr env week d = Ok (f, labels) ->
  forall sp,
    first_cell (f_row f sp) = PStr week
    /\ row_key (f_row f sp) = (PStr sp, PStr (f_deal_id f)).
Proof.
  unfold read_deal. intros H sp.
  destruct (dict_get (pipeline_label env) _) as [pl|]; [|discriminate].
  destruct (dict_get (stage_label env) _) as [sl|]; [|discriminate].
  destruct (split_multicheckbox _) as [pv|]; [|discriminate].
  simpl in H. injection H as <- _. split; reflexivity.
Qed.

Lemma append_row_keys sp row rbp : (append_row sp row rbp).*1 = rbp.*1.
Proof.
  unfold append_row. induction rbp as [|[k v] rbp IH]; [reflexivity|].
  cbn [map fmap list_fmap fst]. cbn [fmap list_fmap] in IH.
  rewrite IH. destruct (String.eqb _ _); reflexivity.
Qed.

Lemma elem_of_append_row sp row rbp p rows' :
  (p, rows') ∈ append_row sp row rbp ->
  (p <> sp /\ (p, rows') ∈ rbp)
  \/ (p = sp /\ exists rows, rows' = rows ++ [row] /\ (sp, rows) ∈ rbp).
Proof.
  unfold append_row. intros H. apply list_elem_of_fmap in H as ([k v] & E & Hin).
  cbn [fst snd] in E. destruct (String.eqb k sp) eqn:Ek.
  - apply String.eqb_eq in Ek. subst k. injection E as -> ->.
    right. split; [reflexivity|]. exists v. split; [reflexivity|exact Hin].
  - apply String.eqb_neq in Ek. injection E as -> ->. left. split; assumption.
Qed.

Lemma add_products_ok week want f labels :
  (forall sp, first_cell (f_row f sp) = PStr week
              /\ row_key (f_row f sp) = (PStr sp, PStr (f_deal_id f))) ->
  forall st st',
  rows_ok week st ->
  add_products want f labels st = Ok st' ->
  rows_ok week st' /\ (rows_by_product st').*1 = (rows_by_product st).*1.
Proof.
  intros Hf. induction labels as [|pl labels IH]; intros st st' Hok H.
  - simpl in H. injection H as <-. split; [exact Hok|reflexivity].
  - cbn [add_products] in H.
    destruct (stripped_or_empty pl) as [t|]; [|discriminate]. simpl in H.
    destruct (want !! PyString.lower t) as [sp|]; [|apply (IH _ _ Hok H)].
    destruct (bool_decide ((sp, f_deal_id f) ∈ seen st)) eqn:Es;
      [apply (IH _ _ Hok H)|].
    apply bool_decide_eq_false in Es.
    apply IH in H.
    + destruct H as [H1 H2]. split; [exact H1|].
      rewrite H2. cbn [rows_by_product]. apply append_row_keys.
    + intros p rows' Hin. cbn [rows_by_product seen] in *.
      apply elem_of_append_row in Hin as [[Hne Hin]|[-> (rows & -> & Hin)]].
      * destruct (Hok p rows' Hin) as [HF HN]. split; [|exact HN].
        eapply Forall_impl; [exact HF|].
        intros r [Hr1 (id & Hr2 & Hr3)]. split; [exact Hr1|].
        exists id. split; [exact Hr2|]. apply elem_of_union. right. exact Hr3.
      * destruct (Hok sp rows Hin) as [HF HN].
        destruct (Hf sp) as [Hf1 Hf2]. split.
        -- apply Forall_app. split.
           ++ eapply Forall_impl; [exact HF|].
              intros r [Hr1 (id & Hr2 & Hr3)]. split; [exact Hr1|].
              exists id. split; [exact Hr2|]. apply elem_of_union. right. exact Hr3.
           ++ constructor; [|constructor]. split; [exact Hf1|].
              exists (f_deal_id f). split; [exact Hf2|].
              apply elem_of_union. left. apply elem_of_singleton. reflexivity.
        -- rewrite fmap_app. apply NoDup_app. split; [exact HN|]. split.
           ++ intros k Hk Hk'. apply list_elem_of_singleton in Hk'. subst k.
              apply list_elem_of_fmap in Hk as (r & Hr & Hin').
              rewrite Forall_forall in HF.
              destruct (HF r Hin') as [_ (id & Hid & Hseen)].
              rewrite Hf2 in Hr. rewrite Hid in Hr. injection Hr as Hr.
              subst id. contradiction.
           ++ apply NoDup_singleton.
Qed.

Lemma build_rows_loop_ok env week want deals :
  forall st st',
  rows_ok week st ->
  build_rows_loop py_repr env week want deals st = Ok st' ->
  rows_ok week st' /\ (rows_by_product st').*1 = (rows_by_product st).*1.
Proof.
  induction deals as [|d deals IH]; intros st st' Hok H.
  - simpl in H. injection H as <-. split; [exact Hok|reflexivity].
  - cbn [build_rows_loop] in H.
    destruct (read_deal py_repr env week d) as [[f labels]|] eqn:Er; [|discriminate].
    simpl in H.
    destruct (add_products want f labels st) as [st1|] eqn:Ea; [|discriminate].
    simpl in H.
    destruct (add_products_ok week want f labels (read_deal_row _ _ _ _ _ Er)
                st st1 Hok Ea) as [Hok1 Hk1].
    destruct (IH st1 st' Hok1 H) as [Hok' Hk']. split; [exact Hok'|].
    rewrite Hk'. exact Hk1.
Qed.

Lemma empty_rows_spec products :
  NoDup (empty_rows products).*1
  /\ (forall p, p ∈ (empty_rows products).*1 <-> p ∈ products)
  /\ (forall p rows, (p, rows) ∈ empty_rows products -> rows = []).
Proof.
  unfold empty_rows.
  cut (forall acc : rows_by_product_t,
         NoDup acc.*1 -> (forall p rows, (p, rows) ∈ acc -> rows = []) ->
         let res := foldl (fun acc p =>
                             if bool_decide (p ∈ acc.*1) then acc
                             else acc ++ [(p, [])]) acc products in
         NoDup res.*1
         /\ (forall p, p ∈ res.*1 <-> p ∈ acc.*1 \/ p ∈ products)
         /\ (forall p rows, (p, rows) ∈ res -> rows = [])).
  { intros H. destruct (H [] (NoDup_nil_2) (fun p rows Hin =>
        match not_elem_of_nil _ Hin with end)) as (H1 & H2 & H3).
    split; [exact H1|]. split; [|exact H3].
    intros p. rewrite H2. cbn. rewrite elem_of_nil. tauto. }
  induction products as [|q products IH]; intros acc Hnd Hemp.
  - cbn. split; [exact Hnd|]. split; [|exact Hemp].
    intros p. rewrite elem_of_nil. tauto.
  - cbn [foldl]. destruct (bool_decide (q ∈ acc.*1)) eqn:Eq.
    + apply bool_decide_eq_true in Eq.
      destruct (IH acc Hnd Hemp) as (H1 & H2 & H3).
      split; [exact H1|]. split; [|exact H3].
      intros p. rewrite H2, elem_of_cons. split; [tauto|].
      intros [H|[->|H]]; tauto.
    + apply bool_decide_eq_false in Eq.
      destruct (IH (acc ++ [(q, [])])) as (H1 & H2 & H3).
      * rewrite fmap_app. apply NoDup_app. split; [exact Hnd|]. split.
        -- intros k Hk Hk'. apply list_elem_of_singleton in Hk'. cbn in Hk'.
           subst k. contradiction.
        -- apply NoDup_singleton.
      * intros p rows Hin. apply elem_of_app in Hin as [Hin|Hin].
        -- eapply Hemp. exact Hin.
        -- apply list_elem_of_singleton in Hin. congruence.
      * split; [exact H1|]. split; [|exact H3].
        intros p. rewrite H2, fmap_app, elem_of_app, elem_of_cons.
        cbn. rewrite list_elem_of_singleton. tauto.
Qed.

(** The rows that [build_rows] returns: one entry per product, every row
    stamped with the week, no key twice. *)
Lemma build_rows_spec deals week env products rbp :
  build_rows py_repr deals week env products = Ok rbp ->
  NoDup rbp.*1
  /\ (forall p, p ∈ rbp.*1 <-> p ∈ products)
  /\ (forall p rows, (p, rows) ∈ rbp ->
        Forall (fun r => first_cell r = PStr week) rows
        /\ NoDup (row_key <$> rows)).
Proof.
  unfold build_rows. intros H.
  destruct (build_rows_loop _ _ _ _ _ _) as [st|] eqn:E; [|discriminate].
  simpl in H. injection H as <-.
  destruct (empty_rows_spec products) as (E1 & E2 & E3).
  apply build_rows_loop_ok in E.
  - destruct E as [Hok Hk]. cbn [rows_by_product] in Hk. rewrite Hk.
    split; [exact E1|]. split; [exact E2|].
    intros p rows Hin. destruct (Hok p rows Hin) as [HF HN].
    split; [|exact HN]. eapply Forall_impl; [exact HF|]. intros r [Hr _]. exact Hr.
  - intros p rows Hin. cbn [rows_by_product] in Hin.
    rewrite (E3 p rows Hin). split; [constructor|]. cbn. constructor.
Qed.

End BuildRows.

(** ** The snapshot week *)

Example week_start_iso_2026_11_03 : ProductReport.week_start_iso 739923 = "2026-11-02".
Proof. vm_compute. reflexivity. Qed.
Example week_start_iso_leap_day : ProductReport.week_start_iso 738945 = "2024-02-26".
Proof. vm_compute. reflexivity. Qed.
Example week_start_iso_over_leap_day : ProductReport.week_start_iso 738948 = "2024-02-26".
Proof. vm_compute. reflexivity. Qed.
Example week_start_iso_first_day : ProductReport.week_start_iso 1 = "0001-01-01".
Proof. vm_compute. reflexivity. Qed.
Example week_start_iso_end_of_year : ProductReport.week_start_iso 730485 = "2000-12-25".
Proof. vm_compute. reflexivity. Qed.
Example week_start_iso_last_day : ProductReport.week_start_iso 3652059 = "9999-12-27".
Proof. vm_compute. reflexivity. Qed.
Example week_start_iso_over_new_year : ProductReport.week_start_iso 739252 = "2024-12-30".
Proof. vm_compute. reflexivity. Qed.
Example week_start_iso_1900 : ProductReport.week_start_iso 693655 = "1900-02-26".
Proof. vm_compute. reflexivity. Qed.

(** The week that [main] passes on is never the empty string. *)
Lemma week_start_iso_not_empty d : ProductReport.week_start_iso d <> "".
Proof.
  unfold ProductReport.week_start_iso, ProductReport.isoformat.
  destruct (ProductReport.ord2ymd _) as [[y m] day].
  destruct (ProductReport.zero_padded 4 y); discriminate.
Qed.

(** The day that [week_start_iso] formats is a Monday, not after [d] and
    less than a week before it. *)
Lemma week_start_is_monday d :
  ProductReport.weekday (d - ProductReport.weekday d) = 0
  /\ d - 6 <= d - ProductReport.weekday d <= d.
Proof.
  unfold ProductReport.weekday. split.
  - pose proof (Z.div_mod (d + 6) 7 ltac:(lia)) as H.
    replace (d - (d + 6) mod 7 + 6) with ((d + 6) / 7 * 7) by lia.
    apply Z.mod_mul. lia.
  - pose proof (Z.mod_pos_bound (d + 6) 7). lia.
Qed.

(** ** Merging a snapshot into the workbook *)

Section SnapshotMerge.
Import ProductReport.
Variable py_repr : pyval -> string.

Lemma ensure_sheet_headers_cons ws :
  exists h, ensure_sheet_headers ws = h :: data_rows ws.
Proof. destruct ws as [|r rest]; eexists; reflexivity. Qed.

Lemma ensure_sheet_headers_idem ws :
  ensure_sheet_headers (ensure_sheet_headers ws) = ensure_sheet_headers ws.
Proof.
  destruct ws as [|r rest]; [reflexivity|].
  cbn [ensure_sheet_headers].
  rewrite (drop_app_length' (map PStr SHEET_HEADERS)) by reflexivity.
  reflexivity.
Qed.

Lemma merged_sheet_data ws rows week :
  data_rows (replace_rows_for_snapshot py_repr (ensure_sheet_headers ws) rows week)
  = other_rows py_repr week (data_rows ws) ++ rows.
Proof.
  rewrite replace_rows_for_snapshot_eq.
  destruct (ensure_sheet_headers_cons ws) as [h ->]. reflexivity.
Qed.

Lemma in_week_stamped week r :
  week <> "" -> first_cell r = PStr week -> in_week py_repr week r = true.
Proof.
  intros Hw Hr. unfold in_week. rewrite Hr. cbn [truthy py_str].
  rewrite String.eqb_refl. destruct week; [congruence|reflexivity].
Qed.

Lemma stamped_rows_in_week week rows :
  week <> "" -> Forall (fun r => first_cell r = PStr week) rows ->
  week_rows py_repr week rows = rows /\ other_rows py_repr week rows = [].
Proof.
  intros Hw. unfold week_rows, other_rows.
  induction 1 as [|r rows Hr _ [IH1 IH2]]; [split; reflexivity|].
  rewrite !filter_cons, (in_week_stamped week r Hw Hr).
  rewrite decide_True by reflexivity. rewrite decide_False by discriminate.
  rewrite IH1, IH2. split; reflexivity.
Qed.

Lemma other_rows_split week rows :
  week_rows py_repr week (other_rows py_repr week rows) = []
  /\ other_rows py_repr week (other_rows py_repr week rows)
     = other_rows py_repr week rows.
Proof.
  unfold week_rows, other_rows. induction rows as [|r rows [IH1 IH2]];
    [split; reflexivity|].
  rewrite filter_cons. destruct (in_week py_repr week r) eqn:E.
  - rewrite decide_False by discriminate. split; assumption.
  - rewrite decide_True by reflexivity. rewrite !filter_cons, E.
    rewrite decide_False by discriminate. rewrite decide_True by reflexivity.
    rewrite IH1, IH2. split; reflexivity.
Qed.

(** Two merges of the same week into one sheet: the rows of the first
    merge are gone, the rows of other weeks have not moved. *)
Lemma merged_twice ws rows1 rows2 week :
  week <> "" ->
  Forall (fun r => first_cell r = PStr week) rows1 ->
  data_rows
    (replace_rows_for_snapshot py_repr
       (ensure_sheet_headers
          (ensure_sheet_headers
             (replace_rows_for_snapshot py_repr (ensure_sheet_headers ws)
                rows1 week)))
       rows2 week)
  = other_rows py_repr week (data_rows ws) ++ rows2.
Proof.
  intros Hw H1. rewrite ensure_sheet_headers_idem, !merged_sheet_data.
  assert (E : other_rows py_repr week
                (other_rows py_repr week (data_rows ws) ++ rows1)
              = other_rows py_repr week (data_rows ws)).
  { unfold other_rows at 1. rewrite filter_app.
    change (other_rows py_repr week (other_rows py_repr week (data_rows ws))
            ++ other_rows py_repr week rows1
            = other_rows py_repr week (data_rows ws)).
    destruct (other_rows_split week (data_rows ws)) as [_ ->].
    destruct (stamped_rows_in_week week rows1 Hw H1) as [_ ->].
    apply app_nil_r. }
  rewrite E. reflexivity.
Qed.

Lemma prepare_workbook_fold products :
  forall (acc : gmap string (list (list pyval))) k,
  foldl (fun wb p =>
           let sh := excel_safe_sheet_name p in
           <[sh := ensure_sheet_headers (default [] (wb !! sh))]> wb)
    acc products !! k
  = if bool_decide (k ∈ excel_safe_sheet_name <$> products)
    then Some (ensure_sheet_headers (default [] (acc !! k)))
    else acc !! k.
Proof.
  induction products as [|q products IH]; intros acc k; [reflexivity|].
  cbn [foldl]. rewrite IH. rewrite fmap_cons.
  destruct (decide (k = excel_safe_sheet_name q)) as [->|Hne].
  - rewrite lookup_insert_eq.
    rewrite (bool_decide_eq_true_2 (_ ∈ _ :: _)) by left.
    destruct (bool_decide _); [|reflexivity].
    simpl. rewrite ensure_sheet_headers_idem. reflexivity.
  - rewrite lookup_insert_ne by congruence.
    destruct (bool_decide (k ∈ excel_safe_sheet_name <$> products)) eqn:E.
    + apply bool_decide_eq_true in E.
      rewrite (bool_decide_eq_true_2 (_ ∈ _ :: _)) by (right; exact E).
      reflexivity.
    + apply bool_decide_eq_false in E.
      rewrite (bool_decide_eq_false_2 (_ ∈ _ :: _)); [reflexivity|].
      rewrite elem_of_cons. tauto.
Qed.

Lemma create_sheet_spec wb title wb1 :
  create_sheet wb title = Ok wb1 ->
  exists granted,
    Openpyxl.new_sheet_title (sheetnames wb) title = Ok granted
    /\ wb1 = <[granted := default [] (wb !! granted)]> wb.
Proof.
  unfold create_sheet.
  destruct (Openpyxl.new_sheet_title _ _) as [g|e]; [|discriminate].
  intros [= <-]. eauto.
Qed.

(** A new sheet is empty, and the sheets that were there are kept. *)
Lemma create_sheet_default wb title wb1 k :
  create_sheet wb title = Ok wb1 ->
  default [] (wb1 !! k) = default [] (wb !! k).
Proof.
  intros H. apply create_sheet_spec in H as (g & _ & ->).
  destruct (decide (g = k)) as [->|Hne].
  - rewrite lookup_insert_eq. reflexivity.
  - rewrite lookup_insert_ne by exact Hne. reflexivity.
Qed.

Lemma create_sheet_keeps wb title wb1 k :
  create_sheet wb title = Ok wb1 -> is_Some (wb !! k) -> is_Some (wb1 !! k).
Proof.
  intros H [ws Hk]. apply create_sheet_spec in H as (g & _ & ->).
  destruct (decide (g = k)) as [->|Hne].
  - rewrite lookup_insert_eq. eauto.
  - rewrite lookup_insert_ne by exact Hne. eauto.
Qed.

(** [Summary] is a title that the library accepts. *)
Lemma create_summary_sheet wb :
  exists granted,
    create_sheet wb "Summary" = Ok (<[granted := default [] (wb !! granted)]> wb).
Proof.
  exists (Openpyxl.avoid_duplicate_name (sheetnames wb) "Summary"). reflexivity.
Qed.

(** When the loop over the products completes, every product sheet was
    either there or created under the title asked for. *)
Lemma prepare_sheets_fold products :
  forall wb wb',
  prepare_sheets products wb = Ok wb' ->
  wb' = foldl (fun wb p =>
                 let sh := excel_safe_sheet_name p in
                 <[sh := ensure_sheet_headers (default [] (wb !! sh))]> wb)
          wb products.
Proof.
  induction products as [|p products IH]; intros wb wb' H.
  - injection H as <-. reflexivity.
  - cbn [prepare_sheets] in H. cbn zeta in H. cbn [foldl]. cbn zeta.
    destruct (bool_decide (excel_safe_sheet_name p ∈ dom wb)) eqn:Ed.
    + apply bool_decide_eq_true in Ed. apply elem_of_dom in Ed as [ws Hws].
      change (Ok wb ≫= ?k) with (k wb) in H. cbn beta in H.
      unfold get_sheet in H. rewrite Hws in H.
      change (Ok ws ≫= ?k) with (k ws) in H. cbn beta in H.
      apply IH in H. rewrite H, Hws. reflexivity.
    + apply bool_decide_eq_false in Ed. apply not_elem_of_dom in Ed.
      destruct (create_sheet wb (excel_safe_sheet_name p)) as [wb1|e] eqn:Ec;
        [|discriminate].
      change (Ok wb1 ≫= ?k) with (k wb1) in H. cbn beta in H.
      unfold get_sheet in H.
      destruct (wb1 !! excel_safe_sheet_name p) as [ws|] eqn:Hws; [|discriminate].
      change (Ok ws ≫= ?k) with (k ws) in H. cbn beta in H.
      apply IH in H. rewrite H. f_equal.
      apply create_sheet_spec in Ec as (g & _ & ->).
      destruct (decide (g = excel_safe_sheet_name p)) as [->|Hne].
      * rewrite lookup_insert_eq in Hws. injection Hws as <-.
        rewrite insert_insert_eq. reflexivity.
      * rewrite lookup_insert_ne in Hws by exact Hne. congruence.
Qed.

(** No sheet is created for a product whose sheet is there. *)
Lemma prepare_sheets_again products :
  forall wb,
  (forall p, p ∈ products -> is_Some (wb !! excel_safe_sheet_name p)) ->
  exists wb', prepare_sheets products wb = Ok wb'.
Proof.
  induction products as [|p products IH]; intros wb Hex; [eexists; reflexivity|].
  cbn [prepare_sheets]. cbn zeta.
  destruct (Hex p) as [ws Hws]; [left|].
  rewrite bool_decide_eq_true_2 by (apply elem_of_dom; eauto).
  change (Ok wb ≫= ?k) with (k wb). cbn beta.
  unfold get_sheet. rewrite Hws.
  change (Ok ws ≫= ?k) with (k ws). cbn beta.
  apply IH. intros q Hq.
  apply lookup_insert_is_Some'. right. apply Hex. right. exact Hq.
Qed.

Lemma prepare_workbook_lookup products wb wb' p :
  prepare_workbook products wb = Ok wb' ->
  p ∈ products ->
  wb' !! excel_safe_sheet_name p
  = Some (ensure_sheet_headers (product_sheet wb p)).
Proof.
  unfold prepare_workbook. intros H Hp.
  destruct (if bool_decide ("Summary" ∈ dom wb) then Ok wb
            else create_sheet wb "Summary") as [wb1|e] eqn:E1; [|discriminate].
  change (Ok wb1 ≫= ?k) with (k wb1) in H. cbn beta in H.
  apply prepare_sheets_fold in H. rewrite H, prepare_workbook_fold.
  rewrite bool_decide_eq_true_2 by (apply list_elem_of_fmap; eauto).
  f_equal. f_equal. unfold product_sheet.
  destruct (bool_decide ("Summary" ∈ dom wb)).
  - injection E1 as <-. reflexivity.
  - apply (create_sheet_default _ _ _ _ E1).
Qed.

(** The preparation completes on a workbook that has every product sheet:
    the workbook that an earlier run has written. *)
Lemma prepare_workbook_again products wb :
  (forall p, p ∈ products -> is_Some (wb !! excel_safe_sheet_name p)) ->
  exists wb', prepare_workbook products wb = Ok wb'.
Proof.
  intros Hex. unfold prepare_workbook.
  destruct (bool_decide ("Summary" ∈ dom wb)).
  - change (Ok wb ≫= ?k) with (k wb). cbn beta.
    apply prepare_sheets_again, Hex.
  - destruct (create_summary_sheet wb) as [g Eg]. rewrite Eg.
    change (Ok ?w ≫= ?k) with (k w). cbn beta.
    apply prepare_sheets_again. intros p Hp.
    apply (create_sheet_keeps _ _ _ _ Eg), Hex, Hp.
Qed.

(** A title that no title in use equals up to letter case is granted. *)
Lemma avoid_duplicate_name_unused names value :
  (forall n, n ∈ names -> ~ same_title n value) ->
  Openpyxl.avoid_duplicate_name names value = value.
Proof.
  intros H. unfold Openpyxl.avoid_duplicate_name.
  destruct (existsb _ names) eqn:E; [|reflexivity].
  apply existsb_exists in E as (n & Hn & En).
  apply String.eqb_eq in En. exfalso.
  apply (H n); [apply list_elem_of_In, Hn|exact En].
Qed.

Lemma create_sheet_granted wb title :
  title <> "" -> Openpyxl.invalid_title title = false ->
  (forall n, n ∈ dom wb -> same_title n title -> n = title) ->
  wb !! title = None ->
  create_sheet wb title = Ok (<[title := []]> wb).
Proof.
  intros Hne Hv Hn Hl. unfold create_sheet, Openpyxl.new_sheet_title.
  replace (PyString.or_else title "Sheet") with title
    by (destruct title; [congruence|reflexivity]).
  cbn zeta. rewrite Hv, avoid_duplicate_name_unused.
  - change (Ok title ≫= ?k) with (k title). cbn beta. rewrite Hl. reflexivity.
  - intros n Hin Hs. unfold sheetnames in Hin. apply elem_of_elements in Hin.
    rewrite (Hn n Hin Hs) in Hin. apply elem_of_dom in Hin as [ws Hws]. congruence.
Qed.

Lemma prepare_sheets_granted products :
  forall wb,
  (forall p, p ∈ products ->
     excel_safe_sheet_name p <> ""
     /\ Openpyxl.invalid_title (excel_safe_sheet_name p) = false) ->
  (forall p n, p ∈ products ->
     n ∈ dom wb \/ n ∈ excel_safe_sheet_name <$> products ->
     same_title n (excel_safe_sheet_name p) -> n = excel_safe_sheet_name p) ->
  exists wb', prepare_sheets products wb = Ok wb'.
Proof.
  induction products as [|p products IH]; intros wb Hv Hn; [eexists; reflexivity|].
  cbn [prepare_sheets]. cbn zeta.
  assert (Hstep : forall wb1 ws,
            dom wb1 ⊆ {[excel_safe_sheet_name p]} ∪ dom wb ->
            exists wb', prepare_sheets products
                          (<[excel_safe_sheet_name p := ws]> wb1) = Ok wb').
  { intros wb1 ws Hd. apply IH.
    - intros q Hq. apply Hv. right. exact Hq.
    - intros q n Hq Hin. apply Hn; [right; exact Hq|].
      destruct Hin as [Hin|Hin].
      + rewrite dom_insert in Hin. apply elem_of_union in Hin as [Hin|Hin].
        * apply elem_of_singleton in Hin as ->. right. left.
        * apply Hd in Hin. apply elem_of_union in Hin as [Hin|Hin].
          -- apply elem_of_singleton in Hin as ->. right. left.
          -- left. exact Hin.
      + right. right. exact Hin. }
  destruct (bool_decide (excel_safe_sheet_name p ∈ dom wb)) eqn:Ed.
  - apply bool_decide_eq_true in Ed. apply elem_of_dom in Ed as [ws Hws].
    change (Ok wb ≫= ?k) with (k wb). cbn beta.
    unfold get_sheet. rewrite Hws.
    change (Ok ws ≫= ?k) with (k ws). cbn beta.
    apply Hstep. apply union_subseteq_r.
  - apply bool_decide_eq_false in Ed. apply not_elem_of_dom in Ed.
    destruct (Hv p) as [Hne Hi]; [left|].
    rewrite (create_sheet_granted wb _ Hne Hi); [|
      intros n Hin; apply Hn; [left|left; exact Hin] | exact Ed].
    change (Ok ?w ≫= ?k) with (k w). cbn beta.
    unfold get_sheet. rewrite lookup_insert_eq.
    change (Ok ?w ≫= ?k) with (k w). cbn beta.
    apply Hstep. rewrite dom_insert. reflexivity.
Qed.

(** The preparation completes when every title asked for is granted. *)
Lemma prepare_workbook_granted products wb :
  titles_granted products wb ->
  exists wb', prepare_workbook products wb = Ok wb'.
Proof.
  intros [Hv Hn]. cbn zeta in Hv, Hn. unfold prepare_workbook.
  destruct (bool_decide ("Summary" ∈ dom wb)) eqn:Ed.
  - change (Ok wb ≫= ?k) with (k wb). cbn beta.
    apply prepare_sheets_granted.
    + intros p Hp. apply Hv. right. apply list_elem_of_fmap. eauto.
    + intros p n Hp Hin. apply Hn.
      * right. apply list_elem_of_fmap. eauto.
      * destruct Hin; [left|right; right]; assumption.
  - apply bool_decide_eq_false in Ed. apply not_elem_of_dom in Ed.
    destruct (Hv "Summary") as [Hne Hi]; [left|].
    rewrite (create_sheet_granted wb _ Hne Hi); [|
      intros n Hin; apply Hn; [left|left; exact Hin] | exact Ed].
    change (Ok ?w ≫= ?k) with (k w). cbn beta.
    apply prepare_sheets_granted.
    + intros p Hp. apply Hv. right. apply list_elem_of_fmap. eauto.
    + intros p n Hp Hin. apply Hn.
      * right. apply list_elem_of_fmap. eauto.
      * destruct Hin as [Hin|Hin]; [|right; right; exact Hin].
        rewrite dom_insert in Hin. apply elem_of_union in Hin as [Hin|Hin].
        -- apply elem_of_singleton in Hin as ->. right. left.
        -- left. exact Hin.
Qed.

(** The merge loop replaces the rows of every listed product in its own
    sheet, provided every sheet exists and no two products share one. *)
Lemma merge_snapshot_lookup (items : rows_by_product_t) week :
  NoDup (excel_safe_sheet_name <$> items.*1) ->
  forall wb,
  (forall p rows, (p, rows) ∈ items -> is_Some (wb !! excel_safe_sheet_name p)) ->
  exists wb',
    merge_snapshot py_repr items week wb = Ok wb'
    /\ forall p rows, (p, rows) ∈ items ->
         wb' !! excel_safe_sheet_name p
         = Some (replace_rows_for_snapshot py_repr
                   (ensure_sheet_headers (product_sheet wb p)) rows week).
Proof.
  induction items as [|[q qrows] items IH]; intros Hnd wb Hex.
  - exists wb. split; [reflexivity|]. intros p rows Hin.
    apply elem_of_nil in Hin. destruct Hin.
  - cbn [fmap list_fmap fst] in Hnd. apply NoDup_cons in Hnd as [Hq Hnd].
    cbn [merge_snapshot]. unfold get_sheet.
    destruct (Hex q qrows) as [ws Hws]; [left|]. rewrite Hws.
    change (Ok ws ≫= ?k) with (k ws). cbn beta.
    destruct (IH Hnd
                (<[excel_safe_sheet_name q :=
                     replace_rows_for_snapshot py_repr (ensure_sheet_headers ws)
                       qrows week]> wb)) as (wb' & E & Hl).
    { intros p rows Hin.
      destruct (decide (excel_safe_sheet_name q = excel_safe_sheet_name p)) as [<-|Hne].
      - rewrite lookup_insert_eq. eauto.
      - rewrite lookup_insert_ne by exact Hne. apply (Hex p rows). right. exact Hin. }
    exists wb'. split; [exact E|].
    intros p rows Hin. apply elem_of_cons in Hin as [Heq|Hin].
    + injection Heq as -> ->.
      assert (Hk : wb' !! excel_safe_sheet_name q
                   = <[excel_safe_sheet_name q :=
                         replace_rows_for_snapshot py_repr
                           (ensure_sheet_headers ws) qrows week]> wb
                     !! excel_safe_sheet_name q).
      { clear -E Hq. revert E. generalize (<[excel_safe_sheet_name q :=
            replace_rows_for_snapshot py_repr (ensure_sheet_headers ws) qrows week]> wb).
        induction items as [|[a arows] items IHi]; intros acc E.
        - simpl in E. injection E as <-. reflexivity.
        - cbn [merge_snapshot] in E. unfold get_sheet in E.
          destruct (acc !! excel_safe_sheet_name a) as [wsa|]; [|discriminate].
          change (Ok wsa ≫= ?k) with (k wsa) in E. cbn beta in E.
          cbn [fmap list_fmap fst] in Hq.
          rewrite (IHi (fun H => Hq (list_elem_of_further _ _ _ H)) _ E).
          apply lookup_insert_ne. intros Heq. apply Hq. rewrite Heq. left. }
      rewrite Hk, lookup_insert_eq. unfold product_sheet. rewrite Hws. reflexivity.
    + rewrite (Hl p rows Hin). unfold product_sheet.
      rewrite lookup_insert_ne; [reflexivity|].
      intros Heq. apply Hq. rewrite Heq.
      apply list_elem_of_fmap. exists p. split; [reflexivity|].
      apply list_elem_of_fmap. exists (p, rows). split; [reflexivity|exact Hin].
Qed.

End SnapshotMerge.

Section SnapshotIdempotence.
Import ProductReport.
Variable py_repr : pyval -> string.

Lemma rows_of_elem (rbp : rows_by_product_t) p rows :
  NoDup rbp.*1 -> (p, rows) ∈ rbp -> rows_of rbp p = Some rows.
Proof.
  unfold rows_of. induction rbp as [|[k v] rbp IH]; intros Hnd Hin.
  - apply elem_of_nil in Hin. destruct Hin.
  - cbn [fmap list_fmap fst] in Hnd. apply NoDup_cons in Hnd as [Hk Hnd].
    cbn [list_find]. destruct (decide ((k, v).1 = p)) as [Hp|Hp]; cbn [fst] in Hp.
    + subst k. apply elem_of_cons in Hin as [Heq|Hin].
      * injection Heq as ->. reflexivity.
      * exfalso. apply Hk. apply list_elem_of_fmap. exists (p, rows). split; auto.
    + apply elem_of_cons in Hin as [Heq|Hin]; [congruence|].
      specialize (IH Hnd Hin).
      destruct (list_find (fun kv => kv.1 = p) rbp) as [[i kv]|]; [|discriminate].
      exact IH.
Qed.

Lemma elem_of_keys (rbp : rows_by_product_t) p :
  p ∈ rbp.*1 -> exists rows, (p, rows) ∈ rbp.
Proof.
  intros H. apply list_elem_of_fmap in H as ([k v] & -> & Hin). eauto.
Qed.

(** One run on a workbook whose preparation completes: every product
    sheet gets the rows built for it, after the rows of other weeks. *)
Lemma product_run_sheets products deals week env wb wb0 rbp :
  (forall p q, p ∈ products -> q ∈ products ->
     excel_safe_sheet_name p = excel_safe_sheet_name q -> p = q) ->
  build_rows py_repr deals week env products = Ok rbp ->
  prepare_workbook products wb = Ok wb0 ->
  exists wb',
    product_run py_repr products deals week env wb = Ok wb'
    /\ forall p rows, (p, rows) ∈ rbp ->
         wb' !! excel_safe_sheet_name p
         = Some (sheet_run py_repr (product_sheet wb p) rows week).
Proof.
  intros Hinj Hb Hp. unfold product_run. rewrite Hb.
  change (Ok rbp ≫= ?k) with (k rbp). cbn beta. rewrite Hp.
  change (Ok wb0 ≫= ?k) with (k wb0). cbn beta.
  destruct (build_rows_spec py_repr _ _ _ _ _ Hb) as (Hnd & Hk & _).
  assert (Hin : forall p rows, (p, rows) ∈ rbp -> p ∈ products).
  { intros p rows H. apply Hk. apply list_elem_of_fmap. exists (p, rows). auto. }
  destruct (merge_snapshot_lookup py_repr rbp week) with
    (wb := wb0) as (wb' & E & Hl).
  - apply NoDup_fmap_2_strong; [|exact Hnd].
    intros p q Hp' Hq. apply Hinj; apply Hk; assumption.
  - intros p rows H. rewrite (prepare_workbook_lookup _ _ _ _ Hp) by eauto. eauto.
  - exists wb'. split; [exact E|]. intros p rows H.
    rewrite (Hl p rows H). unfold sheet_run. unfold product_sheet at 1.
    rewrite (prepare_workbook_lookup _ _ _ _ Hp) by eauto. reflexivity.
Qed.

(** Two merges of the same week into one sheet, as two runs make them. *)
Lemma sheet_run_twice ws rows1 rows2 week :
  week <> "" ->
  Forall (fun r => first_cell r = PStr week) rows1 ->
  Forall (fun r => first_cell r = PStr week) rows2 ->
  week_rows py_repr week
    (data_rows (sheet_run py_repr (sheet_run py_repr ws rows1 week) rows2 week))
  = rows2
  /\ other_rows py_repr week
       (data_rows (sheet_run py_repr (sheet_run py_repr ws rows1 week) rows2 week))
     = other_rows py_repr week (data_rows ws).
Proof.
  intros Hw F1 F2.
  assert (Hd : data_rows
                 (sheet_run py_repr (sheet_run py_repr ws rows1 week) rows2 week)
               = other_rows py_repr week (data_rows ws) ++ rows2).
  { unfold sheet_run. rewrite (ensure_sheet_headers_idem ws).
    apply merged_twice; assumption. }
  rewrite Hd.
  destruct (other_rows_split py_repr week (data_rows ws)) as [W O].
  destruct (stamped_rows_in_week py_repr week rows2 Hw F2) as [W2 O2].
  split.
  - unfold week_rows. rewrite filter_app.
    change (week_rows py_repr week (other_rows py_repr week (data_rows ws))
            ++ week_rows py_repr week rows2 = rows2).
    rewrite W, W2. reflexivity.
  - unfold other_rows at 1. rewrite filter_app.
    change (other_rows py_repr week (other_rows py_repr week (data_rows ws))
            ++ other_rows py_repr week rows2
            = other_rows py_repr week (data_rows ws)).
    rewrite O, O2. apply app_nil_r.
Qed.

End SnapshotIdempotence.

(** Two runs for the same week, which is any string but the empty one, on
    a workbook whose preparation completes. *)
Lemma snapshot_merge_twice
    (py_repr : pyval -> string) (products : list string)
    (deals1 deals2 : list deal) (env1 env2 : ProductReport.lookups)
    (week : string) (wb wb0 : gmap string (list (list pyval)))
    (rbp1 rbp2 : ProductReport.rows_by_product_t) :
  week <> "" ->
  (forall p q, p ∈ products -> q ∈ products ->
     ProductReport.excel_safe_sheet_name p = ProductReport.excel_safe_sheet_name q ->
     p = q) ->
  ProductReport.build_rows py_repr deals1 week env1 products = Ok rbp1 ->
  ProductReport.build_rows py_repr deals2 week env2 products = Ok rbp2 ->
  ProductReport.prepare_workbook products wb = Ok wb0 ->
  exists wb1 wb2,
    product_run py_repr products deals1 week env1 wb = Ok wb1
    /\ product_run py_repr products deals2 week env2 wb1 = Ok wb2
    /\ forall p, p ∈ products ->
         exists rows1 rows2,
           ProductReport.rows_of rbp1 p = Some rows1
           /\ ProductReport.rows_of rbp2 p = Some rows2
           /\ product_sheet wb2 p
              = sheet_run py_repr
                  (sheet_run py_repr (product_sheet wb p) rows1 week) rows2 week
           /\ week_rows py_repr week (data_rows (product_sheet wb2 p)) = rows2
           /\ NoDup (row_key <$> rows2)
           /\ other_rows py_repr week (data_rows (product_sheet wb2 p))
              = other_rows py_repr week (data_rows (product_sheet wb p)).
Proof.
  intros Hw Hinj Hb1 Hb2 Hp.
  destruct (build_rows_spec py_repr _ _ _ _ _ Hb1) as (N1 & K1 & R1).
  destruct (build_rows_spec py_repr _ _ _ _ _ Hb2) as (N2 & K2 & R2).
  destruct (product_run_sheets py_repr products deals1 week env1 wb wb0 rbp1
              Hinj Hb1 Hp) as (wb1 & E1 & S1).
  destruct (prepare_workbook_again products wb1) as [wb0' Hp'].
  { intros p Hq. destruct (elem_of_keys rbp1 p) as [rows1 H1]; [apply K1, Hq|].
    rewrite (S1 p rows1 H1). eauto. }
  destruct (product_run_sheets py_repr products deals2 week env2 wb1 wb0' rbp2
              Hinj Hb2 Hp') as (wb2 & E2 & S2).
  exists wb1, wb2. split; [exact E1|]. split; [exact E2|].
  intros p Hq.
  destruct (elem_of_keys rbp1 p) as [rows1 H1]; [apply K1, Hq|].
  destruct (elem_of_keys rbp2 p) as [rows2 H2]; [apply K2, Hq|].
  exists rows1, rows2.
  split; [apply rows_of_elem; assumption|].
  split; [apply rows_of_elem; assumption|].
  destruct (R1 p rows1 H1) as [F1 _]. destruct (R2 p rows2 H2) as [F2 D2].
  assert (Hs : product_sheet wb2 p
               = sheet_run py_repr
                   (sheet_run py_repr (product_sheet wb p) rows1 week) rows2 week).
  { unfold product_sheet at 1. rewrite (S2 p rows2 H2). cbn [default from_option id].
    unfold product_sheet at 1. rewrite (S1 p rows1 H1). reflexivity. }
  split; [exact Hs|]. rewrite Hs.
  destruct (sheet_run_twice py_repr (product_sheet wb p) rows1 rows2 week Hw F1 F2)
    as [W O].
  split; [exact W|]. split; [exact D2|exact O].
Qed.

(** C1.  Two runs of the product report in the same snapshot week, the
    Monday that [week_start_iso] gives for the day of the run, with any
    two sets of deals that [build_rows] accepts.  Whatever a product sheet
    holds, after [replace_rows_for_snapshot] has merged the rows of the
    first run and then the rows of the second into it, on the headers that
    [ensure_sheet_headers] writes, the sheet holds for that week exactly
    the rows of the second run, no two of them with the same (product,
    deal id) key, and its rows of other weeks are the ones it had before
    the first run, in their order.  On a loaded workbook the two runs
    complete when the first can prepare its sheets, and every product
    sheet is then merged in this way; otherwise the first run raises the
    error of the preparation.  The preparation completes when the library
    grants every title asked for: no title is empty or refused, and none
    differs from another title only in letter case.  Distinct products
    have distinct sheet names. *)
Theorem snapshot_merge_is_idempotent
    (py_repr : pyval -> string) (products : list string)
    (deals1 deals2 : list deal) (env1 env2 : ProductReport.lookups)
    (today : Z)
    (rbp1 rbp2 : ProductReport.rows_by_product_t) :
  let week := ProductReport.week_start_iso today in
  (forall p q, p ∈ products -> q ∈ products ->
     ProductReport.excel_safe_sheet_name p = ProductReport.excel_safe_sheet_name q ->
     p = q) ->
  ProductReport.build_rows py_repr deals1 week env1 products = Ok rbp1 ->
  ProductReport.build_rows py_repr deals2 week env2 products = Ok rbp2 ->
  (forall p rows1 rows2 (ws : list (list pyval)),
     (p, rows1) ∈ rbp1 -> (p, rows2) ∈ rbp2 ->
     let ws2 := sheet_run py_repr (sheet_run py_repr ws rows1 week) rows2 week in
     week_rows py_repr week (data_rows ws2) = rows2
     /\ NoDup (row_key <$> rows2)
     /\ other_rows py_repr week (data_rows ws2)
        = other_rows py_repr week (data_rows ws))
  /\ (forall wb : gmap string (list (list pyval)),
        match ProductReport.prepare_workbook products wb with
        | Raise e =>
            product_run py_repr products deals1 week env1 wb = Raise e
        | Ok _ =>
            exists wb1 wb2,
              product_run py_repr products deals1 week env1 wb = Ok wb1
              /\ product_run py_repr products deals2 week env2 wb1 = Ok wb2
              /\ forall p, p ∈ products ->
                   exists rows1 rows2,
                     ProductReport.rows_of rbp1 p = Some rows1
                     /\ ProductReport.rows_of rbp2 p = Some rows2
                     /\ product_sheet wb2 p
                        = sheet_run py_repr
                            (sheet_run py_repr (product_sheet wb p) rows1 week)
                            rows2 week
                     /\ week_rows py_repr week (data_rows (product_sheet wb2 p))
                        = rows2
                     /\ NoDup (row_key <$> rows2)
                     /\ other_rows py_repr week (data_rows (product_sheet wb2 p))
                        = other_rows py_repr week (data_rows (product_sheet wb p))
        end)
  /\ (forall wb : gmap string (list (list pyval)),
        titles_granted products wb ->
        exists wb0, ProductReport.prepare_workbook products wb = Ok wb0).
Proof.
  intros week Hinj Hb1 Hb2.
  pose proof (week_start_iso_not_empty today) as Hw. fold week in Hw.
  split; [|split].
  - intros p rows1 rows2 ws H1 H2 ws2.
    destruct (build_rows_spec py_repr _ _ _ _ _ Hb1) as (_ & _ & R1).
    destruct (build_rows_spec py_repr _ _ _ _ _ Hb2) as (_ & _ & R2).
    destruct (R1 p rows1 H1) as [F1 _]. destruct (R2 p rows2 H2) as [F2 D2].
    destruct (sheet_run_twice py_repr ws rows1 rows2 week Hw F1 F2) as [W O].
    split; [exact W|]. split; [exact D2|exact O].
  - intros wb.
    destruct (ProductReport.prepare_workbook products wb) as [wb0|e] eqn:Hp.
    + apply (snapshot_merge_twice py_repr products deals1 deals2 env1 env2 week
               wb wb0 rbp1 rbp2); assumption.
    + unfold product_run. rewrite Hb1.
      change (Ok rbp1 ≫= ?k) with (k rbp1). cbn beta. rewrite Hp. reflexivity.
  - intros wb. apply prepare_workbook_granted.
Qed.

Lemma snapshot_merge_is_idempotent_witness :
  let env :=
    {| ProductReport.product_property_name := "product";
       ProductReport.opt_map := {[ "tapix_v" := PStr "Tapix" ]};
       ProductReport.pipeline_label := ∅; ProductReport.stage_label := ∅;
       ProductReport.deal_to_company_id := ∅;
       ProductReport.company_id_to_name := ∅;
       ProductReport.owners_map := ∅ |} in
  let deals1 :=
    [ {| deal_id_raw := PStr "1";
         properties := {[ "product" := PStr "tapix_v; EcoTrack;Tapix" ]} |} ] in
  let deals2 :=
    [ {| deal_id_raw := PStr "2"; properties := {[ "product" := PStr "tapix_v" ]} |};
      {| deal_id_raw := PInt 2; properties := {[ "product" := PStr "TAPIX" ]} |} ] in
  let wb : gmap string (list (list pyval)) :=
    {[ "Tapix" := [[PStr "snapshot_week_start"];
                   [PStr "2026-10-26"; PStr "9"];
                   [PNone; PStr "note"];
                   [PStr "2026-11-02"; PStr "8"]] ]} in
  let week := ProductReport.week_start_iso 739923 in
  exists rbp1 rbp2,
    ProductReport.build_rows (fun _ => "") deals1 week env
      ProductReport.DEFAULT_PRODUCTS = Ok rbp1
    /\ ProductReport.build_rows (fun _ => "") deals2 week env
         ProductReport.DEFAULT_PRODUCTS = Ok rbp2
    /\ (forall p rows1 rows2 (ws : list (list pyval)),
          (p, rows1) ∈ rbp1 -> (p, rows2) ∈ rbp2 ->
          let ws2 :=
            sheet_run (fun _ => "") (sheet_run (fun _ => "") ws rows1 week)
              rows2 week in
          week_rows (fun _ => "") week (data_rows ws2) = rows2
          /\ NoDup (row_key <$> rows2)
          /\ other_rows (fun _ => "") week (data_rows ws2)
             = other_rows (fun _ => "") week (data_rows ws))
    /\ exists wb1 wb2,
         product_run (fun _ => "") ProductReport.DEFAULT_PRODUCTS deals1
           week env wb = Ok wb1
         /\ product_run (fun _ => "") ProductReport.DEFAULT_PRODUCTS deals2
              week env wb1 = Ok wb2
         /\ forall p, p ∈ ProductReport.DEFAULT_PRODUCTS ->
              exists rows1 rows2,
                ProductReport.rows_of rbp1 p = Some rows1
                /\ ProductReport.rows_of rbp2 p = Some rows2
                /\ product_sheet wb2 p
                   = sheet_run (fun _ => "")
                       (sheet_run (fun _ => "") (product_sheet wb p) rows1 week)
                       rows2 week
                /\ week_rows (fun _ => "") week
                     (data_rows (product_sheet wb2 p)) = rows2
                /\ NoDup (row_key <$> rows2)
                /\ other_rows (fun _ => "") week
                     (data_rows (product_sheet wb2 p))
                   = other_rows (fun _ => "") week
                       (data_rows (product_sheet wb p)).
Proof.
  intros env deals1 deals2 wb week.
  eexists _, _. split; [vm_compute; reflexivity|]. split; [vm_compute; reflexivity|].
  edestruct (snapshot_merge_is_idempotent (fun _ => "")
               ProductReport.DEFAULT_PRODUCTS deals1 deals2 env env 739923)
    as (Hsheet & Hruns & _).
  - unfold ProductReport.DEFAULT_PRODUCTS. intros p q Hp Hq.
    rewrite !elem_of_cons, elem_of_nil in Hp, Hq.
    destruct Hp as [->|[->|[->|[->|[->|[->|[]]]]]]];
      destruct Hq as [->|[->|[->|[->|[->|[->|[]]]]]]];
      vm_compute; congruence.
  - vm_compute. reflexivity.
  - vm_compute. reflexivity.
  - split; [exact Hsheet|].
    assert (Hp : match ProductReport.prepare_workbook
                         ProductReport.DEFAULT_PRODUCTS wb with
                 | Ok _ => True
                 | Raise _ => False
                 end)
      by (vm_compute; exact I).
    specialize (Hruns wb).
    destruct (ProductReport.prepare_workbook ProductReport.DEFAULT_PRODUCTS wb);
      [exact Hruns|destruct Hp].
Defined.

(** A workbook that holds a sheet [tapix] cannot be prepared: the library
    numbers the sheet asked for as [Tapix], and the lookup of [Tapix]
    fails. *)
Example prepare_workbook_title_in_use :
  ProductReport.prepare_workbook ProductReport.DEFAULT_PRODUCTS
    {[ "Summary" := []; "tapix" := [] ]}
  = Raise (KeyError "Tapix").
Proof. vm_compute. reflexivity. Qed.

(** With the empty string for a week the rows of a run are not found by
    the next run, whose scan skips rows with an empty first cell. *)
Example empty_week_accumulates :
  let row := [PStr ""; PStr "1"] in
  ProductReport.replace_rows_for_snapshot (fun _ => "")
    (ProductReport.replace_rows_for_snapshot (fun _ => "")
       [[PStr "snapshot_week_start"]] [row] "") [row] ""
  = [[PStr "snapshot_week_start"]; row; row].
Proof. reflexivity. Qed.

Example snapshot_merge_example :
  let env :=
    {| ProductReport.product_property_name := "product";
       ProductReport.opt_map := ∅;
       ProductReport.pipeline_label := ∅; ProductReport.stage_label := ∅;
       ProductReport.deal_to_company_id := ∅;
       ProductReport.company_id_to_name := ∅;
       ProductReport.owners_map := ∅ |} in
  let d id prod := {| deal_id_raw := PStr id;
                      properties := {[ "product" := PStr prod ]} |} in
  let wb : gmap string (list (list pyval)) :=
    {[ "Tapix" := [[PStr "snapshot_week_start"];
                   [PStr "2026-10-26"; PStr "9"];
                   [PNone; PStr "note"];
                   [PStr "2026-11-02"; PStr "8"]] ]} in
  (wb1 ← product_run (fun _ => "") ["Tapix"] [d "1" "Tapix"; d "1" "tapix"]
           "2026-11-02" env wb;
   wb2 ← product_run (fun _ => "") ["Tapix"] [d "2" " TAPIX ;x"]
           "2026-11-02" env wb1;
   Ok (map (take 2) (data_rows (product_sheet wb2 "Tapix"))))
  = Ok [[PStr "2026-10-26"; PStr "9"]; [PNone; PStr "note"];
        [PStr "2026-11-02"; PStr "2"]].
Proof. vm_compute. reflexivity. Qed.

(** ** Amounts *)

Section Amounts.
Import OwnerStageReport.
Variable py_repr : pyval -> string.
Variable float_of_str : string -> option float.



End Amounts.

Section Totals.
Import OwnerStageReport.
Variable py_repr : pyval -> string.
Variable float_of_str : string -> option float.

Lemma alist_lookup_update {V} (k k' : string) (f : option V -> V) l :
  alist_lookup k' (alist_update k f l)
  = if String.eqb k k' then Some (f (alist_lookup k l)) else alist_lookup k' l.
Proof.
  induction l as [|[q v] l IH].
  - cbn [alist_update alist_lookup]. destruct (String.eqb k k'); reflexivity.
  - cbn [alist_update alist_lookup].
    destruct (String.eqb_spec q k) as [->|Hqk]; cbn [alist_lookup].
    + destruct (String.eqb_spec k k') as [->|Hkk']; [reflexivity|reflexivity].
    + rewrite IH. destruct (String.eqb_spec q k') as [->|Hqk'].
      * destruct (String.eqb_spec k k') as [->|_]; [contradiction|reflexivity].
      * reflexivity.
Qed.

Lemma cell_add_amount owner stage val data o s :
  cell (add_amount owner stage val data) o s
  = if decide (owner = o /\ stage = s)
    then Some (float_add (default float_zero (cell data o s)) val)
    else cell data o s.
Proof.
  unfold cell, add_amount. rewrite alist_lookup_update.
  destruct (String.eqb_spec owner o) as [->|Ho].
  - cbn [mbind option_bind]. rewrite alist_lookup_update.
    destruct (String.eqb_spec stage s) as [->|Hs].
    + rewrite decide_True by (split; reflexivity).
      destruct (alist_lookup o data); reflexivity.
    + rewrite decide_False by (intros [_ ?]; contradiction).
      destruct (alist_lookup o data); reflexivity.
  - rewrite decide_False by (intros [? _]; contradiction). reflexivity.
Qed.

Lemma running_total_cons init v vals :
  running_total (Some (float_add (default float_zero init) v)) vals
  = running_total init (v :: vals).
Proof. destruct vals; reflexivity. Qed.

Lemma aggregate_loop_totals owners stages deals :
  forall data data',
  aggregate_loop py_repr float_of_str owners stages deals data = Ok data' ->
  exists entries,
    Forall2 (fun d e => deal_entry py_repr float_of_str owners stages d = Ok e)
      deals entries
    /\ forall o s,
         cell data' o s = running_total (cell data o s) (amounts_of entries o s).
Proof.
  induction deals as [|d deals IH]; intros data data' H.
  - injection H as <-. exists []. split; [constructor|]. reflexivity.
  - cbn [aggregate_loop] in H.
    destruct (dict_get stages (prop_get (properties d) "dealstage")) as [sl|] eqn:Es;
      [|discriminate].
    cbn [mbind result_bind] in H.
    destruct (amount_value float_of_str (prop_get (properties d) "amount"))
      as [val|] eqn:Ea; [|discriminate].
    cbn [mbind result_bind] in H.
    destruct (IH _ _ H) as (entries & HF & Hc).
    eexists (_ :: entries). split.
    + constructor; [|exact HF]. unfold deal_entry. rewrite Es.
      cbn [mbind result_bind]. rewrite Ea. reflexivity.
    + intros o s. rewrite Hc, cell_add_amount. unfold amounts_of.
      destruct (decide (_ = o /\ _ = s)) as [E|E].
      * rewrite filter_cons_True by exact E. cbn [map snd].
        apply running_total_cons.
      * rewrite filter_cons_False by exact E. reflexivity.
Qed.

End Totals.

Section Accepts.
Import OwnerStageReport.
Variable py_repr : pyval -> string.
Variable float_of_str : string -> option float.

Lemma dict_get_hashable {V} (m : gmap string V) v :
  hashable v -> exists r, dict_get m v = Ok r.
Proof. destruct v; intros []; eexists; reflexivity. Qed.

Lemma amount_value_text v :
  text_amount v -> exists x, amount_value float_of_str v = Ok x.
Proof.
  destruct v as [| | |x|s| |]; intros []; unfold amount_value;
    cbn [amount_given py_float].
  - eexists. reflexivity.
  - eexists. reflexivity.
  - destruct (PyString.nonempty s); [|eexists; reflexivity].
    destruct (float_of_str s); eexists; reflexivity.
Qed.

Lemma aggregate_loop_accepts owners stages deals :
  Forall (fun d => hashable (prop_get (properties d) "dealstage")
                   /\ text_amount (prop_get (properties d) "amount")) deals ->
  forall data,
  exists data', aggregate_loop py_repr float_of_str owners stages deals data = Ok data'.
Proof.
  induction 1 as [|d deals [Hs Ha] _ IH]; intros data; [eexists; reflexivity|].
  cbn [aggregate_loop].
  destruct (dict_get_hashable stages _ Hs) as [sl ->].
  destruct (amount_value_text _ Ha) as [x ->].
  cbn [mbind result_bind]. apply IH.
Qed.

Lemma amount_value_errors v e :
  amount_value float_of_str v = Raise e -> e = TypeError \/ e = OverflowError.
Proof.
  unfold amount_value. destruct (amount_given v); [|discriminate].
  destruct v as [|b|z|x|s| |]; cbn [py_float].
  - intros [= <-]. left. reflexivity.
  - unfold float_of_int. destruct (binary_normalize _ _ _ _ _); try discriminate.
    intros [= <-]. right. reflexivity.
  - unfold float_of_int. destruct (binary_normalize _ _ _ _ _); try discriminate.
    intros [= <-]. right. reflexivity.
  - discriminate.
  - destruct (float_of_str s); discriminate.
  - intros [= <-]. left. reflexivity.
  - intros [= <-]. left. reflexivity.
Qed.

Lemma aggregate_loop_errors owners stages deals :
  forall data e,
  aggregate_loop py_repr float_of_str owners stages deals data = Raise e ->
  e = TypeError \/ e = OverflowError.
Proof.
  induction deals as [|d deals IH]; intros data e H; [discriminate|].
  cbn [aggregate_loop] in H.
  destruct (dict_get stages (prop_get (properties d) "dealstage")) as [sl|e1] eqn:Es.
  - cbn [mbind result_bind] in H.
    destruct (amount_value float_of_str _) as [x|e1] eqn:Ea.
    + apply (IH _ _ H).
    + cbn [mbind result_bind] in H. injection H as <-.
      apply (amount_value_errors _ _ Ea).
  - cbn [mbind result_bind] in H. injection H as <-.
    left. destruct (prop_get (properties d) "dealstage"); simpl in Es; congruence.
Qed.

End Accepts.



(** Of five deals, one with the amount 100 and four without a number, the
    total is the 100 of the first. *)
Example non_numeric_amounts_example :
  let float_of_str s :=
    if String.eqb s "100" then Some (float_lit 100) else None in
  let d amount : deal :=
    {| deal_id_raw := PNone;
       properties := {[ "hubspot_owner_id" := PInt 7; "dealstage" := PStr "won";
                        "amount" := amount ]} |} in
  let absent : deal :=
    {| deal_id_raw := PNone;
       properties := {[ "hubspot_owner_id" := PInt 7;
                        "dealstage" := PStr "won" ]} |} in
  OwnerStageReport.aggregate_amounts_by_owner_and_stage (fun _ => "")
    float_of_str [d (PStr "100"); d (PStr "n/a"); d (PStr ""); d PNone; absent]
    {[ "7" := "Ann" ]} {[ "won" := "Won" ]}
  = Ok [("Ann", [("Won", float_lit 100)])].
Proof. vm_compute. reflexivity. Qed.

(** An amount that is a JSON array or a JSON object, a value that no
    amount property of the CRM takes, makes the aggregation raise
    [TypeError]: the [try] statement catches [ValueError] only. *)
Example aggregation_raises_on_array_amount
    (py_repr : pyval -> string) (float_of_str : string -> option float)
    (owners stages : gmap string string) (rest : list deal) :
  let d items := {| deal_id_raw := PStr "1";
                    properties := {[ "amount" := items ]} |} in
  OwnerStageReport.aggregate_amounts_by_owner_and_stage py_repr float_of_str
    (d (PList []) :: rest) owners stages = Raise TypeError
  /\ OwnerStageReport.aggregate_amounts_by_owner_and_stage py_repr float_of_str
       (d (PDict []) :: rest) owners stages = Raise TypeError.
Proof. split; reflexivity. Qed.

(** ** Owner names *)

Section OwnerNames.
Variable py_repr : pyval -> string.

Lemma stripped_or_empty_text (o : gmap string pyval) key :
  text_field o key ->
  exists s, ProductReport.stripped_or_empty (prop_get o key) = Ok s
            /\ (blank_field o key -> s = "").
Proof.
  unfold text_field, blank_field, prop_get.
  intros [H|[H|(s & H)]]; rewrite H; cbn [default from_option id].
  - exists "". split; [reflexivity|]. reflexivity.
  - exists "". split; [reflexivity|]. reflexivity.
  - unfold ProductReport.stripped_or_empty. cbn [truthy].
    destruct (PyString.nonempty s) eqn:E.
    + exists (PyString.strip s). split; [reflexivity|].
      intros [?|[?|(s' & Hs' & Hb)]]; try discriminate.
      injection Hs' as <-. exact Hb.
    + exists "". split; [reflexivity|]. reflexivity.
Qed.

(** [get_owners_map] resolves every owner record whose name fields and
    email are missing or text: to the stripped first and last name, else
    to the email, else to the owner id. *)
Lemma owner_entry_total (o : gmap string pyval) :
  text_field o "firstName" -> text_field o "lastName" -> text_field o "email" ->
  py_str py_repr (py_or (prop_get o "id") (PStr "")) <> "" ->
  exists first last email,
    ProductReport.stripped_or_empty (prop_get o "firstName") = Ok first
    /\ ProductReport.stripped_or_empty (prop_get o "lastName") = Ok last
    /\ ProductReport.stripped_or_empty (prop_get o "email") = Ok email
    /\ ProductReport.owner_entry py_repr o =
       Ok (Some (py_str py_repr (py_or (prop_get o "id") (PStr "")),
                 {| ProductReport.owner_name :=
                      PyString.or_else (PyString.strip (first +:+ " " +:+ last))
                        (PyString.or_else email
                           (py_str py_repr (py_or (prop_get o "id") (PStr ""))));
                    ProductReport.owner_email := email |})).
Proof.
  intros Hf Hl He Hid.
  destruct (stripped_or_empty_text o "firstName" Hf) as (first & E1 & _).
  destruct (stripped_or_empty_text o "lastName" Hl) as (last & E2 & _).
  destruct (stripped_or_empty_text o "email" He) as (email & E3 & _).
  exists first, last, email. repeat split; try assumption.
  unfold ProductReport.owner_entry.
  destruct (py_str py_repr (py_or (prop_get o "id") (PStr ""))) eqn:E; [congruence|].
  cbn [PyString.nonempty negb]. rewrite E1, E2, E3. reflexivity.
Qed.

End OwnerNames.

(** C7 (the code fails it).  [get_all_owners] formats a null first or
    last name as the text "None", so that the name is not blank and the
    email is never used; and it falls back to the placeholder only when
    the record has no "email" key, so that a blank or null email becomes
    the display name.  On the same records [get_owners_map] gives the
    email, or the owner id. *)
Theorem get_all_owners_misses_fallbacks (py_repr : pyval -> string) :
  let nameless : gmap string pyval :=
    {[ "id" := PStr "7"; "firstName" := PNone; "lastName" := PNone;
       "email" := PStr "ann@example.com" ]} in
  let blank : gmap string pyval :=
    {[ "id" := PStr "7"; "firstName" := PStr ""; "lastName" := PStr "";
       "email" := PStr "" ]} in
  let null_email : gmap string pyval :=
    {[ "id" := PStr "7"; "firstName" := PStr ""; "lastName" := PStr "";
       "email" := PNone ]} in
  OwnerStageReport.owner_display_name py_repr nameless = PStr "None None"
  /\ OwnerStageReport.owner_display_name py_repr blank = PStr ""
  /\ OwnerStageReport.owner_display_name py_repr null_email = PNone
  /\ ProductReport.owner_entry py_repr nameless
     = Ok (Some ("7", {| ProductReport.owner_name := "ann@example.com";
                         ProductReport.owner_email := "ann@example.com" |}))
  /\ ProductReport.owner_entry py_repr blank
     = Ok (Some ("7", {| ProductReport.owner_name := "7";
                         ProductReport.owner_email := "" |})).
Proof. repeat split. Qed.

(** ** Sheets of the owner report *)

Section EnsureSheet.
Import OwnerStageReport.
Variable granted_title : list string -> string -> string.

Lemma chars_of_chars l : PyString.chars (PyString.of_chars l) = l.
Proof. apply list_ascii_of_string_of_list_ascii. Qed.

Lemma of_chars_chars s : PyString.of_chars (PyString.chars s) = s.
Proof. apply string_of_list_ascii_of_string. Qed.

Lemma replace_loop chs : forall title,
  PyString.chars (foldl (fun safe ch => PyString.replace ch " " safe) title chs)
  = map (fun c => foldl (fun c ch => if Ascii.eqb c ch then " "%char else c) c chs)
      (PyString.chars title).
Proof.
  induction chs as [|ch chs IH]; intros title.
  - cbn [foldl]. symmetry. apply map_id.
  - cbn [foldl]. rewrite IH. unfold PyString.replace.
    rewrite chars_of_chars, map_map. reflexivity.
Qed.

Lemma forbidden_char c :
  foldl (fun c ch => if Ascii.eqb c ch then " "%char else c) c
    (PyString.chars FORBIDDEN)
  = if forbidden c then " "%char else c.
Proof. destruct c as [[] [] [] [] [] [] [] []]; reflexivity. Qed.

Lemma replace_loop_blanked title :
  foldl (fun safe ch => PyString.replace ch " " safe) title
    (PyString.chars FORBIDDEN) = blanked title.
Proof.
  rewrite <- (of_chars_chars (foldl _ _ _)). unfold blanked. f_equal.
  rewrite replace_loop. apply map_ext. intros c. apply forbidden_char.
Qed.

Lemma prefix_short n s :
  (length (PyString.chars s) <= n)%nat -> PyString.prefix n s = s.
Proof.
  intros H. unfold PyString.prefix. rewrite take_ge by exact H.
  apply of_chars_chars.
Qed.

Lemma find_sheet_new wb t :
  find_sheet wb t = None ->
  find_sheet (wb ++ [ {| title := t; cells := ∅ |} ]) t = Some (length wb).
Proof.
  unfold find_sheet. intros H.
  destruct (list_find (fun ws => title ws = t) wb) eqn:E; [discriminate|].
  rewrite list_find_app_r by exact E. cbn [list_find].
  rewrite decide_True by reflexivity. reflexivity.
Qed.

Lemma find_sheet_none wb t :
  find_sheet wb t = None -> t ∉ sheetnames wb.
Proof.
  unfold find_sheet, sheetnames. intros H Hin.
  destruct (list_find (fun ws => title ws = t) wb) eqn:E; [discriminate|].
  apply list_find_None in E. apply list_elem_of_In, in_map_iff in Hin.
  destruct Hin as (ws & Ht & Hws). apply list_elem_of_In in Hws.
  rewrite Forall_forall in E. exact (E ws Hws Ht).
Qed.

Lemma find_sheet_other wb g t :
  find_sheet wb t = None -> g <> t ->
  find_sheet (wb ++ [ {| title := g; cells := ∅ |} ]) t = None.
Proof.
  unfold find_sheet. intros H Hg.
  destruct (list_find (fun ws => title ws = t) wb) eqn:E; [discriminate|].
  rewrite list_find_app_r by exact E. cbn [list_find].
  rewrite decide_False by exact Hg. reflexivity.
Qed.

Lemma ensure_sheet_again wb t :
  (length (PyString.chars (safe_title t)) <= 31)%nat ->
  (find_sheet wb (safe_title t) = None ->
   granted_title (sheetnames wb) (safe_title t) = safe_title t) ->
  ensure_sheet granted_title (ensure_sheet granted_title wb t).1 t
  = ensure_sheet granted_title wb t
  /\ title <$> ((ensure_sheet granted_title wb t).1
                 !! (ensure_sheet granted_title wb t).2)
     = Some (safe_title t).
Proof.
  intros Hlen Hg. unfold ensure_sheet.
  destruct (find_sheet wb (safe_title t)) as [i|] eqn:E.
  - cbn [fst snd]. rewrite E. split; [reflexivity|].
    unfold find_sheet in E.
    destruct (list_find _ wb) as [[j ws]|] eqn:F; [|discriminate].
    injection E as <-. apply list_find_Some in F as (F1 & F2 & _).
    cbn [fst]. rewrite F1. cbn. rewrite F2. reflexivity.
  - rewrite prefix_short by exact Hlen. unfold create_sheet.
    rewrite (Hg eq_refl). cbn [fst snd].
    rewrite (find_sheet_new wb (safe_title t) E). split; [reflexivity|].
    rewrite lookup_app_r by lia. rewrite Nat.sub_diag. reflexivity.
Qed.

(** When the library grants another title than the one asked for, the
    second call does not find the sheet of the first and creates one
    more. *)
Lemma ensure_sheet_once_more wb t :
  (length (PyString.chars (safe_title t)) <= 31)%nat ->
  find_sheet wb (safe_title t) = None ->
  granted_title (sheetnames wb) (safe_title t) <> safe_title t ->
  (ensure_sheet granted_title wb t).2 = length wb
  /\ length (ensure_sheet granted_title wb t).1 = S (length wb)
  /\ (ensure_sheet granted_title (ensure_sheet granted_title wb t).1 t).2
     = S (length wb)
  /\ length (ensure_sheet granted_title (ensure_sheet granted_title wb t).1 t).1
     = S (S (length wb)).
Proof.
  intros Hlen E Hg. unfold ensure_sheet. rewrite E.
  rewrite prefix_short by exact Hlen. unfold create_sheet. cbn [fst snd].
  rewrite (find_sheet_other wb _ _ E Hg). cbn [fst snd].
  rewrite !length_app. cbn [length]. repeat split; lia.
Qed.

End EnsureSheet.

Lemma append_eq_self (s x : string) : s +:+ x = s -> x = "".
Proof.
  induction s as [|c s IH]; cbn [String.append]; [auto|].
  intros [= H]. exact (IH H).
Qed.

Lemma pretty_N_go_nonempty (x : N) :
  forall s, s <> "" -> pretty_N_go x s <> "".
Proof.
  induction (N.lt_wf_0 x) as [x _ IH]; intros s Hs.
  destruct (decide (x = 0)%N) as [->|Hx].
  - rewrite pretty_N_go_0. exact Hs.
  - rewrite pretty_N_go_step by lia. apply IH; [|discriminate].
    apply N.div_lt; lia.
Qed.

Lemma pretty_succ_nonempty (k : nat) : pretty (S k) <> "".
Proof.
  unfold pretty, pretty_nat, pretty, pretty_N.
  rewrite decide_False by lia.
  rewrite pretty_N_go_step by lia. apply pretty_N_go_nonempty. discriminate.
Qed.

(** A title that is in use, up to letter case, is not granted. *)
Lemma avoid_duplicate_name_used names value n :
  n ∈ names -> same_title n value ->
  Openpyxl.avoid_duplicate_name names value <> value.
Proof.
  intros Hn Hs. unfold Openpyxl.avoid_duplicate_name.
  replace (existsb _ names) with true.
  - intros H. apply append_eq_self in H. exact (pretty_succ_nonempty _ H).
  - symmetry. apply existsb_exists. exists n.
    split; [apply list_elem_of_In, Hn|]. apply String.eqb_eq. exact Hs.
Qed.

(** C9 (as amended).  [ensure_sheet] looks up the title with each of
    [\ / ? * [ ] :] replaced by a space and the white space around it
    stripped, or "Unassigned" when nothing is left.  For such a title of
    at most 31 characters a second call returns the sheet of the first
    call and creates none, provided the library created the sheet under
    the title it was asked for.  openpyxl does so unless a sheet title
    differs from the title only in letter case: with no such sheet the
    second call returns the sheet of the first; with one, and no sheet of
    the title itself, the first call creates a numbered sheet, which the
    second call does not find, so that it creates one more.  A new sheet
    is created under the first 31 characters of the title, which the
    lookup does not shorten. *)
Theorem ensure_sheet_is_idempotent
    (granted_title : list string -> string -> string) :
  (forall t,
     OwnerStageReport.safe_title t
     = PyString.or_else (PyString.strip (blanked t)) "Unassigned")
  /\ (forall t,
        PyString.strip (blanked t) = "" ->
        OwnerStageReport.safe_title t = "Unassigned")
  /\ (forall wb t,
        (length (PyString.chars (OwnerStageReport.safe_title t)) <= 31)%nat ->
        (OwnerStageReport.find_sheet wb (OwnerStageReport.safe_title t) = None ->
         granted_title (OwnerStageReport.sheetnames wb)
           (OwnerStageReport.safe_title t) = OwnerStageReport.safe_title t) ->
        OwnerStageReport.ensure_sheet granted_title
          (OwnerStageReport.ensure_sheet granted_title wb t).1 t
        = OwnerStageReport.ensure_sheet granted_title wb t
        /\ OwnerStageReport.title
             <$> ((OwnerStageReport.ensure_sheet granted_title wb t).1
                    !! (OwnerStageReport.ensure_sheet granted_title wb t).2)
           = Some (OwnerStageReport.safe_title t))
  /\ (forall wb t,
        (length (PyString.chars (OwnerStageReport.safe_title t)) <= 31)%nat ->
        (forall n, n ∈ OwnerStageReport.sheetnames wb ->
           same_title n (OwnerStageReport.safe_title t) ->
           n = OwnerStageReport.safe_title t) ->
        OwnerStageReport.ensure_sheet Openpyxl.avoid_duplicate_name
          (OwnerStageReport.ensure_sheet Openpyxl.avoid_duplicate_name wb t).1 t
        = OwnerStageReport.ensure_sheet Openpyxl.avoid_duplicate_name wb t
        /\ OwnerStageReport.title
             <$> ((OwnerStageReport.ensure_sheet Openpyxl.avoid_duplicate_name
                     wb t).1
                    !! (OwnerStageReport.ensure_sheet
                          Openpyxl.avoid_duplicate_name wb t).2)
           = Some (OwnerStageReport.safe_title t))
  /\ (forall wb t n,
        (length (PyString.chars (OwnerStageReport.safe_title t)) <= 31)%nat ->
        n ∈ OwnerStageReport.sheetnames wb ->
        same_title n (OwnerStageReport.safe_title t) ->
        n <> OwnerStageReport.safe_title t ->
        OwnerStageReport.find_sheet wb (OwnerStageReport.safe_title t) = None ->
        (OwnerStageReport.ensure_sheet Openpyxl.avoid_duplicate_name wb t).2
        = length wb
        /\ length (OwnerStageReport.ensure_sheet Openpyxl.avoid_duplicate_name
                     wb t).1
           = S (length wb)
        /\ (OwnerStageReport.ensure_sheet Openpyxl.avoid_duplicate_name
              (OwnerStageReport.ensure_sheet Openpyxl.avoid_duplicate_name
                 wb t).1 t).2
           = S (length wb)
        /\ length (OwnerStageReport.ensure_sheet Openpyxl.avoid_duplicate_name
                     (OwnerStageReport.ensure_sheet
                        Openpyxl.avoid_duplicate_name wb t).1 t).1
           = S (S (length wb)))
  /\ (forall wb t,
        OwnerStageReport.find_sheet wb (OwnerStageReport.safe_title t) = None ->
        OwnerStageReport.ensure_sheet granted_title wb t
        = OwnerStageReport.create_sheet granted_title wb
            (PyString.prefix 31 (OwnerStageReport.safe_title t))).
Proof.
  split; [|split; [|split; [|split; [|split]]]].
  - intros t. unfold OwnerStageReport.safe_title.
    rewrite replace_loop_blanked. reflexivity.
  - intros t H. unfold OwnerStageReport.safe_title.
    rewrite replace_loop_blanked, H. reflexivity.
  - intros wb t. apply ensure_sheet_again.
  - intros wb t Hlen Hn. apply ensure_sheet_again; [exact Hlen|].
    intros E. apply avoid_duplicate_name_unused.
    intros n Hin Hs. apply (find_sheet_none wb _ E).
    rewrite <- (Hn n Hin Hs). exact Hin.
  - intros wb t n Hlen Hin Hs Hne E.
    apply ensure_sheet_once_more; [exact Hlen|exact E|].
    exact (avoid_duplicate_name_used _ _ n Hin Hs).
  - intros wb t H. unfold OwnerStageReport.ensure_sheet. rewrite H. reflexivity.
Qed.

Lemma ensure_sheet_is_idempotent_witness :
  let wb := [ {| OwnerStageReport.title := "Ann Lee";
                 OwnerStageReport.cells := ∅ |} ] in
  let t := " Bob: Key/Accounts " in
  OwnerStageReport.safe_title t = "Bob  Key Accounts"
  /\ OwnerStageReport.safe_title "[*]" = "Unassigned"
  /\ (OwnerStageReport.ensure_sheet Openpyxl.avoid_duplicate_name
        (OwnerStageReport.ensure_sheet Openpyxl.avoid_duplicate_name wb t).1 t
      = OwnerStageReport.ensure_sheet Openpyxl.avoid_duplicate_name wb t
      /\ OwnerStageReport.title
           <$> ((OwnerStageReport.ensure_sheet Openpyxl.avoid_duplicate_name
                   wb t).1
                  !! (OwnerStageReport.ensure_sheet
                        Openpyxl.avoid_duplicate_name wb t).2)
         = Some (OwnerStageReport.safe_title t))
  /\ (OwnerStageReport.ensure_sheet Openpyxl.avoid_duplicate_name wb "ann lee").2
     = length wb
  /\ (OwnerStageReport.ensure_sheet Openpyxl.avoid_duplicate_name
        (OwnerStageReport.ensure_sheet Openpyxl.avoid_duplicate_name
           wb "ann lee").1 "ann lee").2
     = S (length wb).
Proof.
  intros wb t.
  destruct (ensure_sheet_is_idempotent Openpyxl.avoid_duplicate_name)
    as (A & B & _ & C & D & _).
  split; [rewrite A; reflexivity|].
  split; [apply B; reflexivity|].
  split.
  - apply (C wb t).
    + vm_compute. lia.
    + intros n Hn Hs. apply list_elem_of_singleton in Hn. subst n.
      vm_compute in Hs. discriminate Hs.
  - destruct (D wb "ann lee" "Ann Lee") as (D1 & _ & D2 & _).
    + vm_compute. lia.
    + left.
    + reflexivity.
    + discriminate.
    + reflexivity.
    + split; [exact D1|exact D2].
Defined.

(** C9 as stated fails when a sheet title differs from the title asked
    for only in letter case: in a workbook with the sheet [Ann Lee], two
    calls for [ann lee] create the sheets [ann lee1] and [ann lee2]. *)
Lemma ensure_sheet_numbers_a_title_in_use :
  let wb := [ {| OwnerStageReport.title := "Ann Lee";
                 OwnerStageReport.cells := ∅ |} ] in
  let first :=
    OwnerStageReport.ensure_sheet Openpyxl.avoid_duplicate_name wb "ann lee" in
  let second :=
    OwnerStageReport.ensure_sheet Openpyxl.avoid_duplicate_name first.1
      "ann lee" in
  (length (PyString.chars (OwnerStageReport.safe_title "ann lee")) <= 31)%nat
  /\ OwnerStageReport.sheetnames first.1 = ["Ann Lee"; "ann lee1"]
  /\ first.2 = 1%nat
  /\ OwnerStageReport.sheetnames second.1 = ["Ann Lee"; "ann lee1"; "ann lee2"]
  /\ second.2 = 2%nat
  /\ second <> first.
Proof.
  intros wb first second.
  split; [vm_compute; lia|].
  split; [vm_compute; reflexivity|]. split; [vm_compute; reflexivity|].
  split; [vm_compute; reflexivity|]. split; [vm_compute; reflexivity|].
  intros H. apply (f_equal snd) in H. vm_compute in H. discriminate H.
Qed.

(** ** Runs of the owner report *)

Example two_runs_short_name :
  two_runs Openpyxl.avoid_duplicate_name "Ann Lee" "2026-W44"
    (float_lit 1500) (float_lit 900)
  = [ {| OwnerStageReport.title := "Ann Lee";
         OwnerStageReport.cells :=
           {[ (1, 1)%nat := PStr "Stage"; (1, 2)%nat := PStr "2026-W44";
              (2, 1)%nat := PStr "Won";
              (2, 2)%nat := PFloat (float_lit 900) ]} |} ].
Proof. vm_compute. reflexivity. Qed.

Section Rerun.
Import OwnerStageReport.
Variable granted_title : list string -> string -> string.

Lemma ensure_sheet_first t :
  granted_title [] (PyString.prefix 31 (safe_title t))
    = PyString.prefix 31 (safe_title t) ->
  ensure_sheet granted_title [] t
  = ([ {| title := PyString.prefix 31 (safe_title t); cells := ∅ |} ], 0%nat).
Proof.
  intros Hg. unfold ensure_sheet, create_sheet.
  cbn [find_sheet list_find fmap option_fmap option_map sheetnames map app length].
  rewrite Hg. reflexivity.
Qed.

Lemma ensure_sheet_miss s0 t :
  title s0 <> safe_title t ->
  ensure_sheet granted_title [s0] t
  = ([ s0; {| title := granted_title [title s0] (PyString.prefix 31 (safe_title t));
              cells := ∅ |} ], 1%nat).
Proof.
  intros Hne. unfold ensure_sheet, create_sheet, find_sheet.
  cbn [list_find]. rewrite decide_False by exact Hne. reflexivity.
Qed.

(** The sheet that a run writes for an owner with one stage, on a sheet
    without cells. *)
Lemma write_owner_fresh name v :
  write_owner "2026-W44" ["Won"] [("Won", v)] {| title := name; cells := ∅ |}
  = {| title := name;
       cells := {[ (1, 1)%nat := PStr "Stage"; (1, 2)%nat := PStr "2026-W44";
                   (2, 1)%nat := PStr "Won"; (2, 2)%nat := PFloat v ]} |}.
Proof. vm_compute. reflexivity. Qed.

End Rerun.

(** C2 (the code fails it).  For an owner whose sanitized name is longer
    than 31 characters the second run does not find the sheet of the first
    run, which was created under the shortened title: it creates another
    sheet and writes there.  The first sheet keeps the column of the week
    with the value of the first run. *)
Theorem rerun_leaves_first_sheet_stale
    (granted_title : list string -> string -> string)
    (owner : string) (v1 v2 : float) :
  let short := PyString.prefix 31 (OwnerStageReport.safe_title owner) in
  (31 < length (PyString.chars (OwnerStageReport.safe_title owner)))%nat ->
  granted_title [] short = short ->
  exists s0 s1,
    two_runs granted_title owner "2026-W44" v1 v2 = [s0; s1]
    /\ OwnerStageReport.title s0 = short
    /\ OwnerStageReport.cell_value s0 1 2 = PStr "2026-W44"
    /\ OwnerStageReport.cell_value s0 2 1 = PStr "Won"
    /\ OwnerStageReport.cell_value s0 2 2 = PFloat v1
    /\ OwnerStageReport.cell_value s1 1 2 = PStr "2026-W44"
    /\ OwnerStageReport.cell_value s1 2 1 = PStr "Won"
    /\ OwnerStageReport.cell_value s1 2 2 = PFloat v2.
Proof.
  intros short Hlen Hg.
  assert (Hne : short <> OwnerStageReport.safe_title owner).
  { intros E. apply (f_equal (fun x => length (PyString.chars x))) in E.
    subst short. unfold PyString.prefix in E.
    rewrite chars_of_chars, length_take in E. lia. }
  unfold two_runs, OwnerStageReport.write_snapshot_to_excel,
    OwnerStageReport.write_owners.
  cbn [default from_option id foldl fst snd].
  rewrite (ensure_sheet_first granted_title owner Hg).
  cbn [lookup list_lookup insert list_insert].
  rewrite write_owner_fresh.
  rewrite ensure_sheet_miss by exact Hne.
  cbn [lookup list_lookup insert list_insert OwnerStageReport.title].
  rewrite write_owner_fresh.
  eexists _, _. split; [reflexivity|]. repeat split.
Qed.

Lemma rerun_leaves_first_sheet_stale_witness :
  exists s0 s1,
    two_runs Openpyxl.avoid_duplicate_name long_owner_name "2026-W44"
      (float_lit 1500) (float_lit 900) = [s0; s1]
    /\ OwnerStageReport.title s0
       = PyString.prefix 31 (OwnerStageReport.safe_title long_owner_name)
    /\ OwnerStageReport.cell_value s0 1 2 = PStr "2026-W44"
    /\ OwnerStageReport.cell_value s0 2 1 = PStr "Won"
    /\ OwnerStageReport.cell_value s0 2 2 = PFloat (float_lit 1500)
    /\ OwnerStageReport.cell_value s1 1 2 = PStr "2026-W44"
    /\ OwnerStageReport.cell_value s1 2 1 = PStr "Won"
    /\ OwnerStageReport.cell_value s1 2 2 = PFloat (float_lit 900).
Proof.
  apply (rerun_leaves_first_sheet_stale Openpyxl.avoid_duplicate_name
           long_owner_name).
  - vm_compute. lia.
  - vm_compute. reflexivity.
Defined.

Example second_sheet_is_numbered :
  map OwnerStageReport.title
    (two_runs Openpyxl.avoid_duplicate_name long_owner_name "2026-W44"
       float_zero float_zero)
  = ["maria.konstantinopoulou@example"; "maria.konstantinopoulou@example1"].
Proof. vm_compute. reflexivity. Qed.


Example avoid_duplicate_name_free :
  Openpyxl.avoid_duplicate_name ["Ann Lee"; "Sheet5"] "Sheet" = "Sheet".
Proof. vm_compute. reflexivity. Qed.

Example avoid_duplicate_name_taken :
  Openpyxl.avoid_duplicate_name ["Sheet"; "Ann Lee"; "Sheet1"] "Sheet"
  = "Sheet2".
Proof. vm_compute. reflexivity. Qed.

(** * Further properties of the code *)

(** ** Batches *)

Section Chunked.
Import ProductReport.
Context {A : Type}.

Lemma concat_chunks (items : list A) (size m : nat) :
  concat (map (fun k => take size (drop (k * size) items)) (seq 0 m))
  = take (m * size) items.
Proof.
  induction m as [|m IH]; [reflexivity|].
  rewrite seq_S, map_app, concat_app, IH. cbn [map concat Nat.add].
  rewrite app_nil_r, take_take_drop. f_equal. lia.
Qed.

Lemma chunks_cover (n size : nat) :
  (0 < size)%nat ->
  (n <= (n + size - 1) / size * size)%nat
  /\ (forall k, (k < (n + size - 1) / size)%nat -> (k * size < n)%nat).
Proof.
  intros Hs.
  pose proof (Nat.div_mod_eq (n + size - 1) size) as E.
  pose proof (Nat.mod_upper_bound (n + size - 1) size ltac:(lia)) as U.
  split; [nia|]. intros k Hk. nia.
Qed.

Lemma chunked_spec (items : list A) (size : nat) chunks :
  chunked items size = Ok chunks ->
  concat chunks = items /\ Forall (fun c => (0 < length c <= size)%nat) chunks.
Proof.
  unfold chunked. destruct (Nat.eqb_spec size 0) as [->|Hs]; [discriminate|].
  intros [= <-].
  destruct (chunks_cover (length items) size ltac:(lia)) as [Hc Hk]. split.
  - rewrite concat_chunks. apply take_ge. exact Hc.
  - apply Forall_forall. intros c Hin.
    apply list_elem_of_fmap in Hin as (k & -> & Hin).
    apply elem_of_seq in Hin. specialize (Hk k ltac:(lia)).
    rewrite length_take, length_drop. lia.
Qed.

End Chunked.

(** X1.  [chunked] with a positive size cuts the list into consecutive
    slices: joined in order they give the list back, none is empty and
    none is longer than the size. *)
Theorem chunked_partitions {A} (items : list A) (size : nat) :
  (0 < size)%nat ->
  exists chunks,
    ProductReport.chunked items size = Ok chunks
    /\ concat chunks = items
    /\ Forall (fun c => (0 < length c <= size)%nat) chunks.
Proof.
  intros Hs.
  destruct (ProductReport.chunked items size) as [chunks|e] eqn:E.
  - exists chunks. split; [reflexivity|]. apply chunked_spec. exact E.
  - unfold ProductReport.chunked in E.
    destruct (Nat.eqb_spec size 0); [lia|discriminate].
Qed.

Lemma chunked_partitions_witness :
  exists chunks,
    ProductReport.chunked ["a"; "b"; "c"; "d"; "e"] 2 = Ok chunks
    /\ concat chunks = ["a"; "b"; "c"; "d"; "e"]
    /\ Forall (fun c => (0 < length c <= 2)%nat) chunks.
Proof. apply (chunked_partitions ["a"; "b"; "c"; "d"; "e"] 2). lia. Defined.

Example chunked_ex :
  ProductReport.chunked ["a"; "b"; "c"; "d"; "e"] 2
  = Ok [["a"; "b"]; ["c"; "d"]; ["e"]].
Proof. reflexivity. Qed.

(** ** The primary company *)

Section PrimaryWins.
Import ProductReport.
Variable py_repr : pyval -> string.

Lemma has_primary_label_true t :
  has_primary t -> has_primary_label (associationTypes t) = true.
Proof.
  intros (a & Ha & l & Hl & Hp). unfold has_primary_label.
  apply existsb_exists. exists a. split; [apply list_elem_of_In, Ha|].
  rewrite Hl. simpl. apply String.eqb_eq. exact Hp.
Qed.

Lemma scan_companies_skip pre rest :
  no_primary pre ->
  forall fb, exists fb',
    scan_companies py_repr (pre ++ rest) fb = scan_companies py_repr rest fb'.
Proof.
  induction pre as [|t pre IH]; intros Hn fb; [exists fb; reflexivity|].
  cbn [app scan_companies].
  rewrite has_primary_label_false
    by (intros a Ha; apply (Hn t a); [left|exact Ha]).
  apply IH. intros t' a Ht'. apply Hn. right. exact Ht'.
Qed.

End PrimaryWins.

(** X2.  The first associated company that carries a "primary"
    label, in any letter case, is the company chosen for the deal,
    whatever companies come before or after it. *)
Theorem primary_company_wins
    (py_repr : pyval -> string)
    (pre post : list ProductReport.assoc_to) (t : ProductReport.assoc_to) :
  no_primary pre -> has_primary t ->
  py_str py_repr (ProductReport.toObjectId t) <> "" ->
  ProductReport.chosen_company py_repr (pre ++ t :: post)
  = py_str py_repr (ProductReport.toObjectId t).
Proof.
  intros Hn Ht Hc. unfold ProductReport.chosen_company.
  destruct (scan_companies_skip py_repr pre (t :: post) Hn None) as [fb ->].
  cbn [ProductReport.scan_companies].
  rewrite (has_primary_label_true t Ht). cbn [ProductReport.unset].
  destruct (py_str py_repr (ProductReport.toObjectId t)); [congruence|reflexivity].
Qed.

Lemma primary_company_wins_witness :
  let plain id :=
    {| ProductReport.toObjectId := PInt id;
       ProductReport.associationTypes := [ {| ProductReport.label := None |} ] |} in
  let main :=
    {| ProductReport.toObjectId := PInt 7;
       ProductReport.associationTypes :=
         [ {| ProductReport.label := Some "Partner" |};
           {| ProductReport.label := Some "Primary" |} ] |} in
  ProductReport.chosen_company (fun _ => "") ([plain 5; plain 6] ++ main :: [plain 8])
  = "7".
Proof.
  intros plain main.
  apply (primary_company_wins (fun _ => "") [plain 5; plain 6] [plain 8] main).
  - intros t a Ht Ha (l & Hl & _).
    rewrite !elem_of_cons, elem_of_nil in Ht.
    destruct Ht as [->|[->|[]]]; simpl in Ha;
      apply list_elem_of_singleton in Ha; subst a; discriminate.
  - exists {| ProductReport.label := Some "Primary" |}. split.
    + simpl. right. left.
    + exists "Primary". split; reflexivity.
  - vm_compute. discriminate.
Defined.

(** ** Candidate endpoints *)

Section RequestBounds.
Import ProductReport.
Context {R B : Type}.

Lemma sent_app (t1 t2 : list (event R)) : sent (t1 ++ t2) = sent t1 ++ sent t2.
Proof.
  unfold sent. induction t1 as [|[r|s] t1 IH]; simpl; [reflexivity| |exact IH].
  f_equal. exact IH.
Qed.

Lemma backoff_in_range attempt cap :
  0 <= attempt -> 1 <= cap -> 1 <= Z.min (2 ^ attempt) cap <= cap.
Proof.
  intros Ha Hc. pose proof (Z.pow_pos_nonneg 2 attempt ltac:(lia) Ha). lia.
Qed.

Lemma hubspot_request_loop_bounded (req : R) remaining :
  forall attempt last (w : world R B),
  0 <= attempt ->
  exists tr' used n,
    trace (hubspot_request_loop req remaining attempt last w).2 = trace w ++ tr'
    /\ script w = used ++ script (hubspot_request_loop req remaining attempt last w).2
    /\ (length used <= n <= remaining)%nat
    /\ sent tr' = replicate n req
    /\ Forall (fun s => 1 <= s <= 20) (sleeps tr').
Proof.
  induction remaining as [|remaining IH]; intros attempt last w Ha.
  - exists [], [], 0%nat. cbn [hubspot_request_loop].
    destruct last as [r|]; cbn [snd]; rewrite app_nil_r;
      repeat split; try reflexivity; try lia; constructor.
  - cbn [hubspot_request_loop]. unfold send.
    destruct (script w) as [|resp rest] eqn:Es.
    + exists [Sent req], [], 1%nat. cbn [snd log trace script].
      rewrite Es. repeat split; try reflexivity; try (simpl; lia). constructor.
    + destruct (retried_status (status_code resp)).
      * destruct (IH (attempt + 1) (Some resp)
                    (log (Slept (Z.min (2 ^ attempt) 20))
                       {| script := rest; trace := trace w ++ [Sent req] |})
                    ltac:(lia))
          as (tr' & used & n & H1 & H2 & H3 & H4 & H5).
        exists (Sent req :: Slept (Z.min (2 ^ attempt) 20) :: tr'),
          (resp :: used), (S n).
        rewrite H1. cbn [log trace script] in *. split; [|split; [|split; [|split]]].
        -- rewrite <- !app_assoc. reflexivity.
        -- cbn [app]. f_equal. exact H2.
        -- simpl. lia.
        -- cbn. f_equal. exact H4.
        -- cbn. constructor; [apply backoff_in_range; lia|exact H5].
      * exists [Sent req], [resp], 1%nat.
        destruct (raise_for_status resp); cbn [snd trace script];
          repeat split; try reflexivity; try (simpl; lia); constructor.
Qed.

End RequestBounds.

Section FirstRequest.
Import ProductReport.
Context {R B : Type}.

(** A request with retries left is sent at least once. *)
Lemma hubspot_request_sent (req : R) (retries : nat) (w : world R B) :
  exists tr' used n,
    trace (hubspot_request req (S retries) w).2 = trace w ++ tr'
    /\ script w = used ++ script (hubspot_request req (S retries) w).2
    /\ sent tr' = replicate (S n) req
    /\ (n <= retries)%nat.
Proof.
  unfold hubspot_request. cbn [hubspot_request_loop]. unfold send.
  destruct (script w) as [|resp rest] eqn:Es.
  - exists [Sent req], [], 0%nat. unfold log. cbn [snd trace script].
    rewrite Es. repeat split; try reflexivity. lia.
  - destruct (retried_status (status_code resp)).
    + destruct (hubspot_request_loop_bounded req retries (0 + 1) (Some resp)
                  (log (Slept (Z.min (2 ^ 0) 20))
                     {| script := rest; trace := trace w ++ [Sent req] |})
                  ltac:(lia))
        as (tr' & used & n & H1 & H2 & H3 & H4 & _).
      exists (Sent req :: Slept (Z.min (2 ^ 0) 20) :: tr'), (resp :: used), n.
      rewrite H1. cbn [log trace script] in *. split; [|split; [|split]].
      * rewrite <- !app_assoc. reflexivity.
      * cbn [app]. f_equal. exact H2.
      * cbn. f_equal. exact H4.
      * lia.
    + exists [Sent req], [resp], 0%nat.
      destruct (raise_for_status resp); cbn [snd trace script];
        repeat split; try reflexivity; lia.
Qed.

End FirstRequest.

Section CandidatePaths.
Import ProductReport.
Context {R B : Type}.

Lemma hubspot_request_error (req : R) (r : response B) rest tr n :
  other_error (status_code r) ->
  hubspot_request req (S n) {| script := r :: rest; trace := tr |} =
  (Raise (HTTPError (status_code r)),
   {| script := rest; trace := tr ++ [Sent req] |}).
Proof.
  intros [[H1 H2] H3]. unfold hubspot_request. simpl.
  replace (retried_status (status_code r)) with false.
  2:{ symmetry. unfold retried_status. rewrite !orb_false_iff.
      repeat split; lia. }
  unfold raise_for_status.
  replace ((400 <=? status_code r) && (status_code r <? 600)) with true.
  2:{ symmetry. apply andb_true_iff. split; lia. }
  reflexivity.
Qed.

Lemma hubspot_request_success (req : R) (r : response B) rest tr n :
  success_status (status_code r) ->
  hubspot_request req (S n) {| script := r :: rest; trace := tr |} =
  (Ok (body r), {| script := rest; trace := tr ++ [Sent req] |}).
Proof.
  intros H. unfold success_status in H. apply hubspot_request_ok.
  - unfold retried_status. rewrite !orb_false_iff. repeat split; lia.
  - unfold raise_for_status.
    destruct (400 <=? status_code r) eqn:E1; [|reflexivity].
    destruct (status_code r <? 600) eqn:E2; [|reflexivity]. lia.
Qed.

Lemma try_candidates_errors (errs : list (response B)) :
  Forall (fun r => other_error (status_code r)) errs ->
  forall (reqs : list R) last_err rest tr,
  (length errs <= length reqs)%nat ->
  try_candidates reqs last_err {| script := errs ++ rest; trace := tr |} =
  try_candidates (drop (length errs) reqs) (last_error errs last_err)
    {| script := rest; trace := tr ++ map Sent (take (length errs) reqs) |}.
Proof.
  induction 1 as [|r errs Hr Hes IH]; intros reqs last_err rest tr Hl.
  - simpl. rewrite app_nil_r. reflexivity.
  - destruct reqs as [|q reqs]; [simpl in Hl; lia|].
    cbn [app try_candidates length drop take map].
    rewrite hubspot_request_error by exact Hr.
    rewrite IH by (simpl in Hl; lia).
    rewrite <- app_assoc. f_equal.
    unfold last_error. rewrite last_cons.
    destruct (list.last errs); reflexivity.
Qed.

Lemma try_candidates_success (errs : list (response B)) (r : response B) :
  Forall (fun r => other_error (status_code r)) errs ->
  success_status (status_code r) ->
  forall (reqs : list R) last_err rest tr,
  (length errs < length reqs)%nat ->
  try_candidates reqs last_err {| script := errs ++ r :: rest; trace := tr |} =
  ((Some (body r), last_error errs last_err),
   {| script := rest; trace := tr ++ map Sent (take (S (length errs)) reqs) |}).
Proof.
  intros He Hr reqs last_err rest tr Hl.
  rewrite try_candidates_errors by (assumption || lia).
  destruct (drop (length errs) reqs) as [|q reqs'] eqn:E.
  { apply (f_equal length) in E. rewrite length_drop in E. simpl in E. lia. }
  cbn [try_candidates]. rewrite hubspot_request_success by exact Hr.
  rewrite <- app_assoc. repeat f_equal.
  rewrite (take_S_r reqs (length errs) q).
  - rewrite map_app. reflexivity.
  - rewrite <- (take_drop (length errs) reqs) at 1. rewrite E.
    rewrite lookup_app_r by (rewrite length_take; lia).
    rewrite length_take. replace (_ - _)%nat with 0%nat by lia. reflexivity.
Qed.

Lemma try_candidates_all_fail (errs : list (response B)) :
  Forall (fun r => other_error (status_code r)) errs ->
  forall (reqs : list R) last_err rest tr,
  length errs = length reqs ->
  try_candidates reqs last_err {| script := errs ++ rest; trace := tr |} =
  ((None, last_error errs last_err),
   {| script := rest; trace := tr ++ map Sent reqs |}).
Proof.
  intros He reqs last_err rest tr Hl.
  rewrite try_candidates_errors by (assumption || lia).
  rewrite Hl, drop_all, firstn_all. reflexivity.
Qed.

End CandidatePaths.

(** X3.  [get_owners_map] asks the v3 path first, with the retries of
    [hubspot_request], and the legacy path exactly when the v3 request
    raised, whatever it raised: the owners come from the first path that
    answers, no path after it is requested, and when both requests raise,
    the error of the legacy path is the one reported. *)
Theorem get_owners_map_falls_back
    (py_repr : pyval -> string) (exn_text : option exn -> string)
    (w : world string (list (gmap string pyval))) :
  let v3 := ProductReport.hubspot_request "/crm/v3/owners" 5 w in
  let legacy := ProductReport.hubspot_request "/owners/v2/owners" 5 v3.2 in
  ProductReport.get_owners_map py_repr exn_text w
  = match v3.1 with
    | Ok data =>
        (ProductReport.get_owners_map_loop py_repr (default [] data) ∅, v3.2)
    | Raise _ =>
        match legacy.1 with
        | Ok data =>
            (ProductReport.get_owners_map_loop py_repr (default [] data) ∅,
             legacy.2)
        | Raise e =>
            (Raise (RuntimeError
                      ("Nepodařilo se stáhnout owners. Poslední chyba: "
                       +:+ exn_text (Some e))), legacy.2)
        end
    end
  /\ exists n1 n2,
       sent (trace (ProductReport.get_owners_map py_repr exn_text w).2)
       = sent (trace w) ++ replicate n1 "/crm/v3/owners"
         ++ replicate n2 "/owners/v2/owners"
       /\ (1 <= n1 <= 5)%nat /\ (n2 <= 5)%nat
       /\ (n2 = 0%nat <-> exists data, v3.1 = Ok data).
Proof.
  intros v3 legacy.
  assert (E : ProductReport.get_owners_map py_repr exn_text w
              = match v3.1 with
                | Ok data =>
                    (ProductReport.get_owners_map_loop py_repr (default [] data) ∅,
                     v3.2)
                | Raise _ =>
                    match legacy.1 with
                    | Ok data =>
                        (ProductReport.get_owners_map_loop py_repr
                           (default [] data) ∅, legacy.2)
                    | Raise e =>
                        (Raise (RuntimeError
                                  ("Nepodařilo se stáhnout owners. Poslední chyba: "
                                   +:+ exn_text (Some e))), legacy.2)
                    end
                end).
  { unfold ProductReport.get_owners_map, ProductReport.OWNER_PATHS.
    cbn [ProductReport.try_candidates]. subst legacy. fold v3.
    destruct v3 as [[data|e] w1]; cbn [fst snd]; [reflexivity|].
    destruct (ProductReport.hubspot_request "/owners/v2/owners" 5 w1)
      as [[data|e2] w2]; reflexivity. }
  split; [exact E|]. rewrite E.
  destruct (hubspot_request_sent "/crm/v3/owners" 4 w)
    as (tr1 & _ & n1 & T1 & _ & S1 & L1).
  fold v3 in T1.
  destruct (hubspot_request_sent "/owners/v2/owners" 4 v3.2)
    as (tr2 & _ & n2 & T2 & _ & S2 & L2).
  fold legacy in T2.
  destruct v3.1 as [data|e].
  - exists (S n1), 0%nat. cbn [snd replicate]. rewrite T1, sent_app, S1, app_nil_r.
    split; [reflexivity|]. split; [lia|]. split; [lia|].
    split; [eauto|reflexivity].
  - exists (S n1), (S n2).
    assert (T : trace (match legacy.1 with
                       | Ok data =>
                           (ProductReport.get_owners_map_loop py_repr
                              (default [] data) ∅, legacy.2)
                       | Raise e0 =>
                           (Raise (RuntimeError
                                     ("Nepodařilo se stáhnout owners. Poslední chyba: "
                                      +:+ exn_text (Some e0))), legacy.2)
                       end).2 = trace legacy.2)
      by (destruct legacy.1; reflexivity).
    rewrite T, T2, T1, !sent_app, S1, S2, <- app_assoc.
    split; [reflexivity|]. split; [lia|]. split; [lia|].
    split; [discriminate|]. intros [data H]. discriminate H.
Qed.

Lemma get_owners_map_falls_back_witness :
  let owner : gmap string pyval := {[ "id" := PInt 7; "email" := PStr "a@b.c" ]} in
  let w : world string (list (gmap string pyval)) :=
    {| script := [ {| status_code := 501; body := None |};
                   {| status_code := 200; body := Some [owner] |} ];
       trace := [] |} in
  ProductReport.get_owners_map (fun _ => "") (fun _ => "") w
  = (ProductReport.get_owners_map_loop (fun _ => "") [owner] ∅,
     {| script := [];
        trace := [Sent "/crm/v3/owners"; Sent "/owners/v2/owners"] |}).
Proof.
  intros owner w.
  exact (eq_trans
           (proj1 (get_owners_map_falls_back (fun _ => "") (fun _ => "") w))
           eq_refl).
Defined.

(** The legacy path is asked after five throttled answers to the v3 path,
    and after a connection error; when no path can be reached the error
    of the legacy path is reported. *)
Example get_owners_map_falls_back_on_any_error :
  let owner : gmap string pyval := {[ "id" := PInt 7; "email" := PStr "a@b.c" ]} in
  let r n b : response (list (gmap string pyval)) :=
    {| status_code := n; body := b |} in
  let text e :=
    match e with Some ConnectionError => "connection" | _ => "" end in
  sent (trace (ProductReport.get_owners_map (fun _ => "") text
                 {| script := [r 429 None; r 429 None; r 429 None; r 429 None;
                               r 429 None; r 200 (Some [owner])];
                    trace := [] |}).2)
  = replicate 5 "/crm/v3/owners" ++ ["/owners/v2/owners"]
  /\ (ProductReport.get_owners_map (fun _ => "") text
        {| script := [r 429 None; r 429 None; r 429 None; r 429 None;
                      r 429 None; r 200 (Some [owner])];
           trace := [] |}).1
     = ProductReport.get_owners_map_loop (fun _ => "") [owner] ∅
  /\ ProductReport.get_owners_map (fun _ => "") text
       {| script := []; trace := [] |}
     = (Raise (RuntimeError
                 "Nepodařilo se stáhnout owners. Poslední chyba: connection"),
        {| script := [];
           trace := [Sent "/crm/v3/owners"; Sent "/owners/v2/owners"] |}).
Proof. intros owner r text. repeat split. Qed.

(** X4.  When both owner paths fail, [get_owners_map] has asked each
    once, in order, and raises a [RuntimeError] whose message cites the
    error of the legacy path, the last one tried; the error of the v3
    path is lost. *)
Theorem get_owners_map_reports_last_error
    (py_repr : pyval -> string) (exn_text : option exn -> string)
    (e1 e2 : response (list (gmap string pyval)))
    (rest : list (response (list (gmap string pyval))))
    (tr : list (event string)) :
  other_error (status_code e1) -> other_error (status_code e2) ->
  ProductReport.get_owners_map py_repr exn_text
    {| script := e1 :: e2 :: rest; trace := tr |}
  = (Raise (RuntimeError
              ("Nepodařilo se stáhnout owners. Poslední chyba: "
               +:+ exn_text (Some (HTTPError (status_code e2))))),
     {| script := rest;
        trace := tr ++ [Sent "/crm/v3/owners"; Sent "/owners/v2/owners"] |}).
Proof.
  intros H1 H2. unfold ProductReport.get_owners_map.
  change (e1 :: e2 :: rest) with ([e1; e2] ++ rest).
  assert (He : Forall (fun e => other_error (status_code e)) [e1; e2])
    by (constructor; [exact H1|constructor; [exact H2|constructor]]).
  rewrite (try_candidates_all_fail [e1; e2] He) by reflexivity.
  reflexivity.
Qed.

Lemma get_owners_map_reports_last_error_witness :
  (ProductReport.get_owners_map (fun _ => "")
     (fun e => match e with Some (HTTPError s) => pretty s | _ => "" end)
     {| script := [ {| status_code := 401; body := None |};
                    {| status_code := 404; body := None |} ];
        trace := [] |}).1
  = Raise (RuntimeError "Nepodařilo se stáhnout owners. Poslední chyba: 404").
Proof.
  exact (f_equal fst
           (get_owners_map_reports_last_error (fun _ => "")
              (fun e => match e with Some (HTTPError s) => pretty s | _ => "" end)
              {| status_code := 401; body := None |}
              {| status_code := 404; body := None |} [] []
              ltac:(unfold other_error; simpl; lia)
              ltac:(unfold other_error; simpl; lia))).
Defined.


(** ** Batches of associations *)

Section AssociationBatches.
Import ProductReport.
Variable py_repr : pyval -> string.
Variable exn_text : option exn -> string.

Lemma read_association_batches_ok (batches : list (list string)) :
  forall (rs : list (response (list assoc_rec))) result0 rest tr,
  length rs = length batches ->
  Forall (fun r => success_status (status_code r)) rs ->
  read_association_batches py_repr exn_text batches result0
    {| script := rs ++ rest; trace := tr |}
  = (Ok (foldl (fun acc r => resolve_batch py_repr (default [] (body r)) acc)
           result0 rs),
     {| script := rest;
        trace := tr ++ map (fun b => Sent (association_request b)) batches |}).
Proof.
  induction batches as [|b batches IH]; intros rs result0 rest tr Hl Hs.
  - destruct rs; [|discriminate]. simpl. rewrite app_nil_r. reflexivity.
  - destruct rs as [|r rs]; [discriminate|].
    apply Forall_cons in Hs as [Hr Hs].
    cbn [read_association_batches app].
    pose proof (try_candidates_success [] r (List.Forall_nil _) Hr
                  (map (fun path =>
                          {| post_path := path;
                             post_inputs :=
                               map (fun did => py_str py_repr (PStr did)) b |})
                     ASSOCIATION_PATHS)
                  None (rs ++ rest) tr ltac:(simpl; lia)) as E.
    cbn [app] in E. rewrite E. clear E.
    cbn [length take map ASSOCIATION_PATHS].
    rewrite IH by (assumption || (simpl in Hl; lia)).
    cbn [foldl]. f_equal. f_equal. rewrite <- app_assoc. f_equal.
    cbn [app map]. f_equal. unfold association_request. repeat f_equal.
    clear. induction b as [|x b IHb]; [reflexivity|].
    cbn [map]. f_equal. exact IHb.
Qed.

End AssociationBatches.

(** X5.  When every batch is answered at once,
    [batch_read_deal_company_primary] sends one request per slice of at
    most 1000 deal ids, always on the first candidate path; the slices
    joined in order are the deal ids, so that every id is sent exactly
    once; and the result folds the answers in order. *)
Theorem association_batches_cover_all_deals
    (py_repr : pyval -> string) (exn_text : option exn -> string)
    (deal_ids : list string) (batches : list (list string))
    (rs rest : list (response (list ProductReport.assoc_rec)))
    (tr : list (event ProductReport.batch_post)) :
  deal_ids <> [] ->
  ProductReport.chunked deal_ids 1000 = Ok batches ->
  length rs = length batches ->
  Forall (fun r => success_status (status_code r)) rs ->
  ProductReport.batch_read_deal_company_primary py_repr exn_text deal_ids
    {| script := rs ++ rest; trace := tr |}
  = (Ok (foldl (fun acc r =>
                  ProductReport.resolve_batch py_repr (default [] (body r)) acc)
           ∅ rs),
     {| script := rest;
        trace := tr ++ map (fun b => Sent (association_request b)) batches |})
  /\ concat batches = deal_ids
  /\ Forall (fun b => (0 < length b <= 1000)%nat) batches.
Proof.
  intros Hne Hc Hl Hs. split.
  - unfold ProductReport.batch_read_deal_company_primary.
    destruct deal_ids as [|d ds]; [congruence|].
    rewrite Hc. apply read_association_batches_ok; assumption.
  - apply chunked_spec. exact Hc.
Qed.

Lemma association_batches_cover_all_deals_witness :
  let ok recs : response (list ProductReport.assoc_rec) :=
    {| status_code := 200; body := Some recs |} in
  ProductReport.batch_read_deal_company_primary (fun _ => "") (fun _ => "")
    ["11"; "12"] {| script := [ok []] ++ []; trace := [] |}
  = (Ok (foldl (fun acc r =>
                  ProductReport.resolve_batch (fun _ => "") (default [] (body r)) acc)
           ∅ [ok []]),
     {| script := [];
        trace := [] ++ map (fun b => Sent (association_request b)) [["11"; "12"]] |})
  /\ concat [["11"; "12"]] = ["11"; "12"]
  /\ Forall (fun b => (0 < length b <= 1000)%nat) [["11"; "12"]].
Proof.
  intros ok.
  apply (association_batches_cover_all_deals (fun _ => "") (fun _ => "")
           ["11"; "12"] [["11"; "12"]] [ok []] [] []).
  - discriminate.
  - vm_compute. reflexivity.
  - reflexivity.
  - repeat constructor. unfold success_status. simpl. lia.
Defined.


(** ** The owners map *)

Section OwnersMap.
Import ProductReport.
Variable py_repr : pyval -> string.

Lemma or_else_nonempty a b : b <> "" -> PyString.or_else a b <> "".
Proof.
  intros Hb. unfold PyString.or_else.
  destruct a; simpl; [exact Hb|discriminate].
Qed.

Lemma owner_entry_named o oid info :
  owner_entry py_repr o = Ok (Some (oid, info)) ->
  oid <> "" /\ owner_name info <> "".
Proof.
  unfold owner_entry.
  destruct (py_str py_repr (py_or (prop_get o "id") (PStr ""))) as [|c s] eqn:E;
    [discriminate|].
  cbn [PyString.nonempty negb].
  destruct (stripped_or_empty (prop_get o "firstName")); [|discriminate].
  destruct (stripped_or_empty (prop_get o "lastName")); [|discriminate].
  destruct (stripped_or_empty (prop_get o "email")); [|discriminate].
  simpl. intros [= <- <-]. split; [discriminate|].
  cbn [owner_name]. apply or_else_nonempty, or_else_nonempty. discriminate.
Qed.

Lemma get_owners_map_loop_named results :
  forall owners owners',
  (forall oid info, owners !! oid = Some info -> oid <> "" /\ owner_name info <> "") ->
  get_owners_map_loop py_repr results owners = Ok owners' ->
  forall oid info, owners' !! oid = Some info -> oid <> "" /\ owner_name info <> "".
Proof.
  induction results as [|o results IH]; intros owners owners' Hinv H.
  - injection H as <-. exact Hinv.
  - cbn [get_owners_map_loop] in H.
    destruct (owner_entry py_repr o) as [[[oid info]|]|] eqn:E; simpl in H;
      [| |discriminate].
    + refine (IH _ _ _ H). intros k v Hk.
      destruct (decide (oid = k)) as [->|Hne].
      * rewrite lookup_insert_eq in Hk. injection Hk as <-.
        apply (owner_entry_named _ _ _ E).
      * rewrite lookup_insert_ne in Hk by exact Hne. apply (Hinv _ _ Hk).
    + apply (IH _ _ Hinv H).
Qed.

End OwnersMap.

(** X6.  Every owner in the map that [get_owners_map] returns has an
    id and a name that are not empty. *)
Theorem get_owners_map_names
    (py_repr : pyval -> string) (exn_text : option exn -> string)
    (w : world string (list (gmap string pyval)))
    (owners : gmap string ProductReport.owner_info) :
  (ProductReport.get_owners_map py_repr exn_text w).1 = Ok owners ->
  forall oid info, owners !! oid = Some info ->
    oid <> "" /\ ProductReport.owner_name info <> "".
Proof.
  unfold ProductReport.get_owners_map.
  destruct (ProductReport.try_candidates ProductReport.OWNER_PATHS None w)
    as [[[data|] last_err] w1]; cbn [fst]; [|discriminate].
  apply get_owners_map_loop_named. intros oid info Hl.
  rewrite lookup_empty in Hl. discriminate.
Qed.

Lemma get_owners_map_names_witness :
  let w : world string (list (gmap string pyval)) :=
    {| script := [ {| status_code := 200;
                      body := Some [ {[ "id" := PInt 7; "firstName" := PStr " " ]};
                                     {[ "email" := PStr "x@y.z" ]} ] |} ];
       trace := [] |} in
  exists owners,
    (ProductReport.get_owners_map (fun _ => "") (fun _ => "") w).1 = Ok owners
    /\ forall oid info, owners !! oid = Some info ->
         oid <> "" /\ ProductReport.owner_name info <> "".
Proof.
  intros w. eexists. split; [vm_compute; reflexivity|].
  apply (get_owners_map_names (fun _ => "") (fun _ => "") w).
  vm_compute. reflexivity.
Defined.

(** ** Multiple-choice values *)

Section Strip.

Lemma lstrip_chars_fix l :
  match l with c :: _ => PyString.isspace c = false | [] => True end ->
  PyString.lstrip_chars l = l.
Proof. destruct l as [|c l]; [reflexivity|]. simpl. intros ->. reflexivity. Qed.

Lemma lstrip_chars_suffix l :
  exists pre, l = pre ++ PyString.lstrip_chars l.
Proof.
  induction l as [|c l [pre IH]]; [exists []; reflexivity|].
  simpl. destruct (PyString.isspace c).
  - exists (c :: pre). simpl. f_equal. exact IH.
  - exists []. reflexivity.
Qed.

Lemma lstrip_chars_head l :
  match PyString.lstrip_chars l with
  | c :: _ => PyString.isspace c = false
  | [] => True
  end.
Proof.
  induction l as [|c l IH]; [exact I|].
  simpl. destruct (PyString.isspace c) eqn:E; [exact IH|exact E].
Qed.

Lemma strip_chars_fix l :
  let r := rev (PyString.lstrip_chars (rev (PyString.lstrip_chars l))) in
  rev (PyString.lstrip_chars (rev (PyString.lstrip_chars r))) = r.
Proof.
  intros r.
  assert (H1 : PyString.lstrip_chars r = r).
  { apply lstrip_chars_fix. subst r.
    pose proof (lstrip_chars_head l) as Hm.
    destruct (lstrip_chars_suffix (rev (PyString.lstrip_chars l))) as [pre E].
    destruct (PyString.lstrip_chars (rev (PyString.lstrip_chars l))) as [|k ks] eqn:Ek;
      [exact I|].
    apply (f_equal (@rev ascii)) in E. rewrite rev_involutive, rev_app_distr in E.
    rewrite E in Hm.
    destruct (rev (k :: ks)) as [|x xs] eqn:Er.
    { apply (f_equal length) in Er. rewrite length_rev in Er. discriminate. }
    exact Hm. }
  rewrite H1. subst r. rewrite rev_involutive.
  rewrite (lstrip_chars_fix _ (lstrip_chars_head _)). reflexivity.
Qed.

Lemma strip_idempotent s : PyString.strip (PyString.strip s) = PyString.strip s.
Proof.
  unfold PyString.strip. rewrite chars_of_chars. f_equal. apply strip_chars_fix.
Qed.

Lemma elem_of_rev {A} (x : A) l : x ∈ rev l <-> x ∈ l.
Proof. rewrite !list_elem_of_In. symmetry. apply in_rev. Qed.

Lemma strip_chars_subset s c :
  c ∈ PyString.chars (PyString.strip s) -> c ∈ PyString.chars s.
Proof.
  unfold PyString.strip. rewrite chars_of_chars, elem_of_rev. intros H.
  destruct (lstrip_chars_suffix (PyString.chars s)) as [p1 E1].
  destruct (lstrip_chars_suffix (rev (PyString.lstrip_chars (PyString.chars s))))
    as [p2 E2].
  rewrite E1. apply elem_of_app. right.
  apply elem_of_rev. rewrite E2. apply elem_of_app. right. exact H.
Qed.

Lemma split_chars_no_sep sep l :
  forall cur p, sep ∉ cur -> p ∈ PyString.split_chars sep cur l ->
  sep ∉ PyString.chars p.
Proof.
  induction l as [|c l IH]; intros cur p Hc Hp.
  - simpl in Hp. apply list_elem_of_singleton in Hp. subst p.
    rewrite chars_of_chars, elem_of_rev. exact Hc.
  - simpl in Hp. destruct (Ascii.eqb_spec c sep) as [->|Hne].
    + apply elem_of_cons in Hp as [->|Hp].
      * rewrite chars_of_chars, elem_of_rev. exact Hc.
      * apply (IH [] p); [apply not_elem_of_nil|exact Hp].
    + apply (IH (c :: cur) p); [|exact Hp].
      rewrite elem_of_cons. intros [->|H]; [congruence|contradiction].
Qed.

End Strip.

(** X7.  Every value that [split_multicheckbox] returns is not
    empty, has no white space around it and holds no semicolon. *)
Theorem split_multicheckbox_values_are_clean (value : pyval) (parts : list string) :
  ProductReport.split_multicheckbox value = Ok parts ->
  Forall (fun p => p <> "" /\ PyString.strip p = p
                   /\ ";"%char ∉ PyString.chars p) parts.
Proof.
  unfold ProductReport.split_multicheckbox.
  destruct (truthy value); cbn [negb].
  2:{ intros [= <-]. constructor. }
  destruct value as [| | | |v| |]; try discriminate.
  intros [= <-]. apply Forall_forall. intros p Hp.
  apply list_elem_of_filter in Hp as [Hn Hp].
  apply list_elem_of_fmap in Hp as (q & -> & Hq).
  split; [|split].
  - intros E. rewrite E in Hn. discriminate.
  - apply strip_idempotent.
  - intros Hs. apply strip_chars_subset in Hs.
    revert Hs. apply (split_chars_no_sep ";" (PyString.chars v) []);
      [apply not_elem_of_nil|exact Hq].
Qed.

Lemma split_multicheckbox_values_are_clean_witness :
  Forall (fun p => p <> "" /\ PyString.strip p = p
                   /\ ";"%char ∉ PyString.chars p) ["Tapix"; "Eco Track"].
Proof.
  apply (split_multicheckbox_values_are_clean (PStr " Tapix;; Eco Track ;  ")).
  vm_compute. reflexivity.
Defined.

(** ** The product property *)

Section ProductProperty.
Import ProductReport.

Lemma stripped_or_empty_field (o : gmap string pyval) key :
  text_field o key ->
  stripped_or_empty (prop_get o key) = Ok (PyString.strip (field_text o key)).
Proof.
  unfold text_field, field_text, prop_get.
  intros [H|[H|(s & H)]]; rewrite H; cbn [default from_option id]; try reflexivity.
  unfold stripped_or_empty. cbn [truthy].
  destruct s; reflexivity.
Qed.

Lemma find_property_first_match label pre p post name :
  Forall (fun q => text_field q "label"
                   /\ ~ same_label (field_text q "label") label) pre ->
  text_field p "label" -> same_label (field_text p "label") label ->
  p !! "name" = Some name ->
  find_property (pre ++ p :: post) label = Ok name.
Proof.
  intros Hpre Ht Hs Hn. induction Hpre as [|q pre [Hq1 Hq2] _ IH].
  - cbn [app find_property]. rewrite (stripped_or_empty_field _ _ Ht).
    cbn [mbind result_bind]. unfold same_label in Hs. rewrite Hs.
    rewrite String.eqb_refl, Hn. reflexivity.
  - cbn [app find_property]. rewrite (stripped_or_empty_field _ _ Hq1).
    cbn [mbind result_bind].
    destruct (String.eqb_spec (PyString.lower (PyString.strip (field_text q "label")))
                (PyString.lower (PyString.strip label))) as [E|_];
      [contradiction|exact IH].
Qed.

End ProductProperty.

(** X8.  Without an explicit name, [find_product_property_name]
    sends one request and returns the name of the first property whose
    label equals the label asked for up to surrounding white space and
    letter case; properties before it with another label, or without a
    label, are passed over. *)
Theorem find_product_property_name_by_label
    (label : string) (explicit_name : option string)
    (pre post : list (gmap string pyval)) (p : gmap string pyval) (name : pyval)
    (r : response (list (gmap string pyval)))
    (rest : list (response (list (gmap string pyval))))
    (tr : list (event string)) :
  explicit_name = None \/ explicit_name = Some "" ->
  success_status (status_code r) ->
  body r = Some (pre ++ p :: post) ->
  Forall (fun q => text_field q "label"
                   /\ ~ same_label (field_text q "label") label) pre ->
  text_field p "label" -> same_label (field_text p "label") label ->
  p !! "name" = Some name ->
  ProductReport.find_product_property_name label explicit_name
    {| script := r :: rest; trace := tr |}
  = (Ok name,
     {| script := rest; trace := tr ++ [Sent "/crm/v3/properties/deals"] |}).
Proof.
  intros He Hr Hb Hpre Ht Hs Hn. unfold ProductReport.find_product_property_name.
  replace (from_option PyString.nonempty false explicit_name) with false
    by (destruct He as [->| ->]; reflexivity).
  rewrite hubspot_request_success by exact Hr. rewrite Hb. cbn [default from_option id].
  rewrite (find_property_first_match label pre p post name) by assumption.
  reflexivity.
Qed.

Lemma find_product_property_name_by_label_witness :
  let stage : gmap string pyval :=
    {[ "label" := PStr "Deal Stage"; "name" := PStr "dealstage" ]} in
  let unnamed : gmap string pyval := {[ "name" := PStr "x" ]} in
  let product : gmap string pyval :=
    {[ "label" := PStr " PRODUCT "; "name" := PStr "product__c" ]} in
  ProductReport.find_product_property_name "Product" None
    {| script := [ {| status_code := 200;
                      body := Some ([stage; unnamed] ++ product :: []) |} ];
       trace := [] |}
  = (Ok (PStr "product__c"),
     {| script := []; trace := [] ++ [Sent "/crm/v3/properties/deals"] |}).
Proof.
  intros stage unnamed product.
  apply (find_product_property_name_by_label "Product" None [stage; unnamed] []
           product (PStr "product__c")).
  - left. reflexivity.
  - unfold success_status. simpl. lia.
  - reflexivity.
  - constructor; [|constructor; [|constructor]].
    + split; [right; right; exists "Deal Stage"; reflexivity|].
      vm_compute. discriminate.
    + split; [left; reflexivity|]. vm_compute. discriminate.
  - right. right. exists " PRODUCT ". reflexivity.
  - vm_compute. reflexivity.
  - reflexivity.
Defined.

(** ** Bounds of the retry loop *)


(** X9.  [hubspot_request] is bounded, whatever the transport answers:
    it only adds to the trace, it sends the same request at most [retries]
    times, it takes at most one response per request sent, and every sleep
    lasts between 1 and 20 seconds. *)
Theorem hubspot_request_is_bounded {R B : Type}
    (req : R) (retries : nat) (w : world R B) :
  exists tr' used n,
    trace (ProductReport.hubspot_request req retries w).2 = trace w ++ tr'
    /\ script w = used ++ script (ProductReport.hubspot_request req retries w).2
    /\ (length used <= n <= retries)%nat
    /\ sent tr' = replicate n req
    /\ Forall (fun s => 1 <= s <= 20) (sleeps tr').
Proof. apply hubspot_request_loop_bounded. lia. Qed.

(** ** Cursors of the paginated fetches *)

Section Cursors.

Lemma list_all_deals_loop_cursors (l : list (page deal)) :
  chained l ->
  forall fuel deals after tr,
  (length l <= fuel)%nat ->
  ProductReport.list_all_deals_loop fuel deals after
    {| script := map ok200 l; trace := tr |}
  = (Some (Ok (deals ++ all_results l)),
     {| script := [];
        trace := tr ++ map Sent
                   (take (length l)
                      (after :: map (fun p => Some (next_after p)) l)) |}).
Proof.
  induction l as [|p l IH]; [intros []|].
  intros Hc fuel deals after tr Hf.
  destruct fuel as [|fuel]; [simpl in Hf; lia|].
  cbn [ProductReport.list_all_deals_loop]. rewrite map_cons.
  rewrite hubspot_request_ok by reflexivity.
  cbn [body ok200 from_option].
  destruct l as [|q l].
  - simpl in Hc. rewrite Hc. unfold all_results. simpl. rewrite app_nil_r.
    reflexivity.
  - destruct Hc as [Hp Hc]. rewrite Hp.
    refine (eq_trans (IH Hc fuel (deals ++ results p) (Some (next_after p))
                        (tr ++ [Sent after]) ltac:(simpl in *; lia)) _).
    unfold all_results. simpl. rewrite <- !app_assoc. reflexivity.
Qed.

Lemma fetch_deals_loop_cursors (l : list (page deal)) :
  chained l ->
  forall tr rbody all pages after attempt,
  OwnerStageReport.fetch_deals_loop (map ok200 l) tr rbody all pages after attempt
  = (Ok (all ++ all_results l),
     {| script := [];
        trace := tr ++ map Sent
                   (take (length l)
                      ((if truthy after then Some after else rbody)
                         :: map (fun p => Some (next_after p)) l)) |}).
Proof.
  induction l as [|p l IH]; [intros []|].
  intros Hc tr rbody all pages after attempt.
  destruct l as [|q l].
  - simpl in Hc. rewrite map_cons, fetch_deals_loop_last by exact Hc.
    unfold all_results. simpl. rewrite app_nil_r. reflexivity.
  - destruct Hc as [Hp Hc].
    rewrite map_cons, fetch_deals_loop_page by exact Hp.
    rewrite (IH Hc). rewrite Hp.
    unfold all_results. simpl. rewrite <- !app_assoc. reflexivity.
Qed.

Variable py_repr : pyval -> string.

Lemma add_owners_app l1 l2 m :
  OwnerStageReport.add_owners py_repr (l1 ++ l2) m
  = OwnerStageReport.add_owners py_repr l2 (OwnerStageReport.add_owners py_repr l1 m).
Proof. unfold OwnerStageReport.add_owners. apply foldl_app. Qed.

Lemma get_all_owners_loop_page p rest tr params owners attempt :
  truthy (next_after p) = true ->
  OwnerStageReport.get_all_owners_loop py_repr (ok200 p :: rest) tr params owners
    attempt
  = OwnerStageReport.get_all_owners_loop py_repr rest (tr ++ [Sent params])
      (Some (next_after p))
      (OwnerStageReport.add_owners py_repr (results p) owners) attempt.
Proof. intros H. simpl. rewrite H. reflexivity. Qed.

Lemma get_all_owners_loop_last p rest tr params owners attempt :
  truthy (next_after p) = false ->
  OwnerStageReport.get_all_owners_loop py_repr (ok200 p :: rest) tr params owners
    attempt
  = (Ok (OwnerStageReport.add_owners py_repr (results p) owners),
     {| script := rest; trace := tr ++ [Sent params] |}).
Proof. intros H. simpl. rewrite H. reflexivity. Qed.

Lemma get_all_owners_loop_cursors (l : list (page (gmap string pyval))) :
  chained l ->
  forall tr params owners attempt,
  OwnerStageReport.get_all_owners_loop py_repr (map ok200 l) tr params owners attempt
  = (Ok (OwnerStageReport.add_owners py_repr (all_results l) owners),
     {| script := [];
        trace := tr ++ map Sent
                   (take (length l)
                      (params :: map (fun p => Some (next_after p)) l)) |}).
Proof.
  induction l as [|p l IH]; [intros []|].
  intros Hc tr params owners attempt.
  destruct l as [|q l].
  - simpl in Hc. rewrite map_cons, get_all_owners_loop_last by exact Hc.
    unfold all_results. simpl. rewrite app_nil_r. reflexivity.
  - destruct Hc as [Hp Hc].
    rewrite map_cons, get_all_owners_loop_page by exact Hp.
    rewrite (IH Hc).
    unfold all_results. cbn [map concat]. rewrite !add_owners_app, <- !app_assoc.
    reflexivity.
Qed.

End Cursors.

(** X10.  On a chain of successful pages [list_all_deals] sends one
    request per page, the first without a cursor and each next one with
    the cursor that the page before named, and returns the deals of all
    pages in order. *)
Theorem list_all_deals_follows_cursors (pages : list (page deal)) :
  chained pages ->
  ProductReport.list_all_deals {| script := map ok200 pages; trace := [] |}
  = (Some (Ok (all_results pages)),
     {| script := []; trace := map Sent (cursors pages) |}).
Proof.
  intros Hc. unfold ProductReport.list_all_deals. cbn [script].
  rewrite list_all_deals_loop_cursors; [reflexivity|exact Hc|].
  rewrite length_map. lia.
Qed.

Lemma list_all_deals_follows_cursors_witness :
  let d id := {| deal_id_raw := PStr id; properties := ∅ |} in
  let p1 := {| results := [d "1"; d "2"]; next_after := PStr "2" |} in
  let p2 := {| results := [d "3"]; next_after := PNone |} in
  ProductReport.list_all_deals {| script := map ok200 [p1; p2]; trace := [] |}
  = (Some (Ok (all_results [p1; p2])),
     {| script := []; trace := map Sent (cursors [p1; p2]) |}).
Proof.
  intros d p1 p2. apply (list_all_deals_follows_cursors [p1; p2]).
  simpl. split; reflexivity.
Defined.

(** X11.  On a chain of successful pages [fetch_deals] sends one
    search per page, the first without [after] and each next one with the
    cursor that the page before named, and returns the deals of all pages
    in order. *)
Theorem fetch_deals_follows_cursors (pages : list (page deal)) :
  chained pages ->
  OwnerStageReport.fetch_deals {| script := map ok200 pages; trace := [] |}
  = (Ok (all_results pages),
     {| script := []; trace := map Sent (cursors pages) |}).
Proof.
  intros Hc. unfold OwnerStageReport.fetch_deals. cbn [script trace].
  rewrite fetch_deals_loop_cursors by exact Hc. reflexivity.
Qed.

Lemma fetch_deals_follows_cursors_witness :
  let d id := {| deal_id_raw := PStr id; properties := ∅ |} in
  let p1 := {| results := [d "1"; d "2"]; next_after := PInt 100 |} in
  let p2 := {| results := [d "3"]; next_after := PStr "200" |} in
  let p3 := {| results := []; next_after := PStr "" |} in
  OwnerStageReport.fetch_deals {| script := map ok200 [p1; p2; p3]; trace := [] |}
  = (Ok (all_results [p1; p2; p3]),
     {| script := []; trace := map Sent (cursors [p1; p2; p3]) |}).
Proof.
  intros d p1 p2 p3. apply (fetch_deals_follows_cursors [p1; p2; p3]).
  simpl. repeat split; reflexivity.
Defined.

(** X12.  On a chain of successful pages [get_all_owners] sends one
    request per page, following the cursors, and returns the owners of
    all pages, a later record of an id replacing an earlier one. *)
Theorem get_all_owners_collects_all_pages
    (py_repr : pyval -> string) (pages : list (page (gmap string pyval))) :
  chained pages ->
  OwnerStageReport.get_all_owners py_repr
    {| script := map ok200 pages; trace := [] |}
  = (Ok (OwnerStageReport.add_owners py_repr (all_results pages) ∅),
     {| script := []; trace := map Sent (cursors pages) |}).
Proof.
  intros Hc. unfold OwnerStageReport.get_all_owners. cbn [script trace].
  rewrite get_all_owners_loop_cursors by exact Hc. reflexivity.
Qed.

Lemma get_all_owners_collects_all_pages_witness :
  let o id : gmap string pyval := {[ "id" := PStr id; "firstName" := PStr "Ann" ]} in
  let p1 := {| results := [o "1"]; next_after := PStr "1" |} in
  let p2 := {| results := [o "2"]; next_after := PNone |} in
  OwnerStageReport.get_all_owners (fun _ => "")
    {| script := map ok200 [p1; p2]; trace := [] |}
  = (Ok (OwnerStageReport.add_owners (fun _ => "") (all_results [p1; p2]) ∅),
     {| script := []; trace := map Sent (cursors [p1; p2]) |}).
Proof.
  intros o p1 p2. apply (get_all_owners_collects_all_pages (fun _ => "") [p1; p2]).
  simpl. split; reflexivity.
Defined.

(** ** The backoff of the owners fetch *)

Section OwnersBackoff.
Import OwnerStageReport.
Variable py_repr : pyval -> string.

Lemma get_all_owners_loop_sleeps rs :
  forall tr params owners attempt,
  exists n,
    sleeps (trace (get_all_owners_loop py_repr rs tr params owners attempt).2)
    = sleeps tr
      ++ map (fun k => Z.min (2 ^ (attempt + Z.of_nat k)) 32) (seq 1 n).
Proof.
  induction rs as [|resp rest IH]; intros tr params owners attempt.
  - exists 0%nat. cbn [get_all_owners_loop snd trace].
    rewrite sleeps_app. reflexivity.
  - cbn [get_all_owners_loop].
    destruct (retried_status (status_code resp)).
    + destruct (IH ((tr ++ [Sent params]) ++ [backoff_sleep (attempt + 1)])
                  params owners (attempt + 1)) as [n E].
      exists (S n). rewrite E. rewrite !sleeps_app. cbn [sleeps omap backoff_sleep].
      rewrite app_nil_r, <- app_assoc. f_equal.
      cbn [seq map app]. f_equal.
      rewrite <- (seq_shift n 1), map_map.
      apply map_ext. intros k. f_equal. f_equal. lia.
    + destruct (raise_for_status resp).
      2:{ exists 0%nat. cbn [snd trace]. rewrite sleeps_app. reflexivity. }
      destruct (body resp) as [data|].
      2:{ exists 0%nat. cbn [snd trace]. rewrite sleeps_app. reflexivity. }
      destruct (truthy (next_after data)).
      * destruct (IH (tr ++ [Sent params]) (Some (next_after data))
                    (add_owners py_repr (results data) owners) attempt) as [n E].
        exists n. rewrite E, sleeps_app. cbn. rewrite app_nil_r. reflexivity.
      * exists 0%nat. cbn [snd trace]. rewrite sleeps_app. reflexivity.
Qed.

End OwnersBackoff.

(** X13.  The backoff of [get_all_owners] never starts again:
    whatever the answers, pages that succeeded in between included, the
    k-th sleep of a run lasts [min(2 ** k, 32)] seconds. *)
Theorem get_all_owners_backoff_never_restarts
    (py_repr : pyval -> string)
    (rs : list (response (page (gmap string pyval)))) :
  exists n,
    sleeps (trace (OwnerStageReport.get_all_owners py_repr
                     {| script := rs; trace := [] |}).2)
    = map (fun k => Z.min (2 ^ Z.of_nat k) 32) (seq 1 n).
Proof.
  unfold OwnerStageReport.get_all_owners. cbn [script trace].
  destruct (get_all_owners_loop_sleeps py_repr rs [] None ∅ 0) as [n E].
  exists n. rewrite E. reflexivity.
Qed.

(** After a page that succeeded, [get_all_owners] goes on from the sleep
    it had reached, where [fetch_deals] starts again at two seconds. *)
Example backoff_after_a_page :
  let throttled {A} : response (page A) := {| status_code := 429; body := None |} in
  let p {A} cursor : page A := {| results := []; next_after := cursor |} in
  sleeps (trace (OwnerStageReport.get_all_owners (fun _ => "")
                   {| script := [throttled; ok200 (p (PStr "1")); throttled;
                                 ok200 (p PNone)];
                      trace := [] |}).2) = [2; 4]
  /\ sleeps (trace (OwnerStageReport.fetch_deals
                      {| script := [throttled; ok200 (p (PStr "1")); throttled;
                                    ok200 (p PNone)];
                         trace := [] |}).2) = [2; 2].
Proof. split; reflexivity. Qed.

(** ** The rows of a snapshot, one by one *)

Section BuildRowsShape.
Import ProductReport.
Variable py_repr : pyval -> string.

Lemma read_deal_inv env week d f labels :
  read_deal py_repr env week d = Ok (f, labels) ->
  f_deal_id f = py_str py_repr (deal_id_raw d)
  /\ (exists vals,
        split_multicheckbox (prop_get (properties d) (product_property_name env))
        = Ok vals
        /\ labels = map (fun v => default (PStr v) (opt_map env !! v)) vals)
  /\ forall sp,
       length (f_row f sp) = length SHEET_HEADERS
       /\ f_row f sp !! 0%nat = Some (PStr week)
       /\ f_row f sp !! 1%nat = Some (PStr (py_str py_repr (deal_id_raw d)))
       /\ f_row f sp !! 5%nat = Some (PStr sp).
Proof.
  unfold read_deal. intros H.
  destruct (dict_get (pipeline_label env) _) as [pl|]; [|discriminate].
  destruct (dict_get (stage_label env) _) as [sl|]; [|discriminate].
  destruct (split_multicheckbox _) as [pv|] eqn:E; [|discriminate].
  simpl in H. injection H as <- <-. split; [reflexivity|]. split.
  - exists pv. split; reflexivity.
  - intros sp. repeat split.
Qed.

Lemma add_products_all_rows (P : string -> list pyval -> Prop) want f labels :
  (forall sp, P sp (f_row f sp)) ->
  forall st st',
  all_rows P (rows_by_product st) ->
  add_products want f labels st = Ok st' ->
  all_rows P (rows_by_product st').
Proof.
  intros Hf. induction labels as [|pl labels IH]; intros st st' Hok H.
  - simpl in H. injection H as <-. exact Hok.
  - cbn [add_products] in H.
    destruct (stripped_or_empty pl) as [t|]; [|discriminate]. simpl in H.
    destruct (want !! PyString.lower t) as [sp|]; [|apply (IH _ _ Hok H)].
    destruct (bool_decide ((sp, f_deal_id f) ∈ seen st)); [apply (IH _ _ Hok H)|].
    refine (IH _ _ _ H). intros p rows' Hin. cbn [rows_by_product] in Hin.
    apply elem_of_append_row in Hin as [[Hne Hin]|[-> (rows & -> & Hin)]].
    + apply (Hok p rows' Hin).
    + apply Forall_app. split; [apply (Hok sp rows Hin)|].
      constructor; [apply Hf|constructor].
Qed.

Lemma build_rows_loop_all_rows (P : string -> list pyval -> Prop) env week want
    deals :
  (forall d f labels sp, d ∈ deals ->
     read_deal py_repr env week d = Ok (f, labels) -> P sp (f_row f sp)) ->
  forall st st',
  all_rows P (rows_by_product st) ->
  build_rows_loop py_repr env week want deals st = Ok st' ->
  all_rows P (rows_by_product st').
Proof.
  induction deals as [|d deals IH]; intros Hd st st' Hok H.
  - simpl in H. injection H as <-. exact Hok.
  - cbn [build_rows_loop] in H.
    destruct (read_deal py_repr env week d) as [[f labels]|] eqn:Er; [|discriminate].
    simpl in H.
    destruct (add_products want f labels st) as [st1|] eqn:Ea; [|discriminate].
    simpl in H. refine (IH _ _ _ _ H).
    + intros d' f' labels' sp Hin. apply Hd. right. exact Hin.
    + refine (add_products_all_rows P want f labels _ _ _ Hok Ea).
      intros sp. apply (Hd d f labels sp); [left|exact Er].
Qed.

End BuildRowsShape.

(** X14.  Every row that [build_rows] returns has one cell per sheet
    header, starts with the snapshot week, holds in its [product_option]
    cell the product it is listed under, which is a product of interest,
    and in its [deal_id] cell the id of one of the deals given. *)
Theorem build_rows_rows_are_well_formed
    (py_repr : pyval -> string) (deals : list deal) (week : string)
    (env : ProductReport.lookups) (products : list string)
    (rbp : ProductReport.rows_by_product_t) :
  ProductReport.build_rows py_repr deals week env products = Ok rbp ->
  forall p rows r, (p, rows) ∈ rbp -> r ∈ rows ->
    p ∈ products
    /\ length r = length ProductReport.SHEET_HEADERS
    /\ r !! 0%nat = Some (PStr week)
    /\ r !! 5%nat = Some (PStr p)
    /\ exists d, d ∈ deals
                 /\ r !! 1%nat = Some (PStr (py_str py_repr (deal_id_raw d))).
Proof.
  intros H p rows r Hin Hr.
  destruct (build_rows_spec py_repr deals week env products rbp H) as (_ & Hk & _).
  split.
  { apply Hk. apply list_elem_of_fmap. exists (p, rows). split; [reflexivity|exact Hin]. }
  unfold ProductReport.build_rows in H.
  destruct (ProductReport.build_rows_loop _ _ _ _ _ _) as [st|] eqn:E; [|discriminate].
  simpl in H. injection H as <-.
  assert (L : all_rows
                (fun p r =>
                   length r = length ProductReport.SHEET_HEADERS
                   /\ r !! 0%nat = Some (PStr week)
                   /\ r !! 5%nat = Some (PStr p)
                   /\ exists d, d ∈ deals
                        /\ r !! 1%nat = Some (PStr (py_str py_repr (deal_id_raw d))))
                (ProductReport.rows_by_product st)).
  { refine (build_rows_loop_all_rows py_repr _ env week
              (ProductReport.want_map products) deals _ _ _ _ E).
    - intros d f labels sp Hd Hrd.
      destruct (read_deal_inv py_repr env week d f labels Hrd) as (_ & _ & Hrow).
      destruct (Hrow sp) as (H1 & H2 & H3 & H4).
      repeat split; try assumption. exists d. split; assumption.
    - intros q rows' Hq. cbn [ProductReport.rows_by_product] in Hq.
      destruct (empty_rows_spec products) as (_ & _ & He).
      rewrite (He q rows' Hq). constructor. }
  specialize (L p rows Hin). rewrite Forall_forall in L. apply (L r Hr).
Qed.

Lemma build_rows_rows_are_well_formed_witness :
  let env :=
    {| ProductReport.product_property_name := "product";
       ProductReport.opt_map := {[ "tx" := PStr "Tapix" ]};
       ProductReport.pipeline_label := ∅; ProductReport.stage_label := ∅;
       ProductReport.deal_to_company_id := ∅;
       ProductReport.company_id_to_name := ∅;
       ProductReport.owners_map := ∅ |} in
  let d id prod := {| deal_id_raw := PInt id;
                      properties := {[ "product" := PStr prod ]} |} in
  exists rbp,
    ProductReport.build_rows (fun _ => "") [d 1 "tx; ecotrack"; d 2 "other"]
      "2026-11-02" env ["Tapix"; "EcoTrack"] = Ok rbp
    /\ forall p rows r, (p, rows) ∈ rbp -> r ∈ rows ->
         p ∈ ["Tapix"; "EcoTrack"]
         /\ length r = length ProductReport.SHEET_HEADERS
         /\ r !! 0%nat = Some (PStr "2026-11-02")
         /\ r !! 5%nat = Some (PStr p)
         /\ exists d', d' ∈ [d 1 "tx; ecotrack"; d 2 "other"]
                       /\ r !! 1%nat = Some (PStr (py_str (fun _ => "") (deal_id_raw d'))).
Proof.
  intros env d. eexists. split; [vm_compute; reflexivity|].
  apply (build_rows_rows_are_well_formed (fun _ => "")
           [d 1 "tx; ecotrack"; d 2 "other"] "2026-11-02" env ["Tapix"; "EcoTrack"]).
  vm_compute. reflexivity.
Defined.

(** ** No deal of interest is left out *)

Section BuildRowsComplete.
Import ProductReport.
Variable py_repr : pyval -> string.

Lemma want_map_fold products :
  forall (acc : gmap string string) k sp,
  foldl (fun acc p => <[PyString.lower p := p]> acc) acc products !! k = Some sp ->
  acc !! k = Some sp \/ sp ∈ products.
Proof.
  induction products as [|p products IH]; intros acc k sp H; [left; exact H|].
  cbn [foldl] in H. apply IH in H as [H|H].
  - destruct (decide (PyString.lower p = k)) as [<-|Hne].
    + rewrite lookup_insert_eq in H. injection H as <-. right. left.
    + rewrite lookup_insert_ne in H by exact Hne. left. exact H.
  - right. right. exact H.
Qed.

Lemma want_map_range products k sp :
  want_map products !! k = Some sp -> sp ∈ products.
Proof.
  intros H. apply want_map_fold in H as [H|H]; [|exact H].
  rewrite lookup_empty in H. discriminate.
Qed.

Lemma append_row_mono sp row rbp p rows :
  (p, rows) ∈ rbp ->
  exists rows', (p, rows') ∈ append_row sp row rbp
                /\ (forall r, r ∈ rows -> r ∈ rows')
                /\ (p = sp -> row ∈ rows').
Proof.
  intros Hin. unfold append_row.
  destruct (String.eqb_spec p sp) as [->|Hne].
  - exists (rows ++ [row]). split; [|split].
    + apply list_elem_of_fmap. exists (sp, rows). cbn [fst snd].
      rewrite String.eqb_refl. split; [reflexivity|exact Hin].
    + intros r Hr. apply elem_of_app. left. exact Hr.
    + intros _. apply elem_of_app. right. left.
  - exists rows. split; [|split].
    + apply list_elem_of_fmap. exists (p, rows). cbn [fst snd].
      destruct (String.eqb_spec p sp); [contradiction|]. split; [reflexivity|exact Hin].
    + intros r Hr. exact Hr.
    + intros E. contradiction.
Qed.

Lemma add_products_complete want f labels :
  (forall sp, row_key (f_row f sp) = (PStr sp, PStr (f_deal_id f))) ->
  forall st st',
  seen_have_rows st -> want_has_rows want st ->
  add_products want f labels st = Ok st' ->
  seen_have_rows st' /\ want_has_rows want st'
  /\ (forall x, x ∈ seen st -> x ∈ seen st')
  /\ (forall pl t sp, pl ∈ labels -> stripped_or_empty pl = Ok t ->
        want !! PyString.lower t = Some sp -> (sp, f_deal_id f) ∈ seen st').
Proof.
  intros Hf. induction labels as [|pl labels IH]; intros st st' HJ HK H.
  - simpl in H. injection H as <-. repeat split; try assumption.
    + intros x Hx. exact Hx.
    + intros pl t sp Hin. apply elem_of_nil in Hin as [].
  - cbn [add_products] in H.
    destruct (stripped_or_empty pl) as [t0|] eqn:Et; [|discriminate]. simpl in H.
    destruct (want !! PyString.lower t0) as [sp0|] eqn:Ew.
    2:{ destruct (IH _ _ HJ HK H) as (J' & K' & M' & C').
        repeat split; try assumption.
        intros pl' t sp Hin Hs Hw. apply elem_of_cons in Hin as [->|Hin].
        - rewrite Et in Hs. injection Hs as <-. rewrite Ew in Hw. discriminate.
        - apply (C' pl' t sp Hin Hs Hw). }
    destruct (bool_decide ((sp0, f_deal_id f) ∈ seen st)) eqn:Es.
    + apply bool_decide_eq_true in Es.
      destruct (IH _ _ HJ HK H) as (J' & K' & M' & C').
      repeat split; try assumption.
      intros pl' t sp Hin Hs Hw. apply elem_of_cons in Hin as [->|Hin].
      * rewrite Et in Hs. injection Hs as <-. rewrite Ew in Hw. injection Hw as <-.
        apply M'. exact Es.
      * apply (C' pl' t sp Hin Hs Hw).
    + apply IH in H.
      * destruct H as (J' & K' & M' & C'). repeat split; try assumption.
        -- intros x Hx. apply M'. cbn [seen]. apply elem_of_union. right. exact Hx.
        -- intros pl' t sp Hin Hs Hw. apply elem_of_cons in Hin as [->|Hin].
           ++ rewrite Et in Hs. injection Hs as <-. rewrite Ew in Hw.
              injection Hw as <-. apply M'. cbn [seen].
              apply elem_of_union. left. apply elem_of_singleton. reflexivity.
           ++ apply (C' pl' t sp Hin Hs Hw).
      * intros sp id Hin. cbn [seen rows_by_product] in *.
        apply elem_of_union in Hin as [Hin|Hin].
        -- apply elem_of_singleton in Hin. injection Hin as -> ->.
           pose proof (HK _ _ Ew) as Hk.
           apply list_elem_of_fmap in Hk as ([q rows] & Eq & Hq).
           cbn [fst] in Eq. subst q.
           destruct (append_row_mono sp0 (f_row f sp0) _ _ _ Hq)
             as (rows' & H1 & _ & H3).
           exists rows', (f_row f sp0).
           split; [exact H1|]. split; [apply H3; reflexivity|apply Hf].
        -- destruct (HJ sp id Hin) as (rows & r & H1 & H2 & H3).
           destruct (append_row_mono sp0 (f_row f sp0) _ _ _ H1)
             as (rows' & H4 & H5 & _).
           exists rows', r. split; [exact H4|]. split; [apply H5, H2|exact H3].
      * intros k sp Hw. cbn [rows_by_product]. rewrite append_row_keys.
        apply (HK k sp Hw).
Qed.

Lemma build_rows_loop_complete env week want deals :
  forall st st',
  seen_have_rows st -> want_has_rows want st ->
  build_rows_loop py_repr env week want deals st = Ok st' ->
  seen_have_rows st' /\ want_has_rows want st'
  /\ (forall x, x ∈ seen st -> x ∈ seen st')
  /\ (forall d, d ∈ deals ->
        exists f labels,
          read_deal py_repr env week d = Ok (f, labels)
          /\ forall pl t sp, pl ∈ labels -> stripped_or_empty pl = Ok t ->
               want !! PyString.lower t = Some sp ->
               (sp, f_deal_id f) ∈ seen st').
Proof.
  induction deals as [|d deals IH]; intros st st' HJ HK H.
  - simpl in H. injection H as <-. repeat split; try assumption.
    + intros x Hx. exact Hx.
    + intros d Hd. apply elem_of_nil in Hd as [].
  - cbn [build_rows_loop] in H.
    destruct (read_deal py_repr env week d) as [[f labels]|] eqn:Er; [|discriminate].
    simpl in H.
    destruct (add_products want f labels st) as [st1|] eqn:Ea; [|discriminate].
    simpl in H.
    destruct (add_products_complete want f labels
                (fun sp => proj2 (read_deal_row py_repr _ _ _ _ _ Er sp))
                st st1 HJ HK Ea) as (J1 & K1 & M1 & C1).
    destruct (IH _ _ J1 K1 H) as (J' & K' & M' & C').
    repeat split; try assumption.
    + intros x Hx. apply M', M1, Hx.
    + intros d' Hd. apply elem_of_cons in Hd as [->|Hd].
      * exists f, labels. split; [exact Er|].
        intros pl t sp Hin Hs Hw. apply M'. apply (C1 pl t sp Hin Hs Hw).
      * apply (C' d' Hd).
Qed.

End BuildRowsComplete.

(** X15.  No deal of interest is left out: when [build_rows]
    succeeds, every deal given one of whose product values names a product
    of interest has a row under that product. *)
Theorem build_rows_keeps_every_deal_of_interest
    (py_repr : pyval -> string) (deals : list deal) (week : string)
    (env : ProductReport.lookups) (products : list string)
    (rbp : ProductReport.rows_by_product_t) (d : deal) (sp : string) :
  ProductReport.build_rows py_repr deals week env products = Ok rbp ->
  d ∈ deals -> names_product env products d sp ->
  sp ∈ products
  /\ exists rows r,
       (sp, rows) ∈ rbp /\ r ∈ rows
       /\ row_key r = (PStr sp, PStr (py_str py_repr (deal_id_raw d))).
Proof.
  intros H Hd (vals & v & t & Hv & Hin & Ht & Hw).
  split; [apply (want_map_range _ _ _ Hw)|].
  unfold ProductReport.build_rows in H.
  destruct (ProductReport.build_rows_loop _ _ _ _ _ _) as [st|] eqn:E; [|discriminate].
  simpl in H. injection H as <-.
  apply build_rows_loop_complete in E.
  - destruct E as (J & _ & _ & C). destruct (C d Hd) as (f & labels & Er & Hseen).
    destruct (read_deal_inv py_repr env week d f labels Er)
      as (Hid & (vals' & Hv' & ->) & _).
    rewrite Hv in Hv'. injection Hv' as <-. rewrite <- Hid. apply J.
    apply (Hseen (default (PStr v) (ProductReport.opt_map env !! v)) t sp);
      [|exact Ht|exact Hw].
    apply list_elem_of_fmap. exists v. split; [reflexivity|exact Hin].
  - intros p id Hp. cbn [ProductReport.seen] in Hp. apply elem_of_empty in Hp as [].
  - intros k p Hp. cbn [ProductReport.rows_by_product].
    apply (empty_rows_spec products). apply (want_map_range _ _ _ Hp).
Qed.

Lemma build_rows_keeps_every_deal_of_interest_witness :
  let env :=
    {| ProductReport.product_property_name := "product";
       ProductReport.opt_map := {[ "tx" := PStr " TAPIX " ]};
       ProductReport.pipeline_label := ∅; ProductReport.stage_label := ∅;
       ProductReport.deal_to_company_id := ∅;
       ProductReport.company_id_to_name := ∅;
       ProductReport.owners_map := ∅ |} in
  let d id prod := {| deal_id_raw := PInt id;
                      properties := {[ "product" := PStr prod ]} |} in
  exists rbp,
    ProductReport.build_rows (fun _ => "") [d 1 "other"; d 2 "x;tx"]
      "2026-11-02" env ["Tapix"; "EcoTrack"] = Ok rbp
    /\ "Tapix" ∈ ["Tapix"; "EcoTrack"]
    /\ exists rows r,
         (("Tapix" : string), rows) ∈ rbp /\ r ∈ rows
         /\ row_key r = (PStr "Tapix", PStr "2").
Proof.
  intros env d. eexists. split; [vm_compute; reflexivity|].
  apply (build_rows_keeps_every_deal_of_interest (fun _ => "")
           [d 1 "other"; d 2 "x;tx"] "2026-11-02" env ["Tapix"; "EcoTrack"] _
           (d 2 "x;tx") "Tapix").
  - vm_compute. reflexivity.
  - right. left.
  - exists ["x"; "tx"], "tx", "TAPIX". repeat split.
    + right. left.
Defined.

(** X16.  [build_rows] returns one entry per product of interest and
    no other, and under one product no two rows with the same product and
    deal id. *)
Theorem build_rows_lists_each_deal_once
    (py_repr : pyval -> string) (deals : list deal) (week : string)
    (env : ProductReport.lookups) (products : list string)
    (rbp : ProductReport.rows_by_product_t) :
  ProductReport.build_rows py_repr deals week env products = Ok rbp ->
  NoDup rbp.*1
  /\ (forall p, p ∈ rbp.*1 <-> p ∈ products)
  /\ forall p rows, (p, rows) ∈ rbp -> NoDup (row_key <$> rows).
Proof.
  intros H. destruct (build_rows_spec py_repr deals week env products rbp H)
    as (H1 & H2 & H3).
  split; [exact H1|]. split; [exact H2|].
  intros p rows Hin. apply (H3 p rows Hin).
Qed.

Lemma build_rows_lists_each_deal_once_witness :
  let env :=
    {| ProductReport.product_property_name := "product";
       ProductReport.opt_map := ∅;
       ProductReport.pipeline_label := ∅; ProductReport.stage_label := ∅;
       ProductReport.deal_to_company_id := ∅;
       ProductReport.company_id_to_name := ∅;
       ProductReport.owners_map := ∅ |} in
  let d id prod := {| deal_id_raw := PInt id;
                      properties := {[ "product" := PStr prod ]} |} in
  exists rbp,
    ProductReport.build_rows (fun _ => "")
      [d 1 "Tapix;tapix; TAPIX"; d 1 "Tapix"; d 2 "Tapix"]
      "2026-11-02" env ["Tapix"; "EcoTrack"; "Tapix"] = Ok rbp
    /\ NoDup rbp.*1
    /\ (forall p, p ∈ rbp.*1 <-> p ∈ ["Tapix"; "EcoTrack"; "Tapix"])
    /\ forall p rows, (p, rows) ∈ rbp -> NoDup (row_key <$> rows).
Proof.
  intros env d. eexists. split; [vm_compute; reflexivity|].
  apply (build_rows_lists_each_deal_once (fun _ => "")
           [d 1 "Tapix;tapix; TAPIX"; d 1 "Tapix"; d 2 "Tapix"]
           "2026-11-02" env ["Tapix"; "EcoTrack"; "Tapix"]).
  vm_compute. reflexivity.
Defined.

(** ** Headers and frames of the product sheets *)

(** X17.  [ensure_sheet_headers] changes the first 19 cells of row 1
    only: afterwards row 1 starts with the headers, its cells from column
    20 on and every row below are as before, and a second call changes
    nothing. *)
Theorem ensure_sheet_headers_keeps_data (ws : list (list pyval)) :
  let ws' := ProductReport.ensure_sheet_headers ws in
  data_rows ws' = data_rows ws
  /\ (exists r, head ws' = Some r
                /\ take (length ProductReport.SHEET_HEADERS) r
                   = map PStr ProductReport.SHEET_HEADERS
                /\ drop (length ProductReport.SHEET_HEADERS) r
                   = drop (length ProductReport.SHEET_HEADERS) (default [] (head ws)))
  /\ ProductReport.ensure_sheet_headers ws' = ws'.
Proof.
  cbv zeta. split; [|split].
  - destruct ws; reflexivity.
  - destruct ws as [|r rest]; eexists; (split; [reflexivity|]); split;
      try reflexivity.
  - apply ensure_sheet_headers_idem.
Qed.

Section ProductFrame.
Import ProductReport.

Lemma padded_row_lookup (r : list pyval) (n i : nat) :
  (i < n)%nat ->
  take n (r ++ replicate (n - length r) PNone) !! i = Some (default PNone (r !! i)).
Proof.
  intros Hi. rewrite lookup_take_lt by exact Hi.
  destruct (decide (i < length r)%nat) as [Hl|Hl].
  - rewrite lookup_app_l by exact Hl.
    destruct (lookup_lt_is_Some_2 r i Hl) as [x ->]. reflexivity.
  - rewrite lookup_app_r by lia. rewrite lookup_replicate_2 by lia.
    rewrite lookup_ge_None_2 by lia. reflexivity.
Qed.

Lemma elem_of_concat {A} (x : A) (ls : list (list A)) :
  x ∈ concat ls <-> exists l, l ∈ ls /\ x ∈ l.
Proof.
  rewrite list_elem_of_In, in_concat.
  split; intros (l & H1 & H2); exists l; split; apply list_elem_of_In; assumption.
Qed.

Lemma padded_row_length (r : list pyval) (n : nat) :
  length (take n (r ++ replicate (n - length r) PNone)) = n.
Proof. rewrite length_take, length_app, length_replicate. lia. Qed.

End ProductFrame.

(** X18.  Every row of the frame that [read_all_product_sheets] builds
    has exactly 19 cells and a first cell that is not empty, and is a data
    row of the sheet of one of the products, cut or filled with [None] to
    19 cells. *)
Theorem read_all_product_sheets_rows
    (wb : gmap string (list (list pyval))) (products : list string)
    (r : list pyval) :
  r ∈ ProductReport.read_all_product_sheets wb products ->
  length r = length ProductReport.SHEET_HEADERS
  /\ truthy (ProductReport.first_cell r) = true
  /\ exists p r0,
       p ∈ products /\ r0 ∈ data_rows (product_sheet wb p)
       /\ forall i, (i < length ProductReport.SHEET_HEADERS)%nat ->
            r !! i = Some (default PNone (r0 !! i)).
Proof.
  unfold ProductReport.read_all_product_sheets. intros H.
  apply elem_of_concat in H as (l & Hl & Hr).
  apply list_elem_of_fmap in Hl as (p & -> & Hp).
  unfold product_sheet, data_rows.
  destruct (wb !! ProductReport.excel_safe_sheet_name p) as [ws|] eqn:Ews;
    [|apply elem_of_nil in Hr as []].
  apply list_elem_of_fmap in Hr as (r0 & -> & Hr0).
  apply list_elem_of_filter in Hr0 as [[Hne Ht] Hr0].
  split; [apply padded_row_length|]. split.
  - unfold ProductReport.first_cell in *.
    destruct r0 as [|c r0]; [congruence|]. exact Ht.
  - exists p, r0. split; [exact Hp|]. rewrite Ews. split; [exact Hr0|].
    intros i Hi. apply padded_row_lookup. exact Hi.
Qed.

Lemma read_all_product_sheets_rows_witness :
  let wb : gmap string (list (list pyval)) :=
    {[ "Tapix" := [[PStr "snapshot_week_start"]; [PStr "2026-11-02"; PStr "1"];
                   [PNone; PStr "note"]; []] ]} in
  let r := [PStr "2026-11-02"; PStr "1"] ++ replicate 17 PNone in
  length r = length ProductReport.SHEET_HEADERS
  /\ truthy (ProductReport.first_cell r) = true
  /\ exists p r0,
       p ∈ ["Tapix"; "EcoTrack"] /\ r0 ∈ data_rows (product_sheet wb p)
       /\ forall i, (i < length ProductReport.SHEET_HEADERS)%nat ->
            r !! i = Some (default PNone (r0 !! i)).
Proof.
  intros wb r.
  apply (read_all_product_sheets_rows wb ["Tapix"; "EcoTrack"] r).
  vm_compute. left.
Defined.

(** ** The default products *)

Section MainSnapshot.
Import ProductReport.

Lemma default_products_sheets p q :
  p ∈ DEFAULT_PRODUCTS -> q ∈ DEFAULT_PRODUCTS ->
  excel_safe_sheet_name p = excel_safe_sheet_name q -> p = q.
Proof.
  unfold DEFAULT_PRODUCTS. intros Hp Hq.
  rewrite !elem_of_cons, elem_of_nil in Hp, Hq.
  destruct Hp as [->|[->|[->|[->|[->|[->|[]]]]]]];
    destruct Hq as [->|[->|[->|[->|[->|[->|[]]]]]]];
    vm_compute; congruence.
Qed.

Lemma default_products_not_summary p :
  p ∈ DEFAULT_PRODUCTS -> excel_safe_sheet_name p <> "Summary".
Proof.
  unfold DEFAULT_PRODUCTS. intros Hp.
  rewrite !elem_of_cons, elem_of_nil in Hp.
  destruct Hp as [->|[->|[->|[->|[->|[->|[]]]]]]]; vm_compute; congruence.
Qed.

End MainSnapshot.

(** ** Sheets that a run leaves alone *)

Section MainFrame.
Import ProductReport.
Variable py_repr : pyval -> string.
Variable summary_tables : list (list pyval) -> result (list (list pyval)).

Lemma rewrite_summary_sheet_frame wb products wb' k :
  rewrite_summary_sheet summary_tables wb products = Ok wb' ->
  k <> "Summary" -> wb' !! k = wb !! k.
Proof.
  unfold rewrite_summary_sheet. intros H Hk.
  destruct (get_sheet wb "Summary"); [|discriminate]. simpl in H.
  destruct (read_all_product_sheets wb products).
  - injection H as <-. apply lookup_insert_ne. congruence.
  - destruct (summary_tables _); [|discriminate]. simpl in H.
    injection H as <-. apply lookup_insert_ne. congruence.
Qed.

Lemma rewrite_summary_sheet_found wb products wb' :
  rewrite_summary_sheet summary_tables wb products = Ok wb' ->
  is_Some (wb !! "Summary").
Proof.
  unfold rewrite_summary_sheet, get_sheet. intros H.
  destruct (wb !! "Summary"); [eauto|discriminate].
Qed.

Lemma merge_snapshot_frame (items : rows_by_product_t) week k :
  k ∉ excel_safe_sheet_name <$> items.*1 ->
  forall wb wb',
  merge_snapshot py_repr items week wb = Ok wb' -> wb' !! k = wb !! k.
Proof.
  induction items as [|[p rows] items IH]; intros Hk wb wb' H.
  - injection H as <-. reflexivity.
  - cbn [merge_snapshot] in H.
    destruct (get_sheet wb (excel_safe_sheet_name p)); [|discriminate].
    simpl in H. cbn [fmap list_fmap fst] in Hk.
    apply not_elem_of_cons in Hk as [Hne Hk].
    rewrite (IH Hk _ _ H). apply lookup_insert_ne. congruence.
Qed.

(** A prepared workbook in which the summary sheet is found keeps every
    sheet that is neither the summary nor the sheet of a product. *)
Lemma prepare_workbook_frame products wb wb' k :
  prepare_workbook products wb = Ok wb' ->
  "Summary" ∉ excel_safe_sheet_name <$> products ->
  is_Some (wb' !! "Summary") ->
  k <> "Summary" -> k ∉ excel_safe_sheet_name <$> products ->
  wb' !! k = wb !! k.
Proof.
  unfold prepare_workbook. intros H Hn Hsum Hs Hk.
  destruct (if bool_decide ("Summary" ∈ dom wb) then Ok wb
            else create_sheet wb "Summary") as [wb1|e] eqn:E1; [|discriminate].
  change (Ok wb1 ≫= ?k) with (k wb1) in H. cbn beta in H.
  apply prepare_sheets_fold in H. subst wb'.
  rewrite prepare_workbook_fold in Hsum. rewrite prepare_workbook_fold.
  rewrite bool_decide_eq_false_2 in Hsum by exact Hn.
  rewrite bool_decide_eq_false_2 by exact Hk.
  destruct (bool_decide ("Summary" ∈ dom wb)) eqn:Ed.
  - injection E1 as <-. reflexivity.
  - apply bool_decide_eq_false in Ed. apply not_elem_of_dom in Ed.
    apply create_sheet_spec in E1 as (g & _ & ->).
    destruct (decide (g = "Summary")) as [->|Hne].
    + apply lookup_insert_ne. congruence.
    + rewrite lookup_insert_ne, Ed in Hsum by exact Hne.
      destruct Hsum as [? Hsum]. discriminate Hsum.
Qed.

End MainFrame.

(** X19.  A run of [main] that completes on an existing workbook
    writes the file once, and every sheet of the stored workbook that is
    neither the summary nor the sheet of a product is saved as it was. *)
Theorem main_keeps_other_sheets
    (py_repr : pyval -> string)
    (summary_tables : list (list pyval) -> result (list (list pyval)))
    (token : option string) (today : Z) (api : result ProductReport.api_data)
    (wb0 : gmap string (list (list pyval)))
    (saves0 : list (gmap string (list (list pyval))))
    (d' : ProductReport.disk) :
  ProductReport.main py_repr summary_tables token today api
    {| ProductReport.file := Some wb0; ProductReport.saves := saves0 |}
  = (Ok tt, d') ->
  exists wb2,
    ProductReport.file d' = Some wb2
    /\ ProductReport.saves d' = saves0 ++ [wb2]
    /\ forall k, k <> "Summary" ->
         k ∉ ProductReport.excel_safe_sheet_name <$> ProductReport.DEFAULT_PRODUCTS ->
         wb2 !! k = wb0 !! k.
Proof.
  intros H.
  destruct (main_outcomes py_repr summary_tables token today api
              {| ProductReport.file := Some wb0; ProductReport.saves := saves0 |})
    as (r & d'' & E & Hr).
  rewrite H in E. injection E as <- <-.
  destruct Hr as (data & rbp & wb & wb1 & wb2 & _ & Hb & Ho & Hm & Hs & ->).
  cbn [ProductReport.opened_workbook ProductReport.file fst] in Ho.
  exists wb2. split; [reflexivity|]. split; [reflexivity|].
  assert (Hsub : forall k,
            k ∉ ProductReport.excel_safe_sheet_name
                  <$> ProductReport.DEFAULT_PRODUCTS ->
            k ∉ ProductReport.excel_safe_sheet_name <$> rbp.*1).
  { intros k Hk Hin. apply Hk.
    apply list_elem_of_fmap in Hin as (p & -> & Hp).
    apply list_elem_of_fmap. exists p. split; [reflexivity|].
    apply (build_rows_spec py_repr _ _ _ _ _ Hb). exact Hp. }
  assert (Hn : "Summary" ∉ ProductReport.excel_safe_sheet_name
                             <$> ProductReport.DEFAULT_PRODUCTS).
  { intros Hin. apply list_elem_of_fmap in Hin as (p & E & Hp).
    symmetry in E. exact (default_products_not_summary p Hp E). }
  intros k Hk1 Hk2.
  rewrite (rewrite_summary_sheet_frame summary_tables _ _ _ k Hs Hk1).
  rewrite (merge_snapshot_frame py_repr rbp _ k (Hsub k Hk2) _ _ Hm).
  apply (prepare_workbook_frame _ _ _ _ Ho Hn); [|exact Hk1|exact Hk2].
  rewrite <- (merge_snapshot_frame py_repr rbp _ "Summary" (Hsub _ Hn) _ _ Hm).
  exact (rewrite_summary_sheet_found summary_tables _ _ _ Hs).
Qed.

Lemma main_keeps_other_sheets_witness :
  let env :=
    {| ProductReport.product_property_name := "product";
       ProductReport.opt_map := ∅; ProductReport.pipeline_label := ∅;
       ProductReport.stage_label := ∅; ProductReport.deal_to_company_id := ∅;
       ProductReport.company_id_to_name := ∅; ProductReport.owners_map := ∅ |} in
  let wb0 : gmap string (list (list pyval)) := {[ "Notes" := [[PStr "keep me"]] ]} in
  exists d' wb2,
    ProductReport.main (fun _ => "") (fun _ => Ok []) (Some "pat-1") 739923
      (Ok {| ProductReport.api_lookups := env; ProductReport.api_deals := [] |})
      {| ProductReport.file := Some wb0; ProductReport.saves := [] |}
    = (Ok tt, d')
    /\ ProductReport.file d' = Some wb2
    /\ ProductReport.saves d' = [] ++ [wb2]
    /\ forall k, k <> "Summary" ->
         k ∉ ProductReport.excel_safe_sheet_name <$> ProductReport.DEFAULT_PRODUCTS ->
         wb2 !! k = wb0 !! k.
Proof.
  intros env wb0.
  set (run := ProductReport.main (fun _ => "") (fun _ => Ok []) (Some "pat-1")
                739923
                (Ok {| ProductReport.api_lookups := env;
                       ProductReport.api_deals := [] |})
                {| ProductReport.file := Some wb0; ProductReport.saves := [] |}).
  assert (E1 : run.1 = Ok tt) by (vm_compute; reflexivity).
  pose proof (surjective_pairing run) as E. rewrite E1 in E.
  exists run.2.
  destruct (main_keeps_other_sheets (fun _ => "") (fun _ => Ok []) (Some "pat-1")
              739923
              (Ok {| ProductReport.api_lookups := env;
                     ProductReport.api_deals := [] |})
              wb0 [] run.2 E) as (wb2 & H).
  exists wb2. split; [exact E|exact H].
Defined.

(** ** One snapshot per week *)

(** X20.  On each of the seven days of a week, from its Monday on,
    [week_start_iso] gives the ISO date of that Monday: all runs of one
    week write the same snapshot week. *)
Theorem week_start_iso_same_all_week (monday k : Z) :
  ProductReport.weekday monday = 0 -> 0 <= k < 7 ->
  ProductReport.week_start_iso (monday + k) = ProductReport.isoformat monday.
Proof.
  unfold ProductReport.week_start_iso, ProductReport.weekday. intros Hm Hk.
  f_equal.
  replace (monday + k + 6) with (k + (monday + 6)) by lia.
  rewrite <- Z.add_mod_idemp_r, Hm, Z.add_0_r by lia.
  rewrite Z.mod_small by lia. lia.
Qed.

Lemma week_start_iso_same_all_week_witness :
  ProductReport.week_start_iso (739922 + 6) = ProductReport.isoformat 739922.
Proof. apply (week_start_iso_same_all_week 739922 6); [reflexivity|lia]. Defined.

(** ** What a run leaves in the product sheets *)


(** X21.  A run of [main] that completes on an existing workbook saves
    a workbook whose sheet of every product holds, for the week of the
    run, exactly the rows that [build_rows] gave for the product, and
    whose rows of other weeks are those of the stored workbook, in their
    order. *)
Theorem main_writes_the_snapshot
    (py_repr : pyval -> string)
    (summary_tables : list (list pyval) -> result (list (list pyval)))
    (token : option string) (today : Z) (api : result ProductReport.api_data)
    (wb0 : gmap string (list (list pyval)))
    (saves0 : list (gmap string (list (list pyval))))
    (d' : ProductReport.disk) :
  let week := ProductReport.week_start_iso today in
  ProductReport.main py_repr summary_tables token today api
    {| ProductReport.file := Some wb0; ProductReport.saves := saves0 |}
  = (Ok tt, d') ->
  exists data rbp wb2,
    api = Ok data
    /\ ProductReport.build_rows py_repr (ProductReport.api_deals data) week
         (ProductReport.api_lookups data) ProductReport.DEFAULT_PRODUCTS = Ok rbp
    /\ ProductReport.file d' = Some wb2
    /\ forall p rows, (p, rows) ∈ rbp ->
         week_rows py_repr week (data_rows (product_sheet wb2 p)) = rows
         /\ other_rows py_repr week (data_rows (product_sheet wb2 p))
            = other_rows py_repr week (data_rows (product_sheet wb0 p)).
Proof.
  intros week H.
  destruct (main_outcomes py_repr summary_tables token today api
              {| ProductReport.file := Some wb0; ProductReport.saves := saves0 |})
    as (r & d'' & E & Hr).
  rewrite H in E. injection E as <- <-.
  destruct Hr as (data & rbp & wb & wb1 & wb2 & -> & Hb & Ho & Hm & Hs & ->).
  fold week in Hb, Hm.
  cbn [ProductReport.opened_workbook ProductReport.file fst] in Ho.
  exists data, rbp, wb2. split; [reflexivity|]. split; [exact Hb|].
  split; [reflexivity|]. intros p rows Hin.
  destruct (build_rows_spec py_repr _ _ _ _ _ Hb) as (_ & K & R).
  assert (Hp : p ∈ ProductReport.DEFAULT_PRODUCTS).
  { apply K. apply list_elem_of_fmap. exists (p, rows). split; [reflexivity|exact Hin]. }
  destruct (product_run_sheets py_repr ProductReport.DEFAULT_PRODUCTS
              (ProductReport.api_deals data) week (ProductReport.api_lookups data)
              wb0 wb rbp default_products_sheets Hb Ho) as (wb' & E & S).
  unfold product_run in E. rewrite Hb in E. cbn [mbind result_bind] in E.
  rewrite Ho in E. cbn [mbind result_bind] in E.
  rewrite Hm in E. injection E as <-.
  assert (Hd : data_rows (product_sheet wb2 p)
               = other_rows py_repr week (data_rows (product_sheet wb0 p)) ++ rows).
  { unfold product_sheet at 1.
    rewrite (rewrite_summary_sheet_frame summary_tables _ _ _ _ Hs
               (default_products_not_summary p Hp)).
    rewrite (S p rows Hin). cbn [default from_option id]. unfold sheet_run.
    rewrite ensure_sheet_headers_idem. apply merged_sheet_data. }
  rewrite Hd.
  destruct (other_rows_split py_repr week (data_rows (product_sheet wb0 p)))
    as [W O].
  destruct (R p rows Hin) as [F _].
  destruct (stamped_rows_in_week py_repr week rows
              (week_start_iso_not_empty today) F) as [W2 O2].
  split.
  - unfold week_rows. rewrite filter_app.
    change (week_rows py_repr week (other_rows py_repr week
              (data_rows (product_sheet wb0 p)))
            ++ week_rows py_repr week rows = rows).
    rewrite W, W2. reflexivity.
  - unfold other_rows at 1. rewrite filter_app.
    change (other_rows py_repr week (other_rows py_repr week
              (data_rows (product_sheet wb0 p)))
            ++ other_rows py_repr week rows
            = other_rows py_repr week (data_rows (product_sheet wb0 p))).
    rewrite O, O2. apply app_nil_r.
Qed.

Lemma main_writes_the_snapshot_witness :
  let env :=
    {| ProductReport.product_property_name := "product";
       ProductReport.opt_map := ∅; ProductReport.pipeline_label := ∅;
       ProductReport.stage_label := ∅; ProductReport.deal_to_company_id := ∅;
       ProductReport.company_id_to_name := ∅; ProductReport.owners_map := ∅ |} in
  let api :=
    Ok {| ProductReport.api_lookups := env;
          ProductReport.api_deals :=
            [ {| deal_id_raw := PInt 1;
                 properties := {[ "product" := PStr "Tapix" ]} |} ] |} in
  let wb0 : gmap string (list (list pyval)) :=
    {[ "Tapix" := [[PStr "snapshot_week_start"]; [PStr "2026-10-26"; PStr "9"];
                   [PStr "2026-11-02"; PStr "8"]] ]} in
  let week := ProductReport.week_start_iso 739923 in
  exists d' data rbp wb2,
    ProductReport.main (fun _ => "") (fun _ => Ok []) (Some "pat-1") 739923 api
      {| ProductReport.file := Some wb0; ProductReport.saves := [] |}
    = (Ok tt, d')
    /\ api = Ok data
    /\ ProductReport.build_rows (fun _ => "") (ProductReport.api_deals data) week
         (ProductReport.api_lookups data) ProductReport.DEFAULT_PRODUCTS = Ok rbp
    /\ ProductReport.file d' = Some wb2
    /\ forall p rows, (p, rows) ∈ rbp ->
         week_rows (fun _ => "") week (data_rows (product_sheet wb2 p)) = rows
         /\ other_rows (fun _ => "") week (data_rows (product_sheet wb2 p))
            = other_rows (fun _ => "") week (data_rows (product_sheet wb0 p)).
Proof.
  intros env api wb0 week.
  set (run := ProductReport.main (fun _ => "") (fun _ => Ok []) (Some "pat-1")
                739923 api
                {| ProductReport.file := Some wb0; ProductReport.saves := [] |}).
  assert (E1 : run.1 = Ok tt) by (vm_compute; reflexivity).
  pose proof (surjective_pairing run) as E. rewrite E1 in E.
  exists run.2.
  destruct (main_writes_the_snapshot (fun _ => "") (fun _ => Ok []) (Some "pat-1")
              739923 api wb0 [] run.2 E) as (data & rbp & wb2 & H).
  exists data, rbp, wb2. split; [exact E|exact H].
Defined.

(** ** The workbook of a first run *)

Section FirstRun.
Import ProductReport.
Variable py_repr : pyval -> string.

Lemma new_workbook_fold products :
  forall (acc : gmap string (list (list pyval))) k,
  foldl (fun wb p =>
           <[excel_safe_sheet_name p :=
               ensure_sheet_headers (append [] (map PStr SHEET_HEADERS))]> wb)
    acc products !! k
  = if bool_decide (k ∈ excel_safe_sheet_name <$> products)
    then Some [map PStr SHEET_HEADERS] else acc !! k.
Proof.
  induction products as [|p products IH]; intros acc k; [reflexivity|].
  cbn [foldl]. rewrite IH. cbn [fmap list_fmap].
  destruct (decide (k ∈ excel_safe_sheet_name <$> products)) as [Hin|Hin].
  - rewrite !bool_decide_eq_true_2; [reflexivity| |exact Hin]. right. exact Hin.
  - rewrite (bool_decide_eq_false_2 _ Hin).
    destruct (decide (excel_safe_sheet_name p = k)) as [<-|Hne].
    + rewrite lookup_insert_eq, bool_decide_eq_true_2 by left. reflexivity.
    + rewrite lookup_insert_ne by exact Hne.
      rewrite bool_decide_eq_false_2; [reflexivity|].
      intros H. apply elem_of_cons in H as [->|H]; [congruence|contradiction].
Qed.

Lemma new_workbook_lookup products p :
  p ∈ products ->
  new_workbook products !! excel_safe_sheet_name p = Some [map PStr SHEET_HEADERS].
Proof.
  intros Hp. unfold new_workbook. rewrite new_workbook_fold.
  rewrite bool_decide_eq_true_2; [reflexivity|].
  apply list_elem_of_fmap. exists p. split; [reflexivity|exact Hp].
Qed.

End FirstRun.

(** X22.  A run of [main] that completes without a workbook file has
    saved the new workbook and then the final one, in which the sheet of
    every product is the header row followed by exactly the rows that
    [build_rows] gave for the product. *)
Theorem main_first_run_fills_new_sheets
    (py_repr : pyval -> string)
    (summary_tables : list (list pyval) -> result (list (list pyval)))
    (token : option string) (today : Z) (api : result ProductReport.api_data)
    (saves0 : list (gmap string (list (list pyval))))
    (d' : ProductReport.disk) :
  ProductReport.main py_repr summary_tables token today api
    {| ProductReport.file := None; ProductReport.saves := saves0 |}
  = (Ok tt, d') ->
  exists data rbp wb2,
    api = Ok data
    /\ ProductReport.build_rows py_repr (ProductReport.api_deals data)
         (ProductReport.week_start_iso today) (ProductReport.api_lookups data)
         ProductReport.DEFAULT_PRODUCTS = Ok rbp
    /\ ProductReport.file d' = Some wb2
    /\ ProductReport.saves d'
       = saves0 ++ [ProductReport.new_workbook ProductReport.DEFAULT_PRODUCTS; wb2]
    /\ forall p rows, (p, rows) ∈ rbp ->
         product_sheet wb2 p = map PStr ProductReport.SHEET_HEADERS :: rows.
Proof.
  intros H.
  destruct (main_outcomes py_repr summary_tables token today api
              {| ProductReport.file := None; ProductReport.saves := saves0 |})
    as (r & d'' & E & Hr).
  rewrite H in E. injection E as <- <-.
  destruct Hr as (data & rbp & wb & wb1 & wb2 & -> & Hb & Ho & Hm & Hs & ->).
  unfold ProductReport.opened_workbook, ProductReport.create_new_workbook in Ho.
  cbn [ProductReport.file fst] in Ho. injection Ho as <-.
  exists data, rbp, wb2. split; [reflexivity|]. split; [exact Hb|].
  split; [reflexivity|]. split.
  { cbn. rewrite <- app_assoc. reflexivity. }
  intros p rows Hin.
  destruct (build_rows_spec py_repr _ _ _ _ _ Hb) as (Hnd & K & _).
  assert (Hk : forall q rows', (q, rows') ∈ rbp -> q ∈ ProductReport.DEFAULT_PRODUCTS).
  { intros q rows' Hq. apply K. apply list_elem_of_fmap. exists (q, rows').
    split; [reflexivity|exact Hq]. }
  destruct (merge_snapshot_lookup py_repr rbp (ProductReport.week_start_iso today))
    with (wb := ProductReport.new_workbook ProductReport.DEFAULT_PRODUCTS)
    as (wb' & E & Hl).
  - apply NoDup_fmap_2_strong; [|exact Hnd].
    intros a b Ha Hb'. apply default_products_sheets; apply K; assumption.
  - intros q rows' Hq. rewrite new_workbook_lookup by (apply (Hk q rows' Hq)).
    eexists. reflexivity.
  - rewrite Hm in E. injection E as <-.
    unfold product_sheet at 1.
    rewrite (rewrite_summary_sheet_frame summary_tables _ _ _ _ Hs
               (default_products_not_summary p (Hk p rows Hin))).
    rewrite (Hl p rows Hin). cbn [default from_option id].
    unfold product_sheet. rewrite new_workbook_lookup by (apply (Hk p rows Hin)).
    cbn [default from_option id].
    rewrite replace_rows_for_snapshot_eq. reflexivity.
Qed.

Lemma main_first_run_fills_new_sheets_witness :
  let env :=
    {| ProductReport.product_property_name := "product";
       ProductReport.opt_map := ∅; ProductReport.pipeline_label := ∅;
       ProductReport.stage_label := ∅; ProductReport.deal_to_company_id := ∅;
       ProductReport.company_id_to_name := ∅; ProductReport.owners_map := ∅ |} in
  let api :=
    Ok {| ProductReport.api_lookups := env;
          ProductReport.api_deals :=
            [ {| deal_id_raw := PInt 1;
                 properties := {[ "product" := PStr "Tapix" ]} |} ] |} in
  exists d' data rbp wb2,
    ProductReport.main (fun _ => "") (fun _ => Ok []) (Some "pat-1") 739923 api
      {| ProductReport.file := None; ProductReport.saves := [] |}
    = (Ok tt, d')
    /\ api = Ok data
    /\ ProductReport.build_rows (fun _ => "") (ProductReport.api_deals data)
         (ProductReport.week_start_iso 739923) (ProductReport.api_lookups data)
         ProductReport.DEFAULT_PRODUCTS = Ok rbp
    /\ ProductReport.file d' = Some wb2
    /\ ProductReport.saves d'
       = [] ++ [ProductReport.new_workbook ProductReport.DEFAULT_PRODUCTS; wb2]
    /\ forall p rows, (p, rows) ∈ rbp ->
         product_sheet wb2 p = map PStr ProductReport.SHEET_HEADERS :: rows.
Proof.
  intros env api.
  set (run := ProductReport.main (fun _ => "") (fun _ => Ok []) (Some "pat-1")
                739923 api
                {| ProductReport.file := None; ProductReport.saves := [] |}).
  assert (E1 : run.1 = Ok tt) by (vm_compute; reflexivity).
  pose proof (surjective_pairing run) as E. rewrite E1 in E.
  exists run.2.
  destruct (main_first_run_fills_new_sheets (fun _ => "") (fun _ => Ok [])
              (Some "pat-1") 739923 api [] run.2 E) as (data & rbp & wb2 & H).
  exists data, rbp, wb2. split; [exact E|exact H].
Defined.

(** ** Totals by owner and stage *)

(** X23.  When the aggregation succeeds, the cell of an owner and a
    stage exists exactly when some deal counts for them, and holds the
    amounts of those deals added from the left to 0.0 in the order of the
    deals. *)
Theorem aggregation_totals_by_owner_and_stage
    (py_repr : pyval -> string) (float_of_str : string -> option float)
    (deals : list deal) (owners_map stage_label_map : gmap string string)
    (data : list (string * list (string * float))) :
  OwnerStageReport.aggregate_amounts_by_owner_and_stage py_repr float_of_str
    deals owners_map stage_label_map = Ok data ->
  exists entries,
    Forall2 (fun d e =>
               deal_entry py_repr float_of_str owners_map stage_label_map d = Ok e)
      deals entries
    /\ forall owner stage,
         cell data owner stage
         = running_total None (amounts_of entries owner stage).
Proof.
  intros H. apply aggregate_loop_totals in H. exact H.
Qed.

Lemma aggregation_totals_by_owner_and_stage_witness :
  let float_of_str s :=
    if String.eqb s "100" then Some (float_lit 100)
    else if String.eqb s "50" then Some (float_lit 50) else None in
  let d owner stage amount :=
    {| deal_id_raw := PNone;
       properties := {[ "hubspot_owner_id" := owner; "dealstage" := PStr stage;
                        "amount" := PStr amount ]} |} in
  let deals := [d (PInt 7) "won" "100"; d PNone "won" "50"; d (PInt 7) "won" "50";
                d (PInt 7) "lost" "n/a"] in
  exists data,
    OwnerStageReport.aggregate_amounts_by_owner_and_stage (fun _ => "") float_of_str
      deals {[ "7" := "Ann" ]} {[ "won" := "Won" ]} = Ok data
    /\ exists entries,
         Forall2 (fun d e =>
                    deal_entry (fun _ => "") float_of_str {[ "7" := "Ann" ]}
                      {[ "won" := "Won" ]} d = Ok e)
           deals entries
         /\ forall owner stage,
              cell data owner stage
              = running_total None (amounts_of entries owner stage).
Proof.
  intros float_of_str d deals. eexists. split; [vm_compute; reflexivity|].
  apply (aggregation_totals_by_owner_and_stage (fun _ => "") float_of_str deals
           {[ "7" := "Ann" ]} {[ "won" := "Won" ]}).
  vm_compute. reflexivity.
Defined.

Example aggregation_totals_example :
  let float_of_str s :=
    if String.eqb s "100" then Some (float_lit 100)
    else if String.eqb s "50" then Some (float_lit 50) else None in
  let d owner stage amount :=
    {| deal_id_raw := PNone;
       properties := {[ "hubspot_owner_id" := owner; "dealstage" := PStr stage;
                        "amount" := PStr amount ]} |} in
  OwnerStageReport.aggregate_amounts_by_owner_and_stage (fun _ => "") float_of_str
    [d (PInt 7) "won" "100"; d PNone "won" "50"; d (PInt 7) "won" "50";
     d (PInt 7) "lost" "n/a"]
    {[ "7" := "Ann" ]} {[ "won" := "Won" ]}
  = Ok [("Ann", [("Won", float_lit 150); ("Unknown stage", float_zero)]);
        ("Unassigned", [("Won", float_lit 50)])].
Proof. vm_compute. reflexivity. Qed.

(** ** Amounts that the aggregation accepts *)

(** X24.  The aggregation succeeds on deals whose amount is null, a
    string or a float and whose stage id is no list and no dictionary: a
    string that is no number never stops it. *)
Theorem aggregation_accepts_text_amounts
    (py_repr : pyval -> string) (float_of_str : string -> option float)
    (deals : list deal) (owners_map stage_label_map : gmap string string) :
  Forall (fun d => hashable (prop_get (properties d) "dealstage")
                   /\ text_amount (prop_get (properties d) "amount")) deals ->
  exists data,
    OwnerStageReport.aggregate_amounts_by_owner_and_stage py_repr float_of_str
      deals owners_map stage_label_map = Ok data.
Proof. intros H. apply aggregate_loop_accepts. exact H. Qed.

Lemma aggregation_accepts_text_amounts_witness :
  let d amount : deal :=
    {| deal_id_raw := PNone; properties := {[ "amount" := amount ]} |} in
  exists data,
    OwnerStageReport.aggregate_amounts_by_owner_and_stage (fun _ => "")
      (fun _ => None) [d (PStr "12,5"); d PNone; d (PFloat float_zero)] ∅ ∅
    = Ok data.
Proof.
  intros d.
  apply (aggregation_accepts_text_amounts (fun _ => "") (fun _ => None)
           [d (PStr "12,5"); d PNone; d (PFloat float_zero)] ∅ ∅).
  repeat constructor.
Defined.

(** X25.  The only errors that the aggregation raises are [TypeError]
    and [OverflowError]; a [ValueError] never leaves it. *)
Theorem aggregation_raises_type_or_overflow_only
    (py_repr : pyval -> string) (float_of_str : string -> option float)
    (deals : list deal) (owners_map stage_label_map : gmap string string)
    (e : exn) :
  OwnerStageReport.aggregate_amounts_by_owner_and_stage py_repr float_of_str
    deals owners_map stage_label_map = Raise e ->
  e = TypeError \/ e = OverflowError.
Proof. apply aggregate_loop_errors. Qed.

Lemma aggregation_raises_type_or_overflow_only_witness :
  let deals :=
    [ {| deal_id_raw := PNone;
         properties := {[ "amount" := PInt (2 ^ 1024) ]} |} ] in
  exists e,
    OwnerStageReport.aggregate_amounts_by_owner_and_stage (fun _ => "")
      (fun _ => None) deals ∅ ∅ = Raise e
    /\ (e = TypeError \/ e = OverflowError).
Proof.
  intros deals. eexists. split; [vm_compute; reflexivity|].
  apply (aggregation_raises_type_or_overflow_only (fun _ => "") (fun _ => None)
           deals ∅ ∅).
  vm_compute. reflexivity.
Defined.

(** ** Titles of the owner sheets *)

Section SafeTitle.
Import OwnerStageReport.

Lemma blanked_not_forbidden title c :
  c ∈ PyString.chars (blanked title) -> forbidden c = false.
Proof.
  unfold blanked. rewrite chars_of_chars. intros H.
  apply list_elem_of_fmap in H as (x & -> & _).
  destruct (forbidden x) eqn:E; [reflexivity|exact E].
Qed.

End SafeTitle.

Lemma safe_title_valid (title : string) :
  OwnerStageReport.safe_title title <> ""
  /\ PyString.strip (OwnerStageReport.safe_title title)
     = OwnerStageReport.safe_title title
  /\ Forall (fun c => forbidden c = false)
       (PyString.chars (OwnerStageReport.safe_title title)).
Proof.
  unfold OwnerStageReport.safe_title. rewrite replace_loop_blanked.
  unfold PyString.or_else.
  destruct (PyString.strip (blanked title)) as [|c s] eqn:E; cbn [PyString.nonempty].
  - split; [discriminate|]. split; [reflexivity|].
    repeat constructor.
  - rewrite <- E. split; [rewrite E; discriminate|].
    split; [apply strip_idempotent|].
    apply Forall_forall. intros x Hx. apply strip_chars_subset in Hx.
    apply (blanked_not_forbidden title x Hx).
Qed.

(** X26.  The title that [ensure_sheet] looks up is never empty, has
    no white space around it and none of the characters that a sheet title
    may not hold; the title it creates a sheet with is never empty, has at
    most 31 characters and none of those characters. *)
Theorem sheet_titles_are_valid (title : string) :
  let safe := OwnerStageReport.safe_title title in
  let created := PyString.prefix 31 safe in
  (safe <> "" /\ PyString.strip safe = safe
   /\ Forall (fun c => forbidden c = false) (PyString.chars safe))
  /\ (created <> "" /\ (length (PyString.chars created) <= 31)%nat
      /\ Forall (fun c => forbidden c = false) (PyString.chars created)).
Proof.
  cbv zeta. destruct (safe_title_valid title) as (H1 & H2 & H3).
  split; [repeat split; assumption|].
  unfold PyString.prefix. rewrite chars_of_chars. split; [|split].
  - destruct (OwnerStageReport.safe_title title) as [|c s]; [congruence|].
    discriminate.
  - rewrite length_take. lia.
  - apply Forall_take. exact H3.
Qed.

(** ** Sheets that the owner report leaves alone *)

Section OwnerSheets.
Import OwnerStageReport.
Variable granted_title : list string -> string -> string.

Lemma foldl_title {A} (f : worksheet -> A -> worksheet) l :
  (forall ws a, title (f ws a) = title ws) ->
  forall ws, title (foldl f ws l) = title ws.
Proof.
  intros Hf. induction l as [|a l IH]; intros ws; [reflexivity|].
  cbn [foldl]. rewrite IH. apply Hf.
Qed.

Lemma add_stage_rows_title stages :
  forall st, title (sheet (foldl add_stage_row st stages)) = title (sheet st).
Proof.
  induction stages as [|s stages IH]; intros st; [reflexivity|].
  cbn [foldl]. rewrite IH. unfold add_stage_row.
  destruct (existing_rows st !! s); reflexivity.
Qed.

Lemma write_owner_title week order sums ws :
  title (write_owner week order sums ws) = title ws.
Proof.
  unfold write_owner.
  set (ws1 := if _ : bool then set_cell ws 1 1 (PStr "Stage") else ws).
  assert (H1 : title ws1 = title ws) by (subst ws1; destruct (_ || _); reflexivity).
  destruct (list_find _ _) as [[i h]|].
  - rewrite foldl_title.
    + rewrite !add_stage_rows_title. exact H1.
    + intros w kv. destruct (_ !! kv.1); reflexivity.
  - rewrite foldl_title.
    + rewrite !add_stage_rows_title. exact H1.
    + intros w kv. destruct (_ !! kv.1); reflexivity.
Qed.

Lemma find_sheet_Some wb name j :
  find_sheet wb name = Some j ->
  exists ws, wb !! j = Some ws /\ title ws = name.
Proof.
  unfold find_sheet. destruct (list_find _ wb) as [[i x]|] eqn:E; [|discriminate].
  intros [= <-]. apply list_find_Some in E as (H1 & H2 & _).
  exists x. split; assumption.
Qed.

Lemma map_insert_same {A B} (f : A -> B) (l : list A) j x y :
  l !! j = Some y -> f x = f y -> map f (<[j := x]> l) = map f l.
Proof.
  revert j. induction l as [|a l IH]; intros j Hj Hf; [reflexivity|].
  destruct j as [|j]; cbn in *.
  - injection Hj as ->. rewrite Hf. reflexivity.
  - f_equal. apply IH; assumption.
Qed.

(** One iteration of the loop over the owners. *)
Lemma write_owner_step week order (wb : list worksheet) (kv : string * list (string * float)) :
  let wb2 :=
    let '(wb1, i) := ensure_sheet granted_title wb kv.1 in
    match wb1 !! i with
    | Some ws => <[i := write_owner week order kv.2 ws]> wb1
    | None => wb1
    end in
  (length wb <= length wb2)%nat
  /\ take (length wb) (sheetnames wb2) = sheetnames wb
  /\ forall i ws, wb !! i = Some ws -> safe_title kv.1 <> title ws ->
       wb2 !! i = Some ws.
Proof.
  unfold ensure_sheet.
  destruct (find_sheet wb (safe_title kv.1)) as [j|] eqn:E.
  - apply find_sheet_Some in E as (wsj & Hj & Ht). rewrite Hj. cbv zeta.
    split; [rewrite length_insert; lia|]. split.
    + rewrite firstn_all2 by (unfold sheetnames; rewrite length_map, length_insert; lia).
      unfold sheetnames. apply (map_insert_same title wb j _ wsj Hj).
      apply write_owner_title.
    + intros i ws Hi Hne.
      rewrite list_lookup_insert_ne; [exact Hi|].
      intros ->. rewrite Hj in Hi. injection Hi as <-. congruence.
  - unfold create_sheet. rewrite lookup_app_r by lia.
    rewrite Nat.sub_diag. cbn [lookup list_lookup]. cbv zeta.
    rewrite insert_app_r_alt by lia. rewrite Nat.sub_diag. cbn [insert list_insert].
    split; [rewrite length_app; simpl; lia|]. split.
    + unfold sheetnames. rewrite map_app, take_app_length'; [reflexivity|].
      rewrite length_map. reflexivity.
    + intros i ws Hi _. rewrite lookup_app_l; [exact Hi|].
      apply lookup_lt_Some in Hi. exact Hi.
Qed.

Lemma write_owners_frame week order data :
  forall wb,
  (length wb <= length (write_owners granted_title week order data wb))%nat
  /\ take (length wb) (sheetnames (write_owners granted_title week order data wb))
     = sheetnames wb
  /\ forall i ws, wb !! i = Some ws ->
       (forall owner, owner ∈ data.*1 -> safe_title owner <> title ws) ->
       write_owners granted_title week order data wb !! i = Some ws.
Proof.
  unfold write_owners.
  induction data as [|kv data IH]; intros wb.
  - cbn [foldl]. split; [lia|]. split.
    + apply firstn_all2. unfold sheetnames. rewrite length_map. lia.
    + intros i ws Hi _. exact Hi.
  - cbn [foldl].
    destruct (write_owner_step week order wb kv) as (L1 & T1 & F1).
    match goal with |- context [foldl _ ?w data] => set (wb2 := w) in * end.
    destruct (IH wb2) as (L2 & T2 & F2).
    split; [lia|]. split.
    + rewrite <- T1, <- T2. rewrite take_take. f_equal. lia.
    + intros i ws Hi Hne. apply F2.
      * apply F1; [exact Hi|]. apply Hne. cbn. left.
      * intros owner Ho. apply Hne. cbn. right. exact Ho.
Qed.

End OwnerSheets.

(** X27.  [write_snapshot_to_excel] on an existing workbook keeps
    every sheet in its place and under its title, and leaves a sheet whose
    title is the sanitized name of no owner of the run as it was. *)
Theorem write_snapshot_leaves_other_sheets
    (granted_title : list string -> string -> string)
    (wb : list OwnerStageReport.worksheet) (week_label : string)
    (data_by_owner : list (string * list (string * float)))
    (default_stage_order : list string) :
  let wb' :=
    OwnerStageReport.write_snapshot_to_excel granted_title (Some wb) week_label
      data_by_owner default_stage_order in
  take (length wb) (OwnerStageReport.sheetnames wb') = OwnerStageReport.sheetnames wb
  /\ forall i ws, wb !! i = Some ws ->
       (forall owner, owner ∈ data_by_owner.*1 ->
          OwnerStageReport.safe_title owner <> OwnerStageReport.title ws) ->
       wb' !! i = Some ws.
Proof.
  cbv zeta. unfold OwnerStageReport.write_snapshot_to_excel. cbn [default from_option id].
  destruct (write_owners_frame granted_title week_label default_stage_order
              data_by_owner wb) as (_ & H1 & H2).
  split; assumption.
Qed.

(** ** The week of the owner report *)

(** X28.  From the eighth day of the calendar on,
    [previous_week_label] returns the Monday and the Sunday of the week
    before the one of [now_local], with the time of day kept: the Sunday
    is in the past, and every day of one week gives the same label and
    the same two dates. *)
Theorem previous_week_label_is_last_week {T : Type} (d : Z) (t : T) :
  8 <= d ->
  exists label monday,
    OwnerStageReport.previous_week_label (d, t)
    = Ok (label, (monday, t), (monday + 6, t))
    /\ ProductReport.weekday monday = 0
    /\ monday + 7 <= d <= monday + 13
    /\ forall d' (t' : T), monday + 7 <= d' <= monday + 13 ->
         OwnerStageReport.previous_week_label (d', t')
         = Ok (label, (monday, t'), (monday + 6, t')).
Proof.
  intros Hd.
  set (m := d - ProductReport.weekday d - 7).
  pose (lab := fun m =>
    let '(iso_year, iso_week, _) := OwnerStageReport.isocalendar m in
    pretty iso_year +:+ "-W" +:+ ProductReport.zero_padded 2 iso_week +:+ " ("
    +:+ ProductReport.isoformat m +:+ "—"
    +:+ ProductReport.isoformat (m + 6) +:+ ")").
  assert (Hm0 : ProductReport.weekday m = 0).
  { subst m. unfold ProductReport.weekday. Z.div_mod_to_equations. lia. }
  assert (Hm1 : 1 <= m /\ m + 7 <= d <= m + 13).
  { subst m. unfold ProductReport.weekday. Z.div_mod_to_equations. lia. }
  assert (E : forall d' (t' : T), m + 7 <= d' <= m + 13 ->
            OwnerStageReport.previous_week_label (d', t')
            = Ok (lab m, (m, t'), (m + 6, t'))).
  { intros d' t' Hd'.
    assert (Hw : ProductReport.weekday d' = d' - m - 7).
    { unfold ProductReport.weekday in *. Z.div_mod_to_equations. lia. }
    unfold OwnerStageReport.previous_week_label, OwnerStageReport.shift_days,
      OwnerStageReport.MIN_ORDINAL.
    cbn [fst snd]. rewrite Hw.
    replace (d' + - (d' - m - 7)) with (m + 7) by lia.
    destruct (Z.ltb_spec (m + 7) 1) as [?|_]; [lia|].
    cbn [mbind result_bind fst snd].
    replace (m + 7 + -7) with m by lia.
    destruct (Z.ltb_spec m 1) as [?|_]; [lia|].
    cbn [mbind result_bind fst snd].
    destruct (Z.ltb_spec (m + 6) 1) as [?|_]; [lia|].
    cbn [mbind result_bind fst snd].
    subst lab. cbv beta. destruct (OwnerStageReport.isocalendar m) as [[y w] dd].
    reflexivity. }
  exists (lab m), m. split; [apply E; lia|]. split; [exact Hm0|].
  split; [lia|]. exact E.
Qed.

Lemma previous_week_label_is_last_week_witness :
  exists label monday,
    OwnerStageReport.previous_week_label (739923, tt)
    = Ok (label, (monday, tt), (monday + 6, tt))
    /\ ProductReport.weekday monday = 0
    /\ monday + 7 <= 739923 <= monday + 13
    /\ forall d' (t' : unit), monday + 7 <= d' <= monday + 13 ->
         OwnerStageReport.previous_week_label (d', t')
         = Ok (label, (monday, t'), (monday + 6, t')).
Proof. apply (previous_week_label_is_last_week 739923 tt). lia. Defined.

Example previous_week_label_2026_11_03 :
  OwnerStageReport.previous_week_label (739923, tt)
  = Ok ("2026-W44 (2026-10-26—2026-11-01)", (739915, tt), (739921, tt)).
Proof. vm_compute. reflexivity. Qed.

Example previous_week_label_new_year :
  OwnerStageReport.previous_week_label (739988, tt)
  = Ok ("2026-W53 (2026-12-28—2027-01-03)", (739978, tt), (739984, tt)).
Proof. vm_compute. reflexivity. Qed.

Example previous_week_label_year_one :
  OwnerStageReport.previous_week_label (7, tt) = Raise OverflowError.
Proof. reflexivity. Qed.

(** ** What a run writes on the sheet of an owner *)

Section WriteOwner.
Import OwnerStageReport.

Lemma cell_value_set_cell ws r c v r' c' :
  cell_value (set_cell ws r c v) r' c'
  = if decide ((r, c) = (r', c')) then v else cell_value ws r' c'.
Proof.
  unfold cell_value, set_cell. cbn [cells].
  destruct (decide ((r, c) = (r', c'))) as [<-|Hne].
  - rewrite lookup_insert_eq. reflexivity.
  - rewrite lookup_insert_ne by exact Hne. reflexivity.
Qed.

Lemma max_row_pos ws : (1 <= max_row ws)%nat.
Proof.
  unfold max_row.
  apply (map_fold_weak_ind (fun (n : nat) (_ : gmap (nat * nat) pyval) => (1 <= n)%nat)).
  - lia.
  - intros i x m r _ Hr. lia.
Qed.

Lemma max_column_pos ws : (1 <= max_column ws)%nat.
Proof.
  unfold max_column.
  apply (map_fold_weak_ind (fun (n : nat) (_ : gmap (nat * nat) pyval) => (1 <= n)%nat)).
  - lia.
  - intros i x m r _ Hr. lia.
Qed.

Lemma eq_str_true v s : eq_str v s = true -> v = PStr s.
Proof.
  destruct v; try discriminate. simpl. intros H.
  apply String.eqb_eq in H. subst. reflexivity.
Qed.

Lemma existing_scan_from ws todo :
  forall done (m0 : gmap string nat),
  (forall s r, m0 !! s = Some r -> r ∈ done /\ cell_value ws r 1 = PStr s) ->
  forall s r,
    foldl (fun m r =>
             match cell_value ws r 1 with
             | PStr lbl => if PyString.nonempty lbl then <[lbl := r]> m else m
             | _ => m
             end) m0 todo !! s = Some r ->
    r ∈ done ++ todo /\ cell_value ws r 1 = PStr s.
Proof.
  induction todo as [|x todo IH]; intros done m0 H0 s r H.
  - rewrite app_nil_r. apply H0. exact H.
  - cbn [foldl] in H.
    replace (done ++ x :: todo) with ((done ++ [x]) ++ todo)
      by (rewrite <- app_assoc; reflexivity).
    refine (IH (done ++ [x]) _ _ s r H).
    intros s' r' Hl.
    assert (Hold : m0 !! s' = Some r' ->
                   r' ∈ done ++ [x] /\ cell_value ws r' 1 = PStr s').
    { intros Hm. destruct (H0 _ _ Hm) as [H1 H2]. split; [|exact H2].
      apply elem_of_app. left. exact H1. }
    destruct (cell_value ws x 1) as [| | | |lbl| |] eqn:Ec; try (apply Hold, Hl).
    destruct (PyString.nonempty lbl); [|apply Hold, Hl].
    destruct (decide (lbl = s')) as [->|Hne].
    + rewrite lookup_insert_eq in Hl. injection Hl as <-.
      split; [|exact Ec]. apply elem_of_app. right. left.
    + rewrite lookup_insert_ne in Hl by exact Hne. apply Hold, Hl.
Qed.

Lemma add_stage_rows_spec stages :
  forall st,
  rows_indexed st -> (2 <= next_row st)%nat ->
  rows_indexed (foldl add_stage_row st stages)
  /\ (forall s, s ∈ stages ->
        is_Some (existing_rows (foldl add_stage_row st stages) !! s))
  /\ (forall s, is_Some (existing_rows st !! s) ->
        is_Some (existing_rows (foldl add_stage_row st stages) !! s))
  /\ (forall r c, c <> 1%nat \/ r = 1%nat ->
        cell_value (sheet (foldl add_stage_row st stages)) r c
        = cell_value (sheet st) r c)
  /\ (next_row st <= next_row (foldl add_stage_row st stages))%nat.
Proof.
  induction stages as [|x stages IH]; intros st Hinv Hn.
  - cbn [foldl]. split; [exact Hinv|].
    split; [intros s Hs; apply elem_of_nil in Hs as []|].
    split; [intros s Hs; exact Hs|]. split; [intros r c _; reflexivity|lia].
  - cbn [foldl]. unfold add_stage_row at 2 4 6 8 10.
    destruct (existing_rows st !! x) as [rx|] eqn:Ex.
    + destruct (IH st Hinv Hn) as (I1 & I2 & I3 & I4 & I5).
      split; [exact I1|]. split; [|split; [exact I3|split; [exact I4|exact I5]]].
      intros s Hs. apply elem_of_cons in Hs as [->|Hs]; [|apply I2, Hs].
      apply I3. rewrite Ex. eexists. reflexivity.
    + set (st1 := {| sheet := set_cell (sheet st) (next_row st) 1 (PStr x);
                     existing_rows := <[x := next_row st]> (existing_rows st);
                     next_row := S (next_row st) |}).
      assert (Hinv1 : rows_indexed st1).
      { intros s r Hl. cbn [existing_rows next_row sheet st1] in *.
        rewrite cell_value_set_cell.
        destruct (decide (x = s)) as [->|Hne].
        - rewrite lookup_insert_eq in Hl. injection Hl as <-.
          rewrite decide_True by reflexivity. split; [lia|reflexivity].
        - rewrite lookup_insert_ne in Hl by exact Hne.
          destruct (Hinv s r Hl) as [H1 H2].
          rewrite decide_False by (intros [= E]; lia).
          split; [lia|exact H2]. }
      destruct (IH st1 Hinv1 ltac:(cbn; lia)) as (I1 & I2 & I3 & I4 & I5).
      split; [exact I1|]. split; [|split; [|split]].
      * intros s Hs. apply elem_of_cons in Hs as [->|Hs]; [|apply I2, Hs].
        apply I3. cbn [existing_rows st1]. rewrite lookup_insert_eq.
        eexists. reflexivity.
      * intros s [r Hs]. apply I3. cbn [existing_rows st1].
        destruct (decide (x = s)) as [->|Hne].
        -- rewrite lookup_insert_eq. eexists. reflexivity.
        -- rewrite lookup_insert_ne by exact Hne. rewrite Hs. eexists. reflexivity.
      * intros r c Hc. rewrite I4 by exact Hc. cbn [sheet st1].
        rewrite cell_value_set_cell. apply decide_False.
        intros [= E1 E2]. destruct Hc as [Hc|Hc]; [congruence|lia].
      * cbn [next_row st1] in I5. lia.
Qed.

Lemma write_values (existing : gmap string nat) (wc : nat) :
  (forall s1 s2 r, existing !! s1 = Some r -> existing !! s2 = Some r -> s1 = s2) ->
  forall (sums : list (string * float)) ws,
  NoDup sums.*1 ->
  (forall s v r, (s, v) ∈ sums -> existing !! s = Some r ->
     cell_value
       (foldl (fun ws kv =>
                 match existing !! kv.1 with
                 | Some r => set_cell ws r wc (PFloat kv.2)
                 | None => ws
                 end) ws sums) r wc = PFloat v)
  /\ (forall r c,
        c <> wc \/ (forall s, s ∈ sums.*1 -> existing !! s <> Some r) ->
        cell_value
          (foldl (fun ws kv =>
                    match existing !! kv.1 with
                    | Some r => set_cell ws r wc (PFloat kv.2)
                    | None => ws
                    end) ws sums) r c = cell_value ws r c).
Proof.
  intros Hinj. induction sums as [|[s0 v0] sums IH]; intros ws Hnd.
  - cbn [foldl]. split; [|reflexivity].
    intros s v r Hin. apply elem_of_nil in Hin as [].
  - cbn [foldl fst snd]. cbn [fmap list_fmap fst] in Hnd.
    apply NoDup_cons in Hnd as [Hn0 Hnd].
    split.
    + intros s v r Hin Hr. apply elem_of_cons in Hin as [[= -> ->]|Hin].
      * rewrite Hr.
        destruct (IH (set_cell ws r wc (PFloat v0)) Hnd) as [_ F].
        rewrite F.
        -- rewrite cell_value_set_cell. apply decide_True. reflexivity.
        -- right. intros s Hs Hs'. rewrite (Hinj _ _ _ Hs' Hr) in Hs. contradiction.
      * destruct (IH (match existing !! s0 with
                      | Some r => set_cell ws r wc (PFloat v0)
                      | None => ws
                      end) Hnd) as [V _].
        apply (V s v r Hin Hr).
    + intros r c Hc.
      destruct (IH (match existing !! s0 with
                    | Some r => set_cell ws r wc (PFloat v0)
                    | None => ws
                    end) Hnd) as [_ F].
      rewrite F.
      * destruct (existing !! s0) as [r0|] eqn:E0; [|reflexivity].
        rewrite cell_value_set_cell. apply decide_False. intros [= -> ->].
        destruct Hc as [Hc|Hc]; [congruence|].
        apply (Hc s0); [left|exact E0].
      * destruct Hc as [Hc|Hc]; [left; exact Hc|].
        right. intros s Hs. apply Hc. right. exact Hs.
Qed.

Lemma write_owner_tail (ws2 : worksheet) (wc : nat) order
    (sums : list (string * float)) :
  (2 <= wc)%nat -> NoDup sums.*1 ->
  let existing :=
    foldl (fun m r =>
             match cell_value ws2 r 1 with
             | PStr lbl => if PyString.nonempty lbl then <[lbl := r]> m else m
             | _ => m
             end)
      ∅ (seq 2 (max_row ws2 - 1)) in
  let st0 := {| sheet := ws2; existing_rows := existing;
                next_row := S (max_row ws2) |} in
  let st1 := foldl add_stage_row st0 order in
  let st2 := foldl add_stage_row st1 sums.*1 in
  let ws' :=
    foldl (fun ws kv =>
             match existing_rows st2 !! kv.1 with
             | Some r => set_cell ws r wc (PFloat kv.2)
             | None => ws
             end)
      (sheet st2) sums in
  (forall c, cell_value ws' 1 c = cell_value ws2 1 c)
  /\ (forall s v, (s, v) ∈ sums ->
        exists r, (2 <= r)%nat /\ cell_value ws' r 1 = PStr s
                  /\ cell_value ws' r wc = PFloat v)
  /\ (forall s, s ∈ order ->
        exists r, (2 <= r)%nat /\ cell_value ws' r 1 = PStr s).
Proof.
  intros Hwc Hnd existing st0 st1 st2 ws'.
  pose proof (max_row_pos ws2) as Hmr.
  assert (H0 : rows_indexed st0).
  { intros s r Hl. cbn [existing_rows st0 next_row sheet] in *.
    apply (existing_scan_from ws2 _ [] ∅) in Hl.
    - destruct Hl as [Hr Hc]. cbn [app] in Hr. apply elem_of_seq in Hr.
      split; [lia|exact Hc].
    - intros s' r' Hl'. rewrite lookup_empty in Hl'. discriminate. }
  destruct (add_stage_rows_spec order st0 H0 ltac:(cbn; lia))
    as (I1 & I2 & _ & I4 & I5).
  fold st1 in I1, I2, I4, I5.
  destruct (add_stage_rows_spec sums.*1 st1 I1 ltac:(cbn in I5; lia))
    as (J1 & J2 & J3 & J4 & _).
  fold st2 in J1, J2, J3, J4.
  assert (Hinj : forall s1 s2 r, existing_rows st2 !! s1 = Some r ->
                   existing_rows st2 !! s2 = Some r -> s1 = s2).
  { intros s1 s2 r H1 H2. destruct (J1 _ _ H1) as [_ E1].
    destruct (J1 _ _ H2) as [_ E2]. congruence. }
  destruct (write_values (existing_rows st2) wc Hinj sums (sheet st2) Hnd) as [V F].
  fold ws' in V, F.
  split; [|split].
  - intros c. rewrite F.
    + rewrite J4 by (right; reflexivity). apply I4. right. reflexivity.
    + right. intros s _ Hs. destruct (J1 _ _ Hs) as [Hr _]. lia.
  - intros s v Hin.
    destruct (J2 s) as [r Hr].
    { apply list_elem_of_fmap. exists (s, v). split; [reflexivity|exact Hin]. }
    destruct (J1 _ _ Hr) as [Hr2 Hc]. exists r. split; [lia|]. split.
    + rewrite F by (left; lia). exact Hc.
    + apply (V s v r Hin Hr).
  - intros s Hs. destruct (J3 s (I2 s Hs)) as [r Hr].
    destruct (J1 _ _ Hr) as [Hr2 Hc]. exists r. split; [lia|].
    rewrite F by (left; lia). exact Hc.
Qed.

End WriteOwner.

(** X29.  After the sheet of an owner is written for a week whose label
    is not "Stage", with no stage twice among the totals: cell A1 reads
    "Stage", one column from the second on is headed by the week label,
    every total stands in that column on a row below the header that is
    labelled with its stage, and every stage of the default order has its
    row. *)
Theorem write_owner_records_totals
    (week_label : string) (default_stage_order : list string)
    (stage_sums : list (string * float)) (ws : OwnerStageReport.worksheet) :
  week_label <> "Stage" -> NoDup stage_sums.*1 ->
  let ws' :=
    OwnerStageReport.write_owner week_label default_stage_order stage_sums ws in
  exists week_col,
    (2 <= week_col)%nat
    /\ OwnerStageReport.cell_value ws' 1 1 = PStr "Stage"
    /\ OwnerStageReport.cell_value ws' 1 week_col = PStr week_label
    /\ (forall stage v, (stage, v) ∈ stage_sums ->
          exists r, (2 <= r)%nat
                    /\ OwnerStageReport.cell_value ws' r 1 = PStr stage
                    /\ OwnerStageReport.cell_value ws' r week_col = PFloat v)
    /\ (forall stage, stage ∈ default_stage_order ->
          exists r, (2 <= r)%nat
                    /\ OwnerStageReport.cell_value ws' r 1 = PStr stage).
Proof.
  intros Hw Hnd ws'. subst ws'. unfold OwnerStageReport.write_owner.
  set (ws1 := if _ : bool then OwnerStageReport.set_cell ws 1 1 (PStr "Stage") else ws).
  assert (H11 : OwnerStageReport.cell_value ws1 1 1 = PStr "Stage").
  { subst ws1. destruct (_ <? _)%nat; cbn [orb].
    - rewrite cell_value_set_cell. apply decide_True. reflexivity.
    - destruct (eq_str _ _) eqn:E; cbn [negb].
      + apply eq_str_true. exact E.
      + rewrite cell_value_set_cell. apply decide_True. reflexivity. }
  pose proof (max_column_pos ws1) as Hmc.
  destruct (list_find _ _) as [[i h]|] eqn:E.
  - apply list_find_Some in E as (Hi & Hh & _).
    apply eq_str_true in Hh. subst h.
    rewrite list_lookup_fmap in Hi.
    destruct (seq 1 (OwnerStageReport.max_column ws1) !! i) as [c|] eqn:Ec;
      [|discriminate].
    apply lookup_seq in Ec as [-> Hlt]. cbn [fmap option_fmap option_map] in Hi.
    injection Hi as Hi.
    assert (Hi0 : i <> 0%nat).
    { intros ->. cbn in Hi. rewrite H11 in Hi. congruence. }
    destruct (write_owner_tail ws1 (S i) default_stage_order stage_sums
                ltac:(lia) Hnd) as (T1 & T2 & T3).
    exists (S i). split; [lia|]. split; [rewrite T1; exact H11|].
    split; [rewrite T1; exact Hi|]. split; [exact T2|exact T3].
  - set (wc := S (OwnerStageReport.max_column ws1)).
    destruct (write_owner_tail
                (OwnerStageReport.set_cell ws1 1 wc (PStr week_label))
                wc default_stage_order stage_sums ltac:(subst wc; lia) Hnd)
      as (T1 & T2 & T3).
    exists wc. split; [subst wc; lia|]. split; [|split; [|split; [exact T2|exact T3]]].
    + rewrite T1, cell_value_set_cell.
      rewrite decide_False by (intros [= E']; subst wc; lia). exact H11.
    + rewrite T1, cell_value_set_cell. apply decide_True. reflexivity.
Qed.

Lemma write_owner_records_totals_witness :
  let ws :=
    {| OwnerStageReport.title := "Ann";
       OwnerStageReport.cells :=
         {[ (1, 1)%nat := PStr "Stage"; (1, 2)%nat := PStr "2026-W43";
            (2, 1)%nat := PStr "Won"; (2, 2)%nat := PFloat (float_lit 10) ]} |} in
  let ws' :=
    OwnerStageReport.write_owner "2026-W44" ["Open"; "Won"]
      [("Won", float_lit 20); ("Lost", float_lit 5)] ws in
  exists week_col,
    (2 <= week_col)%nat
    /\ OwnerStageReport.cell_value ws' 1 1 = PStr "Stage"
    /\ OwnerStageReport.cell_value ws' 1 week_col = PStr "2026-W44"
    /\ (forall stage v, (stage, v) ∈ [("Won", float_lit 20); ("Lost", float_lit 5)] ->
          exists r, (2 <= r)%nat
                    /\ OwnerStageReport.cell_value ws' r 1 = PStr stage
                    /\ OwnerStageReport.cell_value ws' r week_col = PFloat v)
    /\ (forall stage, stage ∈ ["Open"; "Won"] ->
          exists r, (2 <= r)%nat
                    /\ OwnerStageReport.cell_value ws' r 1 = PStr stage).
Proof.
  intros ws.
  apply (write_owner_records_totals "2026-W44" ["Open"; "Won"]
           [("Won", float_lit 20); ("Lost", float_lit 5)] ws).
  - discriminate.
  - cbn. repeat constructor; rewrite ?elem_of_cons, ?elem_of_nil; intuition discriminate.
Defined.

Example write_owner_example :
  OwnerStageReport.write_owner "2026-W44" ["Open"; "Won"]
    [("Won", float_lit 20); ("Lost", float_lit 5)]
    {| OwnerStageReport.title := "Ann";
       OwnerStageReport.cells :=
         {[ (1, 1)%nat := PStr "Stage"; (1, 2)%nat := PStr "2026-W43";
            (2, 1)%nat := PStr "Won"; (2, 2)%nat := PFloat (float_lit 10) ]} |}
  = {| OwnerStageReport.title := "Ann";
       OwnerStageReport.cells :=
         {[ (1, 1)%nat := PStr "Stage"; (1, 2)%nat := PStr "2026-W43";
            (1, 3)%nat := PStr "2026-W44";
            (2, 1)%nat := PStr "Won"; (2, 2)%nat := PFloat (float_lit 10);
            (2, 3)%nat := PFloat (float_lit 20);
            (3, 1)%nat := PStr "Open";
            (4, 1)%nat := PStr "Lost"; (4, 3)%nat := PFloat (float_lit 5) ]} |}.
Proof. vm_compute. reflexivity. Qed.

(** With "Stage" for a week label the totals go to the first column, over
    the stage labels. *)
Example write_owner_week_named_stage :
  OwnerStageReport.cell_value
    (OwnerStageReport.write_owner "Stage" [] [("Won", float_lit 20)]
       {| OwnerStageReport.title := "Ann"; OwnerStageReport.cells := ∅ |})
    2 1
  = PFloat (float_lit 20).
Proof. vm_compute. reflexivity. Qed.
